(** * EOD metric submission and analytics roll-ups

    A shallow embedding of the business logic of the sales dashboard:
    the three end-of-day write handlers (closer, setter, dialer), the
    analytics range resolver, the percentage-delta helper and the
    day-bucketed revenue series of the setter analytics page.

    Conventions of the embedding.
    - A JavaScript [number] is [NaN] or a finite value carried as an exact
      rational; comparisons are those of the host.  Sums, differences,
      products and quotients are exact here and rounded to binary64 by the
      host: the two agree wherever every intermediate value is a whole
      number below 2^53.  A statement whose truth depends on that
      agreement names the numbers it is about ([Num.whole], [exactSums]) or
      leaves room for the rounding; infinities are outside the model.
    - The [errors] object of a handler is a finite map from field name to
      message.
    - The database collection of a role is a finite map keyed by the
      compound unique index (personId, date).  The client checks the data
      of a write against the column types of the schema before anything is
      stored ([fitsSchema]).
    - A [Date] of the analytics loader is a count of milliseconds on the
      caller's wall clock, every day lasting 86400000 of them. *)

From Stdlib Require Import ZArith QArith Qround Lia Lqa Ascii.
From stdpp Require Import gmap strings list sorting.


(** ** JavaScript numbers *)

Module Num.

Inductive number : Type :=
| NaN
| Fin (q : Q).

Definition of_Z (z : Z) : number := Fin (inject_Z z).

Definition isNaN (n : number) : bool :=
  match n with NaN => true | Fin _ => false end.

(** [a + b] and [a - b]: [NaN] is absorbing. *)
Definition add (a b : number) : number :=
  match a, b with
  | Fin x, Fin y => Fin (x + y)
  | _, _ => NaN
  end.

Definition sub (a b : number) : number :=
  match a, b with
  | Fin x, Fin y => Fin (x - y)
  | _, _ => NaN
  end.

Definition Qltb (x y : Q) : bool := negb (Qle_bool y x).

(** [a < b], [a > b], [a <= b]: false as soon as one side is [NaN]. *)
Definition lt (a b : number) : bool :=
  match a, b with
  | Fin x, Fin y => Qltb x y
  | _, _ => false
  end.

Definition gt (a b : number) : bool := lt b a.

Definition le (a b : number) : bool :=
  match a, b with
  | Fin x, Fin y => Qle_bool x y
  | _, _ => false
  end.

(** [a == b] and [a != b] on two numbers: [NaN] differs from everything. *)
Definition eq (a b : number) : bool :=
  match a, b with
  | Fin x, Fin y => Qeq_bool x y
  | _, _ => false
  end.

Definition neq (a b : number) : bool := negb (eq a b).

Definition mul (a b : number) : number :=
  match a, b with
  | Fin x, Fin y => Fin (x * y)
  | _, _ => NaN
  end.

(** [a / b]: a quotient by zero is not a finite value; the model has one
    non-finite value. *)
Definition div (a b : number) : number :=
  match a, b with
  | Fin x, Fin y => if Qeq_bool y 0 then NaN else Fin (x / y)
  | _, _ => NaN
  end.

(** [Math.round]: the nearest integer, halves going up. *)
Definition round (a : number) : number :=
  match a with
  | Fin x => Fin (inject_Z (Qfloor (x + (1 # 2))))
  | NaN => NaN
  end.

Definition zero : number := Fin 0.

(** A field is "numeric and non-negative" when it is a finite value at
    least zero. *)
Definition nonneg (n : number) : Prop :=
  match n with NaN => False | Fin q => (0 <= q)%Q end.

(** A finite value with no fractional part. *)
Definition isInteger (n : number) : bool :=
  match n with
  | Fin q => Qeq_bool q (inject_Z (Qfloor q))
  | NaN => false
  end.

(** [lo <= n && n <= hi], for whole bounds. *)
Definition between (lo hi : Z) (n : number) : bool :=
  (le (of_Z lo) n && le n (of_Z hi))%bool.

(** A whole number that a 32-bit signed integer holds. *)
Definition int32 (n : number) : bool :=
  (isInteger n && between (-2147483648) 2147483647 n)%bool.

(** A whole number of magnitude at most 2^50.  binary64 carries every whole
    number up to 2^53, so a sum or difference of up to eight such numbers
    is computed by the host without rounding. *)
Definition whole (n : number) : bool :=
  (isInteger n && between (-1125899906842624) 1125899906842624 n)%bool.

End Num.

Export Num (number, NaN, Fin).

Declare Scope num_scope.
Delimit Scope num_scope with num.
Bind Scope num_scope with number.
Infix "+" := Num.add : num_scope.
Infix "-" := Num.sub : num_scope.
Infix "*" := Num.mul : num_scope.
Infix "/" := Num.div : num_scope.
Infix "<?" := Num.lt : num_scope.
Infix ">?" := Num.gt : num_scope.
Infix "<=?" := Num.le : num_scope.
Infix "=?" := Num.eq : num_scope.
Infix "!=?" := Num.neq (at level 70, no associativity) : num_scope.

(** ** The [errors] object shared by the three write handlers *)

Abbreviation Errors := (gmap string string).

Definition msg_date : string := "Please select a date".
Definition msg_number : string := "Please enter a valid number".

(** Body of the [Object.entries(metrics).forEach] callback. *)
Definition check_entry (errors : Errors) (kv : string * number) : Errors :=
  if (Num.isNaN kv.2 || (kv.2 <? Num.zero)%num)%bool
  then <[kv.1 := msg_number]> errors
  else errors.

(** [if (!date) errors.date = ...] followed by the [forEach] loop. *)
Definition field_errors (date : string) (entries : list (string * number)) : Errors :=
  let errors : Errors := if String.eqb date "" then <["date" := msg_date]> ∅ else ∅ in
  fold_left check_entry entries errors.

(** An errors object all of whose messages are per-field messages. *)
Definition per_field_only (errors : Errors) : Prop :=
  ∀ k v, errors !! k = Some v → v = msg_date ∨ v = msg_number.

(** A cross-field entry of an errors object is one whose message is
    neither of the two per-field messages. *)
Definition is_cross_field (kv : string * string) : Prop :=
  kv.2 ≠ msg_date ∧ kv.2 ≠ msg_number.

Definition cross_field_entries (errors : Errors) : Errors :=
  filter is_cross_field errors.

(** The validation chains read as ordered rule sets: a rule is a violation
    test with the field it reports and its message, and the rule reported
    is the first one violated. *)
Definition Rule : Type := bool * (string * string).

Fixpoint first_failure (rules : list Rule) : option (string * string) :=
  match rules with
  | [] => None
  | (violated, entry) :: rest => if violated then Some entry else first_failure rest
  end.

Definition report (failure : option (string * string)) (errors : Errors) : Errors :=
  match failure with
  | Some (field, message) => <[field := message]> errors
  | None => errors
  end.

(** ** Closer: [app/routes/dashboard/closer-eod/route.tsx], first [action] *)

Module Closer.

Record Metrics : Type := {
  dailyCallsBooked : number;
  shows : number;
  noShows : number;
  cancelled : number;
  disqualified : number;
  rescheduled : number;
  offersMade : number;
  callsTaken : number;
  closes : number;
  cashCollected : number;
  revenueGenerated : number
}.

Definition closerId : string := "67fc6f96c7394b8e022c058d".

(** [Object.entries(metrics)], in declaration order. *)
Definition entries (metrics : Metrics) : list (string * number) :=
  [ ("dailyCallsBooked", dailyCallsBooked metrics);
    ("shows", shows metrics);
    ("noShows", noShows metrics);
    ("cancelled", cancelled metrics);
    ("disqualified", disqualified metrics);
    ("rescheduled", rescheduled metrics);
    ("offersMade", offersMade metrics);
    ("callsTaken", callsTaken metrics);
    ("closes", closes metrics);
    ("cashCollected", cashCollected metrics);
    ("revenueGenerated", revenueGenerated metrics) ].

Definition msg_booked_sum : string :=
  "Daily Calls Booked must equal the sum of Shows, No Shows, Cancelled, Disqualified, and Rescheduled".
Definition msg_shows_exceed : string :=
  "Shows cannot exceed Daily Calls Booked minus Cancelled, Disqualified, and Rescheduled".
Definition msg_noShows_exceed : string :=
  "No Shows cannot exceed Daily Calls Booked minus Shows, Cancelled, Disqualified, and Rescheduled".
Definition msg_shows_zero : string :=
  "Shows cannot be greater than 0 if Daily Calls Booked is 0".
Definition msg_noShows_zero : string :=
  "No Shows cannot be greater than 0 if Daily Calls Booked is 0".
Definition msg_cancelled : string := "Cancelled cannot exceed Daily Calls Booked".
Definition msg_rescheduled : string := "Rescheduled cannot exceed Daily Calls Booked".
Definition msg_callsTaken : string := "Calls Taken cannot exceed Daily Calls Booked".
Definition msg_offersMade : string := "Offers Made cannot exceed Calls Taken".
Definition msg_closes_taken : string := "Closes cannot exceed Calls Taken".
Definition msg_closes_offers : string := "Closes cannot exceed Offers Made".
Definition msg_closes_cash : string :=
  "Closes must be greater than 0 if Cash Collected > 0".
Definition msg_closes_revenue : string :=
  "Closes must be greater than 0 if Revenue Generated > 0".

(** The [if ... else if ...] chain of the handler, acting on [errors].  Its
    sums and differences are exact here and rounded to binary64 by the
    host: no difference when their operands are whole numbers of at most
    2^50 ([sumOperands], [Num.whole]). *)
Definition cross_checks (m : Metrics) (errors : Errors) : Errors :=
  if (dailyCallsBooked m !=?
        shows m + noShows m + cancelled m + disqualified m + rescheduled m)%num
  then <["dailyCallsBooked" := msg_booked_sum]> errors
  else if (shows m >?
             dailyCallsBooked m - cancelled m - disqualified m - rescheduled m)%num
  then <["shows" := msg_shows_exceed]> errors
  else if (noShows m >?
             dailyCallsBooked m - shows m - cancelled m - disqualified m
             - rescheduled m)%num
  then <["noShows" := msg_noShows_exceed]> errors
  else if ((dailyCallsBooked m =? Num.zero)%num && (shows m >? Num.zero)%num)%bool
  then <["shows" := msg_shows_zero]> errors
  else if ((dailyCallsBooked m =? Num.zero)%num && (noShows m >? Num.zero)%num)%bool
  then <["noShows" := msg_noShows_zero]> errors
  else if (cancelled m >? dailyCallsBooked m)%num
  then <["cancelled" := msg_cancelled]> errors
  else if (rescheduled m >? dailyCallsBooked m)%num
  then <["rescheduled" := msg_rescheduled]> errors
  else if (callsTaken m >? dailyCallsBooked m)%num
  then <["callsTaken" := msg_callsTaken]> errors
  else if (offersMade m >? callsTaken m)%num
  then <["offersMade" := msg_offersMade]> errors
  else if (closes m >? callsTaken m)%num
  then <["closes" := msg_closes_taken]> errors
  else if (closes m >? offersMade m)%num
  then <["closes" := msg_closes_offers]> errors
  else if ((cashCollected m >? Num.zero)%num && (closes m <=? Num.zero)%num)%bool
  then <["closes" := msg_closes_cash]> errors
  else if ((revenueGenerated m >? Num.zero)%num && (closes m <=? Num.zero)%num)%bool
  then <["closes" := msg_closes_revenue]> errors
  else errors.

(** The field-validator: everything up to the first database call. *)
Definition validate (date : string) (m : Metrics) : Errors :=
  cross_checks m (field_errors date (entries m)).

(** The chain as an ordered rule set. *)
Definition rules (m : Metrics) : list Rule :=
  [ ((dailyCallsBooked m !=?
        shows m + noShows m + cancelled m + disqualified m + rescheduled m)%num,
     ("dailyCallsBooked", msg_booked_sum));
    ((shows m >?
        dailyCallsBooked m - cancelled m - disqualified m - rescheduled m)%num,
     ("shows", msg_shows_exceed));
    ((noShows m >?
        dailyCallsBooked m - shows m - cancelled m - disqualified m
        - rescheduled m)%num,
     ("noShows", msg_noShows_exceed));
    (((dailyCallsBooked m =? Num.zero)%num && (shows m >? Num.zero)%num)%bool,
     ("shows", msg_shows_zero));
    (((dailyCallsBooked m =? Num.zero)%num && (noShows m >? Num.zero)%num)%bool,
     ("noShows", msg_noShows_zero));
    ((cancelled m >? dailyCallsBooked m)%num, ("cancelled", msg_cancelled));
    ((rescheduled m >? dailyCallsBooked m)%num, ("rescheduled", msg_rescheduled));
    ((callsTaken m >? dailyCallsBooked m)%num, ("callsTaken", msg_callsTaken));
    ((offersMade m >? callsTaken m)%num, ("offersMade", msg_offersMade));
    ((closes m >? callsTaken m)%num, ("closes", msg_closes_taken));
    ((closes m >? offersMade m)%num, ("closes", msg_closes_offers));
    (((cashCollected m >? Num.zero)%num && (closes m <=? Num.zero)%num)%bool,
     ("closes", msg_closes_cash));
    (((revenueGenerated m >? Num.zero)%num && (closes m <=? Num.zero)%num)%bool,
     ("closes", msg_closes_revenue)) ].

(** The columns that model CloserMetrics of the schema declares [Int];
    cashCollected and revenueGenerated are [Float]. *)
Definition intColumns (m : Metrics) : list number :=
  [ dailyCallsBooked m; shows m; noShows m; cancelled m; disqualified m;
    rescheduled m; offersMade m; callsTaken m; closes m ].

(** The operands of the sums and differences of the chain. *)
Definition sumOperands (m : Metrics) : list number :=
  [ dailyCallsBooked m; shows m; noShows m; cancelled m; disqualified m;
    rescheduled m ].

(** A submission whose counters are the given integers and whose other
    fields are zero. *)
Definition booked (b s n c d r : Z) : Metrics :=
  {| dailyCallsBooked := Num.of_Z b; shows := Num.of_Z s; noShows := Num.of_Z n;
     cancelled := Num.of_Z c; disqualified := Num.of_Z d; rescheduled := Num.of_Z r;
     offersMade := Num.zero; callsTaken := Num.zero; closes := Num.zero;
     cashCollected := Num.zero; revenueGenerated := Num.zero |}.

End Closer.

(** ** Setter: [app/routes/dashboard/closer-eod/route.tsx], second [action] *)

Module Setter.

Record Metrics : Type := {
  dailyOutboundConversations : number;
  inboundConversations : number;
  followUps : number;
  callsProposed : number;
  totalHighTicketSalesCallsBooked : number;
  setsScheduled : number;
  setsTaken : number;
  closedSets : number;
  revenueGenerated : number;
  newCashCollected : number;
  recurringCashCollected : number;
  downsellRevenue : number
}.

Definition setterId : string := "67fdc943d17d6b5629513257".

Definition entries (metrics : Metrics) : list (string * number) :=
  [ ("dailyOutboundConversations", dailyOutboundConversations metrics);
    ("inboundConversations", inboundConversations metrics);
    ("followUps", followUps metrics);
    ("callsProposed", callsProposed metrics);
    ("totalHighTicketSalesCallsBooked", totalHighTicketSalesCallsBooked metrics);
    ("setsScheduled", setsScheduled metrics);
    ("setsTaken", setsTaken metrics);
    ("closedSets", closedSets metrics);
    ("revenueGenerated", revenueGenerated metrics);
    ("newCashCollected", newCashCollected metrics);
    ("recurringCashCollected", recurringCashCollected metrics);
    ("downsellRevenue", downsellRevenue metrics) ].

Definition msg_callsProposed : string :=
  "Cannot exceed New Outbound Convos + New Inbound Convos + Follow-Ups".
Definition msg_booked : string := "Cannot exceed Calls Proposed".
Definition msg_setsTaken : string := "Cannot exceed Sets Scheduled Today".
Definition msg_closedSets : string := "Cannot exceed Sets Taken Today".
Definition msg_revenue_sum : string :=
  "Must be greater than or equal to New Cash Collected + Recurring Cash Collected + Downsell Revenue".
Definition msg_exceeds_revenue : string := "Cannot exceed Revenue Generated".

(** The chain of the setter handler.  Its two sums are exact here and
    rounded to binary64 by the host: no difference when their operands are
    whole numbers of at most 2^50 ([sumOperands]); on amounts with decimals
    the host may decide the revenue rule differently. *)
Definition cross_checks (m : Metrics) (errors : Errors) : Errors :=
  if (callsProposed m >?
        dailyOutboundConversations m + inboundConversations m + followUps m)%num
  then <["callsProposed" := msg_callsProposed]> errors
  else if (callsProposed m <? totalHighTicketSalesCallsBooked m)%num
  then <["totalHighTicketSalesCallsBooked" := msg_booked]> errors
  else if (setsTaken m >? setsScheduled m)%num
  then <["setsTaken" := msg_setsTaken]> errors
  else if (closedSets m >? setsTaken m)%num
  then <["closedSets" := msg_closedSets]> errors
  else if (revenueGenerated m <?
             newCashCollected m + recurringCashCollected m + downsellRevenue m)%num
  then <["revenueGenerated" := msg_revenue_sum]> errors
  else if (newCashCollected m >? revenueGenerated m)%num
  then <["newCashCollected" := msg_exceeds_revenue]> errors
  else if (recurringCashCollected m >? revenueGenerated m)%num
  then <["recurringCashCollected" := msg_exceeds_revenue]> errors
  else if (downsellRevenue m >? revenueGenerated m)%num
  then <["downsellRevenue" := msg_exceeds_revenue]> errors
  else errors.

Definition validate (date : string) (m : Metrics) : Errors :=
  cross_checks m (field_errors date (entries m)).

Definition rules (m : Metrics) : list Rule :=
  [ ((callsProposed m >?
        dailyOutboundConversations m + inboundConversations m + followUps m)%num,
     ("callsProposed", msg_callsProposed));
    ((callsProposed m <? totalHighTicketSalesCallsBooked m)%num,
     ("totalHighTicketSalesCallsBooked", msg_booked));
    ((setsTaken m >? setsScheduled m)%num, ("setsTaken", msg_setsTaken));
    ((closedSets m >? setsTaken m)%num, ("closedSets", msg_closedSets));
    ((revenueGenerated m <?
        newCashCollected m + recurringCashCollected m + downsellRevenue m)%num,
     ("revenueGenerated", msg_revenue_sum));
    ((newCashCollected m >? revenueGenerated m)%num,
     ("newCashCollected", msg_exceeds_revenue));
    ((recurringCashCollected m >? revenueGenerated m)%num,
     ("recurringCashCollected", msg_exceeds_revenue));
    ((downsellRevenue m >? revenueGenerated m)%num,
     ("downsellRevenue", msg_exceeds_revenue)) ].

(** Every field of the submission is numeric and non-negative. *)
Definition all_nonneg (m : Metrics) : Prop :=
  Forall (λ kv, Num.nonneg kv.2) (entries m).

(** The columns that model SetterMetrics declares [Int]; the four revenue
    fields are [Float]. *)
Definition intColumns (m : Metrics) : list number :=
  [ dailyOutboundConversations m; inboundConversations m; followUps m;
    callsProposed m; totalHighTicketSalesCallsBooked m; setsScheduled m;
    setsTaken m; closedSets m ].

(** The operands of the two sums of the chain. *)
Definition sumOperands (m : Metrics) : list number :=
  [ dailyOutboundConversations m; inboundConversations m; followUps m;
    newCashCollected m; recurringCashCollected m; downsellRevenue m ].

(** A day with forty conversations and two closed sets, with the given
    revenue and its three-way breakdown. *)
Definition day (revenue newCash recurring downsell : Q) : Metrics :=
  {| dailyOutboundConversations := Num.of_Z 25; inboundConversations := Num.of_Z 10;
     followUps := Num.of_Z 5; callsProposed := Num.of_Z 8;
     totalHighTicketSalesCallsBooked := Num.of_Z 6; setsScheduled := Num.of_Z 4;
     setsTaken := Num.of_Z 3; closedSets := Num.of_Z 2;
     revenueGenerated := Fin revenue; newCashCollected := Fin newCash;
     recurringCashCollected := Fin recurring; downsellRevenue := Fin downsell |}.

End Setter.

(** ** Dialer: the [action] of the dialer EOD route *)

Module Dialer.

Record Metrics : Type := {
  dials : number;
  connects : number;
  conversations : number;
  qualifiedConversations : number;
  meetingsScheduled : number;
  meetingsSet : number;
  meetingsShowed : number;
  noShows : number;
  closedDeals : number;
  revenueGenerated : number;
  cashCollected : number
}.

Definition dialerId : string := "67f6010aa713d700b8bee6ec".

Definition entries (metrics : Metrics) : list (string * number) :=
  [ ("dials", dials metrics);
    ("connects", connects metrics);
    ("conversations", conversations metrics);
    ("qualifiedConversations", qualifiedConversations metrics);
    ("meetingsScheduled", meetingsScheduled metrics);
    ("meetingsSet", meetingsSet metrics);
    ("meetingsShowed", meetingsShowed metrics);
    ("noShows", noShows metrics);
    ("closedDeals", closedDeals metrics);
    ("revenueGenerated", revenueGenerated metrics);
    ("cashCollected", cashCollected metrics) ].

Definition msg_connects : string := "Connects cannot exceed Dials".
Definition msg_conversations : string := "Conversations cannot exceed Connects".
Definition msg_qualified : string :=
  "Qualified Conversations cannot exceed Conversations".
Definition msg_scheduled : string := "Meetings Scheduled cannot be negative".
Definition msg_showed : string := "Meetings Showed cannot exceed Meetings Set".
Definition msg_noShows : string := "No Shows cannot exceed Meetings Set".
Definition msg_meetingsSet : string :=
  "Meetings Set must equal Meetings Showed + No Shows".
Definition msg_closedDeals : string := "Closed Deals cannot exceed Meetings Showed".
Definition msg_revenue : string :=
  "Revenue Generated must be greater than 0 if Closed Deals > 0".
Definition msg_cash : string :=
  "Closed Deals must be greater than 0 if cash was collected".

Definition cross_checks (m : Metrics) (errors : Errors) : Errors :=
  if (connects m >? dials m)%num
  then <["connects" := msg_connects]> errors
  else if (conversations m >? connects m)%num
  then <["conversations" := msg_conversations]> errors
  else if (qualifiedConversations m >? conversations m)%num
  then <["qualifiedConversations" := msg_qualified]> errors
  else if (meetingsScheduled m <? Num.zero)%num
  then <["meetingsScheduled" := msg_scheduled]> errors
  else if (meetingsShowed m >? meetingsSet m)%num
  then <["meetingsShowed" := msg_showed]> errors
  else if (noShows m >? meetingsSet m)%num
  then <["noShows" := msg_noShows]> errors
  else if (meetingsSet m !=? meetingsShowed m + noShows m)%num
  then <["meetingsSet" := msg_meetingsSet]> errors
  else if (closedDeals m >? meetingsShowed m)%num
  then <["closedDeals" := msg_closedDeals]> errors
  else if ((revenueGenerated m <? Num.zero)%num && (closedDeals m >? Num.zero)%num)%bool
  then <["revenueGenerated" := msg_revenue]> errors
  else if ((cashCollected m >? Num.zero)%num && (closedDeals m <=? Num.zero)%num)%bool
  then <["closedDeals" := msg_cash]> errors
  else errors.

Definition validate (date : string) (m : Metrics) : Errors :=
  cross_checks m (field_errors date (entries m)).

Definition rules (m : Metrics) : list Rule :=
  [ ((connects m >? dials m)%num, ("connects", msg_connects));
    ((conversations m >? connects m)%num, ("conversations", msg_conversations));
    ((qualifiedConversations m >? conversations m)%num,
     ("qualifiedConversations", msg_qualified));
    ((meetingsScheduled m <? Num.zero)%num, ("meetingsScheduled", msg_scheduled));
    ((meetingsShowed m >? meetingsSet m)%num, ("meetingsShowed", msg_showed));
    ((noShows m >? meetingsSet m)%num, ("noShows", msg_noShows));
    ((meetingsSet m !=? meetingsShowed m + noShows m)%num,
     ("meetingsSet", msg_meetingsSet));
    ((closedDeals m >? meetingsShowed m)%num, ("closedDeals", msg_closedDeals));
    (((revenueGenerated m <? Num.zero)%num && (closedDeals m >? Num.zero)%num)%bool,
     ("revenueGenerated", msg_revenue));
    (((cashCollected m >? Num.zero)%num && (closedDeals m <=? Num.zero)%num)%bool,
     ("closedDeals", msg_cash)) ].

Definition all_nonneg (m : Metrics) : Prop :=
  Forall (λ kv, Num.nonneg kv.2) (entries m).

(** The columns that model DialerMetrics declares [Int]; revenueGenerated
    and cashCollected are [Float]. *)
Definition intColumns (m : Metrics) : list number :=
  [ dials m; connects m; conversations m; qualifiedConversations m;
    meetingsScheduled m; meetingsSet m; meetingsShowed m; noShows m;
    closedDeals m ].

(** The operands of the one sum of the chain. *)
Definition sumOperands (m : Metrics) : list number :=
  [ meetingsShowed m; noShows m ].

(** A day of ten dials ending in one closed deal, with the given revenue
    and cash entered. *)
Definition oneDeal (revenue cash : Z) : Metrics :=
  {| dials := Num.of_Z 10; connects := Num.of_Z 5; conversations := Num.of_Z 3;
     qualifiedConversations := Num.of_Z 2; meetingsScheduled := Num.of_Z 2;
     meetingsSet := Num.of_Z 2; meetingsShowed := Num.of_Z 2; noShows := Num.of_Z 0;
     closedDeals := Num.of_Z 1; revenueGenerated := Num.of_Z revenue;
     cashCollected := Num.of_Z cash |}.

End Dialer.

(** ** The write handler

    The three [action] functions are the same text up to the person id, the
    collection and the validation block; the handler is stated once over
    those.  [new Date(date)] is the host's constructor: [newDate date] is
    the instant it denotes, or [None] for an Invalid Date, on which the
    database client raises.  The client also raises, before anything is
    written, when the data of an upsert does not fit the column types of
    the model: [fits metrics] is that check. *)

Inductive Outcome : Type :=
| Success                         (* json({ success: true }) *)
| Rejected (errors : Errors)      (* json({ errors }, { status: 400 }) *)
| Conflict (existingDate : string)(* json({ existingDate: date }, { status: 409 }) *)
| Thrown.                         (* the database client raised *)

Section Writer.

Variable newDate : string → option Z.
Context {Metrics : Type}.
Variable personId : string.
Variable validate : string → Metrics → Errors.
Variable fits : Metrics → bool.

(** A stored document: the generated id and the metric fields; person id
    and date are its key in the collection. *)
Record Row : Type := { row_id : nat; row_metrics : Metrics }.

Record Db : Type := { rows : gmap (string * Z) Row; next_id : nat }.

(** [prisma.<role>Metrics.findUnique({ where: { <role>Id_date: ... } })] *)
Definition findUnique (db : Db) (date : string) : option (option Row) :=
  d ← newDate date; Some (rows db !! (personId, d)).

(** The collection once an upsert at the key (personId, d) has gone
    through: [update: metrics] on the document found there, [create]
    otherwise. *)
Definition stored (db : Db) (d : Z) (metrics : Metrics) : Db :=
  match rows db !! (personId, d) with
  | Some row =>
      {| rows := <[(personId, d) := {| row_id := row_id row; row_metrics := metrics |}]>
                   (rows db);
         next_id := next_id db |}
  | None =>
      {| rows := <[(personId, d) := {| row_id := next_id db; row_metrics := metrics |}]>
                   (rows db);
         next_id := S (next_id db) |}
  end.

(** [prisma.<role>Metrics.upsert({ where, update: metrics, create })]:
    [None] when the client raises. *)
Definition upsert (db : Db) (date : string) (metrics : Metrics) : option Db :=
  d ← newDate date;
  if fits metrics then Some (stored db d metrics) else None.

(** The tail of [action], from [if (Object.keys(errors).length > 0)] on. *)
Definition finish (db : Db) (date : string) (metrics : Metrics) (errors : Errors)
  : Outcome * Db :=
  if decide (errors = ∅)
  then match upsert db date metrics with
       | Some db' => (Success, db')
       | None => (Thrown, db)
       end
  else (Rejected errors, db).

Definition action (db : Db) (date : string) (forceOverwrite : bool) (metrics : Metrics)
  : Outcome * Db :=
  let errors := validate date metrics in
  if negb forceOverwrite
  then match findUnique db date with
       | None => (Thrown, db)
       | Some (Some existingMetric) => (Conflict date, db)
       | Some None => finish db date metrics errors
       end
  else finish db date metrics errors.

End Writer.

Arguments Row : clear implicits.
Arguments Db : clear implicits.

(** The three handlers. *)
Inductive Role : Type := CloserRole | SetterRole | DialerRole.

Definition MetricsOf (role : Role) : Type :=
  match role with
  | CloserRole => Closer.Metrics
  | SetterRole => Setter.Metrics
  | DialerRole => Dialer.Metrics
  end.

Definition personIdOf (role : Role) : string :=
  match role with
  | CloserRole => Closer.closerId
  | SetterRole => Setter.setterId
  | DialerRole => Dialer.dialerId
  end.

Definition validateOf (role : Role) : string → MetricsOf role → Errors :=
  match role with
  | CloserRole => Closer.validate
  | SetterRole => Setter.validate
  | DialerRole => Dialer.validate
  end.

(** The column types of the role's model: the counters are [Int], which
    takes a whole number of 32 bits; a [Float] column takes any number.
    Nothing in the handlers asks the counters to be whole. *)
Definition fitsSchema (role : Role) : MetricsOf role → bool :=
  match role with
  | CloserRole => λ m, forallb Num.int32 (Closer.intColumns m)
  | SetterRole => λ m, forallb Num.int32 (Setter.intColumns m)
  | DialerRole => λ m, forallb Num.int32 (Dialer.intColumns m)
  end.

Definition handler (newDate : string → option Z) (role : Role)
  : Db (MetricsOf role) → string → bool → MetricsOf role → Outcome * Db (MetricsOf role) :=
  action newDate (personIdOf role) (validateOf role) (fitsSchema role).

(** A collection holding nothing, and one holding a single document. *)
Definition emptyDb {Metrics} : Db Metrics := {| rows := ∅; next_id := 0 |}.

Definition singleDb {Metrics} (personId : string) (d : Z) (metrics : Metrics) : Db Metrics :=
  {| rows := {[ (personId, d) := {| row_id := 0; row_metrics := metrics |} ]};
     next_id := 1 |}.

(** ** Dates of the analytics pages *)

Module Date.

Definition msPerDay : Z := 86400000.

(** [startOfDay], [endOfDay], [subDays] and [differenceInDays] of date-fns. *)
Definition startOfDay (d : Z) : Z := (d - d `mod` msPerDay)%Z.
Definition endOfDay (d : Z) : Z := (startOfDay d + (msPerDay - 1))%Z.
Definition subDays (d : Z) (amount : Z) : Z := (d - amount * msPerDay)%Z.
Definition differenceInDays (later earlier : Z) : Z :=
  ((later - earlier) `quot` msPerDay)%Z.

(** The calendar day an instant falls on, and the number of calendar
    days a window touches. *)
Definition dayOf (d : Z) : Z := (d `div` msPerDay)%Z.
Definition calendarDays (start end_ : Z) : Z := (dayOf end_ - dayOf start + 1)%Z.

(** A reading of plain calendar dates [yyyy-MM-dd], standing in for the
    host's date parser where an example needs a concrete one. *)
Definition digit (a : ascii) : option Z :=
  let n := (Z.of_nat (nat_of_ascii a) - 48)%Z in
  if ((0 <=? n) && (n <=? 9))%Z then Some n else None.

Definition isLeap (y : Z) : bool :=
  ((y `mod` 4 =? 0) && (negb (y `mod` 100 =? 0) || (y `mod` 400 =? 0)))%Z.

Definition daysInMonth (y m : Z) : Z :=
  if (m =? 2)%Z then (if isLeap y then 29 else 28)%Z
  else if ((m =? 4) || (m =? 6) || (m =? 9) || (m =? 11))%Z then 30%Z
  else 31%Z.

Definition daysFromCivil (y m d : Z) : Z :=
  (let y' := if m <=? 2 then y - 1 else y in
   let era := y' `div` 400 in
   let yoe := y' - era * 400 in
   let mp := (m + 9) `mod` 12 in
   let doy := (153 * mp + 2) `div` 5 + d - 1 in
   let doe := yoe * 365 + yoe `div` 4 - yoe `div` 100 + doy in
   era * 146097 + doe - 719468)%Z.

Definition isoDate (s : string) : option Z :=
  match s with
  | String y1 (String y2 (String y3 (String y4 (String "-"
      (String m1 (String m2 (String "-" (String d1 (String d2 EmptyString))))))))) =>
      a ← digit y1; b ← digit y2; c ← digit y3; e ← digit y4;
      f ← digit m1; g ← digit m2; h ← digit d1; i ← digit d2;
      let y := (a * 1000 + b * 100 + c * 10 + e)%Z in
      let m := (f * 10 + g)%Z in
      let d := (h * 10 + i)%Z in
      if ((1 <=? m) && (m <=? 12) && (1 <=? d) && (d <=? daysInMonth y m))%Z
      then Some (daysFromCivil y m d * msPerDay)%Z
      else None
  | _ => None
  end.

End Date.

(** ** Range resolver: the head of the analytics [loader] *)

Module Range.
Import Date.

Record Window : Type := {
  start : Z;
  end_ : Z;
  previousStart : Z;
  previousEnd : Z;
  daysInRange : Z;
  daysInPreviousRange : Z
}.

(** A query parameter is truthy when it is present and not empty. *)
Definition truthy (p : option string) : bool :=
  match p with
  | Some s => negb (String.eqb s "")
  | None => false
  end.

(** [url.searchParams.get("range") || "30d"] *)
Definition rangeParam (p : option string) : string :=
  if truthy p then default "30d" p else "30d".

Section Resolver.

(** [parseISO] with [isValid] folded in ([None] is an Invalid Date), and
    [toZonedTime] at the request's zone. *)
Variable parseISO : string → option Z.
Variable toZonedTime : Z → Z.

(** [now] is [toZonedTime(new Date(), userTimeZone)]. *)
Definition resolve (range : string) (startDate endDate : option string) (now : Z)
  : Window :=
  let end0 := endOfDay now in
  if (String.eqb range "custom" && truthy startDate && truthy endDate)%bool
  then
    match parseISO (default "" startDate), parseISO (default "" endDate) with
    | Some parsedStart, Some parsedEnd =>
        let start := startOfDay (toZonedTime parsedStart) in
        let end1 := endOfDay (toZonedTime parsedEnd) in
        let daysInRange := (differenceInDays end1 start + 1)%Z in
        {| start := start;
           end_ := end1;
           previousStart := startOfDay (subDays start daysInRange);
           previousEnd := endOfDay (subDays end1 daysInRange);
           daysInRange := daysInRange;
           daysInPreviousRange := daysInRange |}
    | _, _ =>
        let start := startOfDay (subDays end0 30) in
        let end1 := endOfDay end0 in
        {| start := start;
           end_ := end1;
           previousStart := startOfDay (subDays start 30);
           previousEnd := endOfDay (subDays end1 30);
           daysInRange := 30;
           daysInPreviousRange := 30 |}
    end
  else if String.eqb range "24h"
  then
    let start := startOfDay now in
    let end1 := endOfDay now in
    {| start := start;
       end_ := end1;
       previousStart := startOfDay (subDays start 1);
       previousEnd := endOfDay (subDays end1 1);
       daysInRange := 1;
       daysInPreviousRange := 1 |}
  else if String.eqb range "7d"
  then
    let start := startOfDay (subDays end0 6) in
    {| start := start;
       end_ := end0;
       previousStart := startOfDay (subDays start 7);
       previousEnd := endOfDay (subDays end0 7);
       daysInRange := 7;
       daysInPreviousRange := 7 |}
  else
    let start := startOfDay (subDays end0 29) in
    {| start := start;
       end_ := end0;
       previousStart := startOfDay (subDays start 30);
       previousEnd := endOfDay (subDays end0 30);
       daysInRange := 30;
       daysInPreviousRange := 30 |}.

End Resolver.

(** Two windows are adjacent when the earlier one ends on the millisecond
    before the later one begins. *)
Definition adjacent (w : Window) : Prop := (previousEnd w + 1 = start w)%Z.

End Range.

(** ** Percentage delta: [calcPercentageDiff] of the analytics pages

    The difference, the quotient and the product are exact here; the host
    rounds each to binary64 and applies [Math.round] to the rounded
    product, which can land on the other side of a half. *)

Definition calcPercentageDiff (current previous : number) : number :=
  if (previous =? Num.zero)%num
  then (if (current >? Num.zero)%num then Num.of_Z 100 else Num.of_Z 0)
  else Num.round (((current - previous) / previous) * Num.of_Z 100)%num.

(** ** Day-bucketed revenue series of the setter analytics page *)

Module Series.

(** The fields of a [SetterMetrics] row that the series reads; [date] is
    the ISO string the loader produced. *)
Record SetterMetrics : Type := {
  date : string;
  revenueGenerated : number;
  newCashCollected : number;
  recurringCashCollected : number;
  downsellRevenue : number
}.

Record Bucket : Type := {
  b_revenueGenerated : number;
  b_newCashCollected : number;
  b_recurringCashCollected : number;
  b_downsellRevenue : number
}.

Definition emptyBucket : Bucket :=
  {| b_revenueGenerated := Num.zero; b_newCashCollected := Num.zero;
     b_recurringCashCollected := Num.zero; b_downsellRevenue := Num.zero |}.

(** [safeNumber]: the value itself when it is a number other than NaN. *)
Definition safeNumber (value : number) : number :=
  if negb (Num.isNaN value) then value else Num.zero.

(** The four [+=] of the reducer. *)
Definition addMetric (metric : SetterMetrics) (b : Bucket) : Bucket :=
  {| b_revenueGenerated := b_revenueGenerated b + safeNumber (revenueGenerated metric);
     b_newCashCollected := b_newCashCollected b + safeNumber (newCashCollected metric);
     b_recurringCashCollected :=
       b_recurringCashCollected b + safeNumber (recurringCashCollected metric);
     b_downsellRevenue := b_downsellRevenue b + safeNumber (downsellRevenue metric) |}%num.

(** The accumulator object: its own keys in insertion order, each with its
    bucket.  [bump] is [if (!acc[date]) acc[date] = {...zeros}] followed by
    the update of [acc[date]]. *)
Fixpoint bump (key : string) (f : Bucket → Bucket) (acc : list (string * Bucket))
  : list (string * Bucket) :=
  match acc with
  | [] => [(key, f emptyBucket)]
  | (k, b) :: rest =>
      if String.eqb k key then (k, f b) :: rest else (k, b) :: bump key f rest
  end.

Fixpoint get (key : string) (acc : list (string * Bucket)) : option Bucket :=
  match acc with
  | [] => None
  | (k, b) :: rest => if String.eqb k key then Some b else get key rest
  end.

(** [Array.prototype.sort] with a comparator: a stable sort; [ins] puts an
    element in front of the first one it does not compare above. *)
Fixpoint ins {A} (cmp : A → A → Z) (x : A) (l : list A) : list A :=
  match l with
  | [] => [x]
  | y :: l' => if (cmp x y <=? 0)%Z then x :: l else y :: ins cmp x l'
  end.

Definition sort {A} (cmp : A → A → Z) (l : list A) : list A :=
  foldr (ins cmp) [] l.

(** The bucket a list of records adds up to. *)
Definition bucketOf (l : list SetterMetrics) : Bucket :=
  fold_left (λ b metric, addMetric metric b) l emptyBucket.

(** The sum of the amounts of a day as the chart is meant to show it: the
    amounts are added up from 0 in the order given, and an amount that is
    not a number adds nothing. *)
Definition sumOf (amounts : list number) : number :=
  fold_left (λ acc amount,
               match amount with
               | Fin _ => (acc + amount)%num
               | NaN => (acc + Num.zero)%num
               end)
            amounts Num.zero.

Section Chart.

(** [dayKey iso] is [format(parseISO(iso), "yyyy-MM-dd")] in the viewer's
    zone and [getTime key] is [new Date(key).getTime()]. *)
Variable dayKey : string → string.
Variable getTime : string → Z.

Definition dailyRevenueData (settersMetrics : list SetterMetrics)
  : list (string * Bucket) :=
  fold_left (λ acc metric, bump (dayKey (date metric)) (addMetric metric) acc)
            settersMetrics [].

(** The comparator [(a, b) => new Date(a).getTime() - new Date(b).getTime()]
    and the order it sorts into. *)
Definition byTime (a b : string) : Z := (getTime a - getTime b)%Z.
Definition earlier (a b : string) : Prop := (getTime a ≤ getTime b)%Z.

Definition sortedDates (settersMetrics : list SetterMetrics) : list string :=
  sort byTime (map fst (dailyRevenueData settersMetrics)).

(** One [data] array of [revenueOverTimeData.datasets]. *)
Definition dataset (field : Bucket → number) (settersMetrics : list SetterMetrics)
  : list number :=
  map (λ date, field (default emptyBucket (get date (dailyRevenueData settersMetrics))))
      (sortedDates settersMetrics).

(** The records of one calendar day, in input order, and the sum of one
    of their fields as the reducer accumulates it. *)
Definition recordsOn (key : string) (settersMetrics : list SetterMetrics)
  : list SetterMetrics :=
  filter (λ metric, dayKey (date metric) = key) settersMetrics.

Definition total (field : SetterMetrics → number) (l : list SetterMetrics) : number :=
  fold_left (λ acc metric, acc + safeNumber (field metric))%num l Num.zero.

End Chart.

(** In a UTC viewer the day key of an ISO instant is its first ten
    characters. *)
Definition utcDayKey (iso : string) : string := String.substring 0 10 iso.

Definition utcGetTime (key : string) : Z := default 0%Z (Date.isoDate key).

(** A record of the given instant and amounts. *)
Definition row (iso : string) (revenue newCash recurring downsell : number)
  : SetterMetrics :=
  {| date := iso; revenueGenerated := revenue; newCashCollected := newCash;
     recurringCashCollected := recurring; downsellRevenue := downsell |}.

End Series.

(** * The validators, role by role *)

(** [Object.entries(metrics)] of a role. *)
Definition entriesOf (role : Role) : MetricsOf role → list (string * number) :=
  match role with
  | CloserRole => Closer.entries
  | SetterRole => Setter.entries
  | DialerRole => Dialer.entries
  end.

(** The test of the [forEach] callback: [isNaN(value) || value < 0]. *)
Definition flagged (value : number) : bool :=
  (Num.isNaN value || (value <? Num.zero)%num)%bool.

Definition allNonneg (role : Role) (m : MetricsOf role) : Prop :=
  Forall (λ kv, Num.nonneg kv.2) (entriesOf role m).

(** What an accepted closer record satisfies: the rules of the chain that
    are not implied by the others. *)
Definition closerConsistent (m : Closer.Metrics) : Prop :=
  (Closer.dailyCallsBooked m =?
     Closer.shows m + Closer.noShows m + Closer.cancelled m
     + Closer.disqualified m + Closer.rescheduled m)%num = true
  ∧ (Closer.callsTaken m <=? Closer.dailyCallsBooked m)%num = true
  ∧ (Closer.offersMade m <=? Closer.callsTaken m)%num = true
  ∧ (Closer.closes m <=? Closer.offersMade m)%num = true
  ∧ ((Closer.cashCollected m >? Num.zero)%num = true →
     (Closer.closes m >? Num.zero)%num = true)
  ∧ ((Closer.revenueGenerated m >? Num.zero)%num = true →
     (Closer.closes m >? Num.zero)%num = true).

Definition setterConsistent (m : Setter.Metrics) : Prop :=
  (Setter.callsProposed m <=?
     Setter.dailyOutboundConversations m + Setter.inboundConversations m
     + Setter.followUps m)%num = true
  ∧ (Setter.totalHighTicketSalesCallsBooked m <=? Setter.callsProposed m)%num = true
  ∧ (Setter.setsTaken m <=? Setter.setsScheduled m)%num = true
  ∧ (Setter.closedSets m <=? Setter.setsTaken m)%num = true
  ∧ (Setter.newCashCollected m + Setter.recurringCashCollected m
     + Setter.downsellRevenue m <=? Setter.revenueGenerated m)%num = true.

Definition dialerConsistent (m : Dialer.Metrics) : Prop :=
  (Dialer.connects m <=? Dialer.dials m)%num = true
  ∧ (Dialer.conversations m <=? Dialer.connects m)%num = true
  ∧ (Dialer.qualifiedConversations m <=? Dialer.conversations m)%num = true
  ∧ (Dialer.meetingsSet m =? Dialer.meetingsShowed m + Dialer.noShows m)%num = true
  ∧ (Dialer.closedDeals m <=? Dialer.meetingsShowed m)%num = true
  ∧ ((Dialer.cashCollected m >? Num.zero)%num = true →
     (Dialer.closedDeals m >? Num.zero)%num = true).

(** The ordered rule set of a role. *)
Definition rulesOf (role : Role) : MetricsOf role → list Rule :=
  match role with
  | CloserRole => Closer.rules
  | SetterRole => Setter.rules
  | DialerRole => Dialer.rules
  end.

Definition consistentOf (role : Role) : MetricsOf role → Prop :=
  match role with
  | CloserRole => closerConsistent
  | SetterRole => setterConsistent
  | DialerRole => dialerConsistent
  end.

(** The operands of every sum and difference of the role's chain are whole
    numbers of magnitude at most 2^50: the host then computes them without
    rounding, and the chain decides as it does on exact numbers. *)
Definition exactSums (role : Role) : MetricsOf role → bool :=
  match role with
  | CloserRole => λ m, forallb Num.whole (Closer.sumOperands m)
  | SetterRole => λ m, forallb Num.whole (Setter.sumOperands m)
  | DialerRole => λ m, forallb Num.whole (Dialer.sumOperands m)
  end.

(** The messages of the closer chain that a submission with non-negative
    fields can never receive, and those of the dialer chain. *)
Definition closerDeadMessages : list string :=
  [ Closer.msg_shows_exceed; Closer.msg_noShows_exceed; Closer.msg_shows_zero;
    Closer.msg_noShows_zero; Closer.msg_cancelled; Closer.msg_rescheduled ].

Definition dialerDeadMessages : list string :=
  [ Dialer.msg_scheduled; Dialer.msg_revenue ].

(** A closer submission with the sum rule satisfied and the given calls
    taken, offers and closes. *)
Definition closerDay (taken offers closes : Z) (cash revenue : Q) : Closer.Metrics :=
  {| Closer.dailyCallsBooked := Num.of_Z 10; Closer.shows := Num.of_Z 4;
     Closer.noShows := Num.of_Z 3; Closer.cancelled := Num.of_Z 1;
     Closer.disqualified := Num.of_Z 1; Closer.rescheduled := Num.of_Z 1;
     Closer.offersMade := Num.of_Z offers; Closer.callsTaken := Num.of_Z taken;
     Closer.closes := Num.of_Z closes; Closer.cashCollected := Fin cash;
     Closer.revenueGenerated := Fin revenue |}.

(** The same day with four calls taken, two offers and half a close typed
    into the closes field. *)
Definition halfClose : Closer.Metrics :=
  {| Closer.dailyCallsBooked := Num.of_Z 10; Closer.shows := Num.of_Z 4;
     Closer.noShows := Num.of_Z 3; Closer.cancelled := Num.of_Z 1;
     Closer.disqualified := Num.of_Z 1; Closer.rescheduled := Num.of_Z 1;
     Closer.offersMade := Num.of_Z 2; Closer.callsTaken := Num.of_Z 4;
     Closer.closes := Fin (1 # 2); Closer.cashCollected := Num.of_Z 0;
     Closer.revenueGenerated := Num.of_Z 0 |}.
(** * Sequences of submissions *)

(** One POST to a write endpoint. *)
Record Submission (role : Role) : Type := {
  s_date : string;
  s_forceOverwrite : bool;
  s_metrics : MetricsOf role
}.

Arguments s_date {role}.
Arguments s_forceOverwrite {role}.
Arguments s_metrics {role}.

Definition submit (newDate : string → option Z) (role : Role)
    (db : Db (MetricsOf role)) (s : Submission role) : Outcome * Db (MetricsOf role) :=
  handler newDate role db (s_date s) (s_forceOverwrite s) (s_metrics s).

(** The collection after a series of requests, starting from [db]. *)
Definition replay (newDate : string → option Z) (role : Role)
    (db : Db (MetricsOf role)) (requests : list (Submission role)) : Db (MetricsOf role) :=
  fold_left (λ db s, (submit newDate role db s).2) requests db.

(** Every stored document is numeric, non-negative and consistent. *)
Definition storedConsistent (role : Role) (db : Db (MetricsOf role)) : Prop :=
  ∀ k row, rows db !! k = Some row →
    allNonneg role (row_metrics row) ∧ consistentOf role (row_metrics row).

(** Every stored document carries the metrics of one of the requests, as
    they were submitted. *)
Definition storedFrom (role : Role) (requests : list (Submission role))
    (db : Db (MetricsOf role)) : Prop :=
  ∀ k row, rows db !! k = Some row →
    ∃ s, s ∈ requests ∧ row_metrics row = s_metrics s.
(** * Per-day averages and their deltas (analytics pages) *)

(** [daysInRange > 0 ? Math.round(total / daysInRange) : 0] *)
Definition avgPerDay (total daysInRange : number) : number :=
  if (daysInRange >? Num.zero)%num
  then Num.round (total / daysInRange)%num
  else Num.of_Z 0.

(** [daysInPreviousRange > 0 ? previousTotal / daysInPreviousRange : 0] *)
Definition prevAvgPerDay (previousTotal daysInPreviousRange : number) : number :=
  if (daysInPreviousRange >? Num.zero)%num
  then (previousTotal / daysInPreviousRange)%num
  else Num.of_Z 0.

(** The delta shown beside a per-day average. *)
Definition perDayDiff (total daysInRange previousTotal daysInPreviousRange : number)
  : number :=
  calcPercentageDiff (avgPerDay total daysInRange)
                     (prevAvgPerDay previousTotal daysInPreviousRange).
(** * Totals and funnel bars of the analytics pages *)

(** A finite number between two bounds, and the order of two finite
    numbers. *)
Definition numWithin (lo hi : Q) (n : number) : Prop :=
  match n with
  | Fin q => (lo <= q)%Q ∧ (q <= hi)%Q
  | NaN => False
  end.

Definition numLe (a b : number) : Prop :=
  match a, b with
  | Fin x, Fin y => (x <= y)%Q
  | _, _ => False
  end.

(** The width of a bar: [whole > 0 ? (part / whole) * 100 : 0]. *)
Definition barWidth (part whole : number) : number :=
  if (whole >? Num.zero)%num then (part / whole * Num.of_Z 100)%num else Num.of_Z 0.

(** Closers analytics: the [totals] reducer of the loader and the bars of
    the funnel, each against the calls booked. *)
Module CloserAnalytics.

Definition zeroTotals : Closer.Metrics :=
  {| Closer.dailyCallsBooked := Num.of_Z 0; Closer.shows := Num.of_Z 0;
     Closer.noShows := Num.of_Z 0; Closer.cancelled := Num.of_Z 0;
     Closer.disqualified := Num.of_Z 0; Closer.rescheduled := Num.of_Z 0;
     Closer.offersMade := Num.of_Z 0; Closer.callsTaken := Num.of_Z 0;
     Closer.closes := Num.of_Z 0; Closer.cashCollected := Num.of_Z 0;
     Closer.revenueGenerated := Num.of_Z 0 |}.

Definition addRow (acc metric : Closer.Metrics) : Closer.Metrics :=
  {| Closer.dailyCallsBooked := Closer.dailyCallsBooked acc + Closer.dailyCallsBooked metric;
     Closer.shows := Closer.shows acc + Closer.shows metric;
     Closer.noShows := Closer.noShows acc + Closer.noShows metric;
     Closer.cancelled := Closer.cancelled acc + Closer.cancelled metric;
     Closer.disqualified := Closer.disqualified acc + Closer.disqualified metric;
     Closer.rescheduled := Closer.rescheduled acc + Closer.rescheduled metric;
     Closer.offersMade := Closer.offersMade acc + Closer.offersMade metric;
     Closer.callsTaken := Closer.callsTaken acc + Closer.callsTaken metric;
     Closer.closes := Closer.closes acc + Closer.closes metric;
     Closer.cashCollected := Closer.cashCollected acc + Closer.cashCollected metric;
     Closer.revenueGenerated :=
       Closer.revenueGenerated acc + Closer.revenueGenerated metric |}%num.

Definition totals (closersMetrics : list Closer.Metrics) : Closer.Metrics :=
  fold_left addRow closersMetrics zeroTotals.

Definition showsWidth (totals : Closer.Metrics) : number :=
  barWidth (Closer.shows totals) (Closer.dailyCallsBooked totals).
Definition offersMadeWidth (totals : Closer.Metrics) : number :=
  barWidth (Closer.offersMade totals) (Closer.dailyCallsBooked totals).
Definition callsTakenWidth (totals : Closer.Metrics) : number :=
  barWidth (Closer.callsTaken totals) (Closer.dailyCallsBooked totals).
Definition closesWidth (totals : Closer.Metrics) : number :=
  barWidth (Closer.closes totals) (Closer.dailyCallsBooked totals).

(** What the sums of accepted records keep. *)
Definition funnel (m : Closer.Metrics) : Prop :=
  allNonneg CloserRole m
  ∧ (Closer.shows m <=? Closer.dailyCallsBooked m)%num = true
  ∧ (Closer.callsTaken m <=? Closer.dailyCallsBooked m)%num = true
  ∧ (Closer.offersMade m <=? Closer.callsTaken m)%num = true
  ∧ (Closer.closes m <=? Closer.offersMade m)%num = true.

End CloserAnalytics.

(** Dialers analytics ([app/routes/dashboard/test/route.tsx]): the same
    reducer and the bars of the funnel, each against the dials. *)
Module DialerAnalytics.

Definition zeroTotals : Dialer.Metrics :=
  {| Dialer.dials := Num.of_Z 0; Dialer.connects := Num.of_Z 0;
     Dialer.conversations := Num.of_Z 0; Dialer.qualifiedConversations := Num.of_Z 0;
     Dialer.meetingsScheduled := Num.of_Z 0; Dialer.meetingsSet := Num.of_Z 0;
     Dialer.meetingsShowed := Num.of_Z 0; Dialer.noShows := Num.of_Z 0;
     Dialer.closedDeals := Num.of_Z 0; Dialer.revenueGenerated := Num.of_Z 0;
     Dialer.cashCollected := Num.of_Z 0 |}.

Definition addRow (acc metric : Dialer.Metrics) : Dialer.Metrics :=
  {| Dialer.dials := Dialer.dials acc + Dialer.dials metric;
     Dialer.connects := Dialer.connects acc + Dialer.connects metric;
     Dialer.conversations := Dialer.conversations acc + Dialer.conversations metric;
     Dialer.qualifiedConversations :=
       Dialer.qualifiedConversations acc + Dialer.qualifiedConversations metric;
     Dialer.meetingsScheduled :=
       Dialer.meetingsScheduled acc + Dialer.meetingsScheduled metric;
     Dialer.meetingsSet := Dialer.meetingsSet acc + Dialer.meetingsSet metric;
     Dialer.meetingsShowed := Dialer.meetingsShowed acc + Dialer.meetingsShowed metric;
     Dialer.noShows := Dialer.noShows acc + Dialer.noShows metric;
     Dialer.closedDeals := Dialer.closedDeals acc + Dialer.closedDeals metric;
     Dialer.revenueGenerated :=
       Dialer.revenueGenerated acc + Dialer.revenueGenerated metric;
     Dialer.cashCollected := Dialer.cashCollected acc + Dialer.cashCollected metric |}%num.

Definition totals (dialersMetrics : list Dialer.Metrics) : Dialer.Metrics :=
  fold_left addRow dialersMetrics zeroTotals.

Definition connectsWidth (totals : Dialer.Metrics) : number :=
  barWidth (Dialer.connects totals) (Dialer.dials totals).
Definition conversationsWidth (totals : Dialer.Metrics) : number :=
  barWidth (Dialer.conversations totals) (Dialer.dials totals).
Definition qualifiedConversationsWidth (totals : Dialer.Metrics) : number :=
  barWidth (Dialer.qualifiedConversations totals) (Dialer.dials totals).
Definition meetingsSetWidth (totals : Dialer.Metrics) : number :=
  barWidth (Dialer.meetingsSet totals) (Dialer.dials totals).

Definition funnel (m : Dialer.Metrics) : Prop :=
  allNonneg DialerRole m
  ∧ (Dialer.connects m <=? Dialer.dials m)%num = true
  ∧ (Dialer.conversations m <=? Dialer.connects m)%num = true
  ∧ (Dialer.qualifiedConversations m <=? Dialer.conversations m)%num = true.

End DialerAnalytics.
(** * The table pages of the closers and setters analytics *)

Module Pagination.

Definition rowsPerPage : Z := 10.

(** [Math.ceil(totalRows / rowsPerPage)] *)
Definition totalPages {A} (rows : list A) : Z :=
  Qceiling (inject_Z (Z.of_nat (length rows)) / inject_Z rowsPerPage).

(** [Array.prototype.slice(start, end)]: a negative index counts from the
    end, and both are clamped to the array. *)
Definition slice {A} (l : list A) (start end_ : Z) : list A :=
  let len := Z.of_nat (length l) in
  let k := if (start <? 0)%Z then Z.max (len + start) 0 else Z.min start len in
  let final := if (end_ <? 0)%Z then Z.max (len + end_) 0 else Z.min end_ len in
  take (Z.to_nat (final - k)) (drop (Z.to_nat k) l).

Definition paginatedMetrics {A} (rows : list A) (currentPage : Z) : list A :=
  let startIndex := ((currentPage - 1) * rowsPerPage)%Z in
  let endIndex := (startIndex + rowsPerPage)%Z in
  slice rows startIndex endIndex.

(** The page after [handlePageChange(page)]. *)
Definition handlePageChange {A} (rows : list A) (currentPage page : Z) : Z :=
  if ((1 <=? page) && (page <=? totalPages rows))%Z then page else currentPage.

(** The page buttons: [Array.from({ length: totalPages }, (_, index) => index + 1)]. *)
Definition pageButtons {A} (rows : list A) : list Z :=
  map (λ index : nat, (Z.of_nat index + 1)%Z) (seq 0 (Z.to_nat (totalPages rows))).

(** The page shown after a series of page requests, starting on page 1. *)
Definition pageAfter {A} (rows : list A) (requests : list Z) : Z :=
  fold_left (handlePageChange rows) requests 1%Z.

End Pagination.
(** * The closer and setter EOD forms

    The state of [ClosersEOD] and [SettersEOD], the body of their
    [useEffect] on [actionData], and their handlers, as functions on the
    state.  The form posts the date of the state, the metrics typed into its
    fields, and the hidden input [forceOverwrite].  The two components are
    the same text up to their fields; the form of the dialer route is
    another text (its [handleOverwriteConfirm] submits nothing) and is not
    the one embedded here. *)

Module EodForm.

Record State : Type := {
  date : string;
  showOverwriteModal : bool;
  showSuccessModal : bool;
  forceOverwrite : bool
}.

(** The state on mount, for the date the form opens on. *)
Definition initial (today : string) : State :=
  {| date := today; showOverwriteModal := false; showSuccessModal := false;
     forceOverwrite := false |}.

(** [actionData?.existingDate] and [actionData?.success], as truth values. *)
Definition hasExistingDate (actionData : Outcome) : bool :=
  match actionData with
  | Conflict existingDate => negb (String.eqb existingDate "")
  | _ => false
  end.

Definition hasSuccess (actionData : Outcome) : bool :=
  match actionData with
  | Success => true
  | _ => false
  end.

(** The effect that runs when a response arrives. *)
Definition onActionData (st : State) (actionData : Outcome) : State :=
  if (hasExistingDate actionData && negb (forceOverwrite st))%bool
  then {| date := date st; showOverwriteModal := true; showSuccessModal := false;
          forceOverwrite := forceOverwrite st |}
  else if hasSuccess actionData
  then {| date := date st; showOverwriteModal := false; showSuccessModal := true;
          forceOverwrite := false |}
  else st.

(** [setDate], [handleCancel] and [handleSuccessConfirm]. *)
Definition setDate (st : State) (value : string) : State :=
  {| date := value; showOverwriteModal := showOverwriteModal st;
     showSuccessModal := showSuccessModal st; forceOverwrite := forceOverwrite st |}.

Definition handleCancel (st : State) : State :=
  {| date := date st; showOverwriteModal := false;
     showSuccessModal := showSuccessModal st; forceOverwrite := forceOverwrite st |}.

Definition handleSuccessConfirm (st : State) : State :=
  {| date := date st; showOverwriteModal := showOverwriteModal st;
     showSuccessModal := false; forceOverwrite := forceOverwrite st |}.

Section Form.

(** The [action] of the form's route: its date constructor, person id and
    validation block, and the check of the database client. *)
Variable newDate : string → option Z.
Context {Metrics : Type}.
Variable personId : string.
Variable validate : string → Metrics → Errors.
Variable fits : Metrics → bool.

(** A click on Submit with [fields] typed in: the form posts the date of
    the state, the fields and the hidden input; the response comes back and
    the effect runs. *)
Definition clickSubmit (st : State) (db : Db Metrics) (fields : Metrics)
  : State * Db Metrics :=
  let response :=
    action newDate personId validate fits db (date st) (forceOverwrite st) fields in
  (onActionData st response.1, response.2).

(** [handleOverwriteConfirm]: the flag is set, the modal closed, the hidden
    input forced to "true" and the form submitted again. *)
Definition handleOverwriteConfirm (st : State) (db : Db Metrics) (fields : Metrics)
  : State * Db Metrics :=
  let st' := {| date := date st; showOverwriteModal := false;
                showSuccessModal := showSuccessModal st; forceOverwrite := true |} in
  clickSubmit st' db fields.

End Form.

End EodForm.
(** * Query parameters of the analytics pages

    The search parameters as a finite map from name to value; the pages
    only [get], [set] and [delete] single values. *)

Module SearchParams.

(** [handleRangeChange]: the updater passed to [setSearchParams]. *)
Definition handleRangeChange (prev : gmap string string) (range : string)
  : gmap string string :=
  let prev := <["range" := range]> prev in
  if negb (String.eqb range "custom")
  then delete "endDate" (delete "startDate" prev)
  else prev.

(** [handleCloserChange] and its twins: [idKey] is closerId, setterId or
    dialerId. *)
Definition handlePersonChange (idKey : string) (prev : gmap string string)
    (personId : string) : gmap string string :=
  if negb (String.eqb personId "") then <[idKey := personId]> prev else delete idKey prev.

Section Loader.

Variable parseISO : string → option Z.
(** [toZonedTime] at a named zone. *)
Variable toZonedTime : string → Z → Z.

(** [url.searchParams.get("tz") || "UTC"] *)
Definition userTimeZone (params : gmap string string) : string :=
  if Range.truthy (params !! "tz") then default "UTC" (params !! "tz") else "UTC".

(** The window the loader resolves for a request at the instant [instant]. *)
Definition loaderWindow (params : gmap string string) (instant : Z) : Range.Window :=
  let tz := userTimeZone params in
  Range.resolve parseISO (toZonedTime tz)
    (Range.rangeParam (params !! "range"))
    (params !! "startDate") (params !! "endDate")
    (toZonedTime tz instant).

End Loader.

End SearchParams.
(** * Bars of the setter analytics page with charts *)

Module SetterCharts.

(** [Math.max] of two numbers: NaN as soon as one of them is. *)
Definition max2 (a b : number) : number :=
  match a, b with
  | Fin x, Fin y => if Qle_bool x y then Fin y else Fin x
  | _, _ => NaN
  end.

Definition outreachMaxValue (totals : Setter.Metrics) : number :=
  max2 (max2 (max2 (max2 (Setter.dailyOutboundConversations totals)
                         (Setter.inboundConversations totals))
                   (Setter.followUps totals))
             (Setter.callsProposed totals))
       (Setter.totalHighTicketSalesCallsBooked totals).

(** The five outreach bars, in the order the page declares them. *)
Definition outreachWidths (totals : Setter.Metrics) : list number :=
  [ barWidth (Setter.dailyOutboundConversations totals) (outreachMaxValue totals);
    barWidth (Setter.inboundConversations totals) (outreachMaxValue totals);
    barWidth (Setter.followUps totals) (outreachMaxValue totals);
    barWidth (Setter.callsProposed totals) (outreachMaxValue totals);
    barWidth (Setter.totalHighTicketSalesCallsBooked totals) (outreachMaxValue totals) ].

Definition salesMaxValue (totals : Setter.Metrics) : number :=
  max2 (max2 (Series.safeNumber (Setter.setsScheduled totals))
             (Series.safeNumber (Setter.setsTaken totals)))
       (Series.safeNumber (Setter.closedSets totals)).

Definition salesWidths (totals : Setter.Metrics) : list number :=
  [ barWidth (Series.safeNumber (Setter.setsScheduled totals)) (salesMaxValue totals);
    barWidth (Series.safeNumber (Setter.setsTaken totals)) (salesMaxValue totals);
    barWidth (Series.safeNumber (Setter.closedSets totals)) (salesMaxValue totals) ].

(** NaN, or a finite value at least zero. *)
Definition nanOrNonneg (n : number) : Prop :=
  match n with NaN => True | Fin q => (0 <= q)%Q end.

End SetterCharts.
(** * The person filter of the analytics pages *)

Module Dropdown.

(** The fields of a metrics row that the filter reads. *)
Record MetricRow : Type := {
  personId : string;
  firstName : string;
  lastName : string
}.

Record Choice : Type := { id : string; name : string }.

(** [new Map(entries)]: a key keeps the place of its first entry and takes
    the value of its last. *)
Fixpoint mapSet (key : string) (value : Choice) (m : list (string * Choice))
  : list (string * Choice) :=
  match m with
  | [] => [(key, value)]
  | (k, v) :: rest =>
      if String.eqb k key then (k, value) :: rest else (k, v) :: mapSet key value rest
  end.

Definition choiceOf (metric : MetricRow) : Choice :=
  {| id := personId metric; name := firstName metric ++ " " ++ lastName metric |}.

(** [new Map(metrics.map((metric) => [metric.<role>Id, {...}]))] *)
Definition personMap (metrics : list MetricRow) : list (string * Choice) :=
  fold_left (λ m metric, mapSet (personId metric) (choiceOf metric) m) metrics [].

(** [Array.from(...values())] *)
Definition uniquePersons (metrics : list MetricRow) : list Choice :=
  map snd (personMap metrics).

(** The options of the dropdown, sorted by name with [localeCompare]. *)
Definition persons (localeCompare : string → string → Z) (metrics : list MetricRow)
  : list Choice :=
  Series.sort (λ a b, localeCompare (name a) (name b)) (uniquePersons metrics).

End Dropdown.

(** * Properties *)

(** ** Numbers *)

Lemma Qltb_iff (x y : Q) : Num.Qltb x y = true ↔ (x < y)%Q.
Proof.
  unfold Num.Qltb. rewrite negb_true_iff.
  split.
  - intros H. apply Qnot_le_lt. intros Hle. apply Qle_bool_iff in Hle. congruence.
  - intros H. destruct (Qle_bool y x) eqn:E; [|reflexivity].
    apply Qle_bool_iff in E. exfalso. exact (Qlt_not_le _ _ H E).
Qed.

Lemma Qltb_false (x y : Q) : (y <= x)%Q → Num.Qltb x y = false.
Proof.
  intros H. destruct (Num.Qltb x y) eqn:E; [|reflexivity].
  apply Qltb_iff in E. exfalso. exact (Qlt_not_le _ _ E H).
Qed.

Lemma nonneg_not_flagged (n : number) :
  Num.nonneg n → (Num.isNaN n || (n <? Num.zero)%num)%bool = false.
Proof.
  destruct n as [|q]; simpl; [tauto|]. intros H. by apply Qltb_false.
Qed.

(** ** The errors object *)

Lemma check_entry_per_field errors kv :
  per_field_only errors → per_field_only (check_entry errors kv).
Proof.
  intros H k v. unfold check_entry. case_match; [|apply H].
  rewrite lookup_insert_Some. intros [[_ <-]|[_ Hk]]; [by right|by eapply H].
Qed.

Lemma field_errors_per_field date es : per_field_only (field_errors date es).
Proof.
  unfold field_errors.
  assert (Hinit : per_field_only (if String.eqb date "" then <["date" := msg_date]> ∅ else ∅)).
  { intros k v. case_match.
    - rewrite lookup_insert_Some, lookup_empty. intros [[_ <-]|[_ ?]]; [by left|done].
    - by rewrite lookup_empty. }
  revert Hinit. generalize (if String.eqb date "" then <["date" := msg_date]> ∅ else (∅ : Errors)).
  induction es as [|kv es IH]; intros e He; simpl; [done|].
  apply IH. by apply check_entry_per_field.
Qed.

Lemma per_field_no_cross errors :
  per_field_only errors → cross_field_entries errors = ∅.
Proof.
  intros H. apply map_empty_filter. intros k v Hk [H1 H2]. simpl in *.
  destruct (H k v Hk); contradiction.
Qed.

Lemma report_at_most_one failure errors :
  per_field_only errors → size (cross_field_entries (report failure errors)) ≤ 1.
Proof.
  intros H. pose proof (per_field_no_cross _ H) as He.
  destruct failure as [[k v]|]; simpl.
  - unfold cross_field_entries in *. rewrite map_filter_insert. case_decide.
    + rewrite He. change (<[k:=v]> (∅ : Errors)) with ({[k := v]} : Errors).
      by rewrite map_size_singleton.
    + rewrite map_filter_delete, He, delete_empty, map_size_empty. lia.
  - rewrite He, map_size_empty. lia.
Qed.

Ltac chain_cases :=
  cbn [first_failure report];
  repeat lazymatch goal with
         | |- (if ?c then _ else _) = _ => destruct c; [reflexivity|]
         end;
  reflexivity.

Lemma closer_chain_is_first_failure m errors :
  Closer.cross_checks m errors = report (first_failure (Closer.rules m)) errors.
Proof.
  unfold Closer.cross_checks, Closer.rules. chain_cases.
Qed.

Lemma setter_chain_is_first_failure m errors :
  Setter.cross_checks m errors = report (first_failure (Setter.rules m)) errors.
Proof.
  unfold Setter.cross_checks, Setter.rules. chain_cases.
Qed.

Lemma dialer_chain_is_first_failure m errors :
  Dialer.cross_checks m errors = report (first_failure (Dialer.rules m)) errors.
Proof.
  unfold Dialer.cross_checks, Dialer.rules. chain_cases.
Qed.

(** C3.  In each of the three validators the cross-field chain is the
    ordered rule set of the role evaluated up to its first violated rule,
    and the errors object returned holds at most one cross-field entry,
    whatever the input. *)
Theorem cross_field_first_failure_wins :
  (∀ date m,
     Closer.validate date m
     = report (first_failure (Closer.rules m)) (field_errors date (Closer.entries m))
     ∧ size (cross_field_entries (Closer.validate date m)) ≤ 1)
  ∧ (∀ date m,
     Setter.validate date m
     = report (first_failure (Setter.rules m)) (field_errors date (Setter.entries m))
     ∧ size (cross_field_entries (Setter.validate date m)) ≤ 1)
  ∧ (∀ date m,
     Dialer.validate date m
     = report (first_failure (Dialer.rules m)) (field_errors date (Dialer.entries m))
     ∧ size (cross_field_entries (Dialer.validate date m)) ≤ 1).
Proof.
  split; [|split]; intros date m.
  - unfold Closer.validate. rewrite closer_chain_is_first_failure.
    split; [reflexivity|]. apply report_at_most_one, field_errors_per_field.
  - unfold Setter.validate. rewrite setter_chain_is_first_failure.
    split; [reflexivity|]. apply report_at_most_one, field_errors_per_field.
  - unfold Dialer.validate. rewrite dialer_chain_is_first_failure.
    split; [reflexivity|]. apply report_at_most_one, field_errors_per_field.
Qed.

Lemma field_errors_nonneg date es :
  Forall (λ kv : string * number, Num.nonneg kv.2) es →
  field_errors date es = if String.eqb date "" then <["date" := msg_date]> ∅ else ∅.
Proof.
  unfold field_errors.
  generalize (if String.eqb date "" then <["date" := msg_date]> ∅ else (∅ : Errors)).
  induction es as [|kv es IH]; intros e H; simpl; [reflexivity|].
  apply Forall_cons_1 in H as [Hkv H].
  unfold check_entry at 2. rewrite (nonneg_not_flagged _ Hkv). by apply IH.
Qed.

Lemma report_lookup_not msg failure errors :
  per_field_only errors → msg ≠ msg_date → msg ≠ msg_number →
  (∀ field, failure ≠ Some (field, msg)) →
  ∀ k, report failure errors !! k ≠ Some msg.
Proof.
  intros He Hd Hn Hf k. destruct failure as [[f v]|]; simpl.
  - rewrite lookup_insert_Some. intros [[-> ->]|[_ Hk]].
    + by apply (Hf k).
    + destruct (He _ _ Hk); congruence.
  - intros Hk. destruct (He _ _ Hk); congruence.
Qed.

(** C4.  The closer validator tests the exact-sum rule before any other
    cross-field rule: whenever dailyCallsBooked differs from the sum of the
    five outcome counters the entry written is the one for
    dailyCallsBooked.  With booked 10, shows 4, no-shows 3, cancelled 1,
    disqualified 1, rescheduled 1 and a date the errors object is empty;
    with rescheduled 2 it is the single dailyCallsBooked entry. *)
Theorem closer_booked_sum_checked_first :
  (∀ date m,
     (Closer.dailyCallsBooked m !=?
        Closer.shows m + Closer.noShows m + Closer.cancelled m
        + Closer.disqualified m + Closer.rescheduled m)%num = true →
     Closer.validate date m
     = <["dailyCallsBooked" := Closer.msg_booked_sum]>
         (field_errors date (Closer.entries m)))
  ∧ (∀ date, date ≠ "" →
       Closer.validate date (Closer.booked 10 4 3 1 1 1) = ∅
       ∧ Closer.validate date (Closer.booked 10 4 3 1 1 2)
         = {["dailyCallsBooked" := Closer.msg_booked_sum]}).
Proof.
  split.
  - intros date m H. unfold Closer.validate, Closer.cross_checks. by rewrite H.
  - intros date Hd. apply String.eqb_neq in Hd.
    unfold Closer.validate, field_errors. rewrite Hd.
    split; vm_compute; reflexivity.
Qed.

Lemma closer_booked_sum_checked_first_witness :
  Closer.validate "2025-04-20" (Closer.booked 10 4 3 1 1 2)
  = <["dailyCallsBooked" := Closer.msg_booked_sum]>
      (field_errors "2025-04-20" (Closer.entries (Closer.booked 10 4 3 1 1 2)))
  ∧ Closer.validate "2025-04-20" (Closer.booked 10 4 3 1 1 1) = ∅
  ∧ Closer.validate "2025-04-20" (Closer.booked 10 4 3 1 1 2)
    = {["dailyCallsBooked" := Closer.msg_booked_sum]}.
Proof.
  destruct closer_booked_sum_checked_first as [H1 H2].
  split.
  - apply H1. vm_compute. reflexivity.
  - apply H2. discriminate.
Defined.

(** Several rules violated at once, and two per-field entries besides: the
    object still carries one cross-field entry, that of the first rule. *)
Example closer_many_violations :
  let m := {| Closer.dailyCallsBooked := Num.of_Z 3; Closer.shows := Num.of_Z 9;
              Closer.noShows := Num.of_Z 0; Closer.cancelled := Num.of_Z 0;
              Closer.disqualified := Num.of_Z 0; Closer.rescheduled := Num.of_Z 0;
              Closer.offersMade := Num.of_Z 8; Closer.callsTaken := Num.of_Z 7;
              Closer.closes := Num.of_Z 0; Closer.cashCollected := NaN;
              Closer.revenueGenerated := Num.of_Z (-5) |} in
  Closer.validate "2025-04-20" m
  = {[ "cashCollected" := msg_number;
       "revenueGenerated" := msg_number;
       "dailyCallsBooked" := Closer.msg_booked_sum ]}.
Proof. vm_compute. reflexivity. Qed.

(** ** Setter: the revenue breakdown *)

Lemma setter_breakdown_bounded m :
  Setter.all_nonneg m →
  (Setter.revenueGenerated m <?
     Setter.newCashCollected m + Setter.recurringCashCollected m
     + Setter.downsellRevenue m)%num = false →
  (Setter.newCashCollected m >? Setter.revenueGenerated m)%num = false
  ∧ (Setter.recurringCashCollected m >? Setter.revenueGenerated m)%num = false
  ∧ (Setter.downsellRevenue m >? Setter.revenueGenerated m)%num = false.
Proof.
  unfold Setter.all_nonneg, Setter.entries. intros H.
  repeat (apply Forall_cons_1 in H as [? H]). simpl in *.
  destruct (Setter.revenueGenerated m) as [|r]; [done|].
  destruct (Setter.newCashCollected m) as [|a]; [done|].
  destruct (Setter.recurringCashCollected m) as [|b]; [done|].
  destruct (Setter.downsellRevenue m) as [|c]; [done|].
  simpl in *. intros Hsum.
  assert (a + b + c <= r)%Q as Hle.
  { apply Qnot_lt_le. intros Hlt. apply Qltb_iff in Hlt. congruence. }
  unfold Num.gt, Num.lt.
  repeat split; apply Qltb_false; lra.
Qed.

(** C10.  For a setter submission whose fields are all numeric and
    non-negative, once the rule revenueGenerated >= newCashCollected +
    recurringCashCollected + downsellRevenue has passed none of the three
    later tests "breakdown field > revenueGenerated" can hold, and the
    errors object has no "Cannot exceed Revenue Generated" entry. *)
Theorem setter_breakdown_branches_unreachable date m :
  Setter.all_nonneg m →
  ((Setter.revenueGenerated m <?
      Setter.newCashCollected m + Setter.recurringCashCollected m
      + Setter.downsellRevenue m)%num = false →
   (Setter.newCashCollected m >? Setter.revenueGenerated m)%num = false
   ∧ (Setter.recurringCashCollected m >? Setter.revenueGenerated m)%num = false
   ∧ (Setter.downsellRevenue m >? Setter.revenueGenerated m)%num = false)
  ∧ ∀ k, Setter.validate date m !! k ≠ Some Setter.msg_exceeds_revenue.
Proof.
  intros Hnn. split; [by apply setter_breakdown_bounded|].
  unfold Setter.validate. rewrite setter_chain_is_first_failure.
  apply report_lookup_not; [apply field_errors_per_field|discriminate|discriminate|].
  intros field. unfold Setter.rules. cbn [first_failure].
  repeat lazymatch goal with
         | |- (if ?c then _ else _) ≠ _ => destruct c eqn:?
         end;
    try discriminate;
    destruct (setter_breakdown_bounded m Hnn) as (? & ? & ?); congruence.
Qed.

Lemma setter_breakdown_branches_unreachable_witness :
  Setter.all_nonneg (Setter.day 1000 600 300 100)
  ∧ ∀ k, Setter.validate "2025-04-20" (Setter.day 1000 600 300 100) !! k
         ≠ Some Setter.msg_exceeds_revenue.
Proof.
  assert (H : Setter.all_nonneg (Setter.day 1000 600 300 100)).
  { unfold Setter.all_nonneg. repeat constructor; vm_compute; discriminate. }
  split; [exact H|].
  exact (proj2 (setter_breakdown_branches_unreachable
                  "2025-04-20" (Setter.day 1000 600 300 100) H)).
Defined.

(** Without non-negativity the branch is live: a negative recurring amount
    lets the sum rule pass while newCashCollected exceeds the revenue. *)
Example setter_breakdown_branch_live :
  Setter.validate "2025-04-20" (Setter.day 2 5 (-5) 0) !! "newCashCollected"
  = Some Setter.msg_exceeds_revenue.
Proof. vm_compute. reflexivity. Qed.

(** ** Dialer: closed deals and revenue *)

Lemma dialer_revenue_rule_never_fires date m :
  Dialer.all_nonneg m → Dialer.validate date m !! "revenueGenerated" = None.
Proof.
  intros H. unfold Dialer.validate. rewrite (field_errors_nonneg _ _ H).
  unfold Dialer.all_nonneg, Dialer.entries in H.
  repeat (apply Forall_cons_1 in H as [? H]). simpl in *.
  assert ((Dialer.revenueGenerated m <? Num.zero)%num = false) as Hrev.
  { destruct (Dialer.revenueGenerated m); [done|]. by apply Qltb_false. }
  unfold Dialer.cross_checks. rewrite Hrev. cbn [andb].
  repeat lazymatch goal with
         | |- (if ?c then _ else _) !! _ = _ => destruct c
         end;
    rewrite ?lookup_insert_ne by discriminate;
    destruct (String.eqb date "");
    rewrite ?lookup_insert_ne by discriminate; apply lookup_empty.
Qed.

(** C2.  A dialer submission with one closed deal and revenueGenerated 0,
    every field numeric and non-negative, passes the validator: the errors
    object is empty and the handler stores the record. *)
Theorem dialer_deal_without_revenue_passes :
  Dialer.all_nonneg (Dialer.oneDeal 0 0)
  ∧ (Dialer.closedDeals (Dialer.oneDeal 0 0) >? Num.zero)%num = true
  ∧ (Dialer.revenueGenerated (Dialer.oneDeal 0 0) =? Num.zero)%num = true
  ∧ Dialer.validate "2025-04-20" (Dialer.oneDeal 0 0) = ∅
  ∧ (handler Date.isoDate DialerRole emptyDb "2025-04-20" false (Dialer.oneDeal 0 0)).1
    = Success.
Proof.
  split; [|repeat split; vm_compute; reflexivity].
  unfold Dialer.all_nonneg. repeat constructor; vm_compute; discriminate.
Qed.

(** ** The write handler *)

Section WriterFacts.

Variable newDate : string → option Z.
Context {Metrics : Type}.
Variable personId : string.
Variable validate : string → Metrics → Errors.
Variable fits : Metrics → bool.

Lemma finish_invalid db date (m : Metrics) errors :
  errors ≠ ∅ → finish newDate personId fits db date m errors = (Rejected errors, db).
Proof. intros H. unfold finish. by rewrite decide_False. Qed.

(** No path of the handler writes when the errors object is not empty. *)
Lemma action_invalid_no_write db date force (m : Metrics) :
  validate date m ≠ ∅ →
  (action newDate personId validate fits db date force m).2 = db.
Proof.
  intros H. unfold action, findUnique.
  destruct force; simpl; [by rewrite finish_invalid|].
  destruct (newDate date) as [d|]; simpl; [|done].
  destruct (rows db !! (personId, d)); [done|]. by rewrite finish_invalid.
Qed.




(** An existing document answers every unforced submission, whatever the
    validator found. *)
Lemma action_existing_unforced db date (m : Metrics) d row :
  newDate date = Some d → rows db !! (personId, d) = Some row →
  action newDate personId validate fits db date false m = (Conflict date, db).
Proof.
  intros Hd Hk. unfold action, findUnique. simpl. rewrite Hd. simpl. by rewrite Hk.
Qed.

(** The handler on a date the host can read. *)
Lemma action_valid_date db date force (m : Metrics) d :
  newDate date = Some d →
  action newDate personId validate fits db date force m
  = if (negb force && bool_decide (is_Some (rows db !! (personId, d))))%bool
    then (Conflict date, db)
    else if decide (validate date m = ∅)
    then (if fits m then (Success, stored personId db d m) else (Thrown, db))
    else (Rejected (validate date m), db).
Proof.
  intros Hd. unfold action, finish, findUnique, upsert. rewrite Hd. simpl.
  destruct force; simpl.
  - destruct (decide (validate date m = ∅)); [|done]. by destruct (fits m).
  - destruct (rows db !! (personId, d)) as [row|] eqn:Hk; simpl; [done|].
    destruct (decide (validate date m = ∅)); [|done]. by destruct (fits m).
Qed.

Lemma action_invalid_date db date force (m : Metrics) :
  newDate date = None → (action newDate personId validate fits db date force m).2 = db.
Proof.
  intros Hd. unfold action, finish, findUnique, upsert. rewrite Hd. simpl.
  destruct force; simpl; [|done].
  by destruct (decide (validate date m = ∅)).
Qed.

Lemma stored_lookup db d (m : Metrics) :
  rows (stored personId db d m) !! (personId, d)
  = Some {| row_id := default (next_id db) (row_id <$> rows db !! (personId, d));
            row_metrics := m |}.
Proof.
  unfold stored. destruct (rows db !! (personId, d)); simpl; apply lookup_insert_eq.
Qed.

Lemma stored_twice db d (m1 m2 : Metrics) :
  stored personId (stored personId db d m1) d m2 = stored personId db d m2.
Proof.
  unfold stored. destruct (rows db !! (personId, d)) as [row|]; simpl;
    rewrite lookup_insert_eq; simpl; by rewrite insert_insert_eq.
Qed.

Lemma stored_lookup_ne db d (m : Metrics) k :
  k ≠ (personId, d) → rows (stored personId db d m) !! k = rows db !! k.
Proof.
  intros Hne. unfold stored.
  destruct (rows db !! (personId, d)); simpl; by rewrite lookup_insert_ne.
Qed.

End WriterFacts.




(** C6, as the handlers have it.  When the collection already holds a
    document for (personId, date), a submission without the overwrite flag
    is answered with the conflict carrying the date and the collection is
    left as it was.  A submission with the flag set whose errors object is
    empty and whose data the database client takes succeeds, and the
    document under that key then carries exactly the submitted metrics,
    under the identifier it had, all other documents untouched; when the
    client does not take the data the upsert raises and the collection is
    left as it was. *)
Theorem existing_record_conflict_then_replace
    (newDate : string → option Z) {Metrics : Type} (personId : string)
    (validate : string → Metrics → Errors) (fits : Metrics → bool)
    (db : Db Metrics) (date : string) (m : Metrics) (d : Z) (row : Row Metrics) :
  newDate date = Some d →
  rows db !! (personId, d) = Some row →
  action newDate personId validate fits db date false m = (Conflict date, db)
  ∧ (validate date m = ∅ → fits m = true →
     ∃ db',
       action newDate personId validate fits db date true m = (Success, db')
       ∧ rows db' !! (personId, d) = Some {| row_id := row_id row; row_metrics := m |}
       ∧ (∀ k, k ≠ (personId, d) → rows db' !! k = rows db !! k)
       ∧ size (rows db') = size (rows db))
  ∧ (validate date m = ∅ → fits m = false →
     action newDate personId validate fits db date true m = (Thrown, db)).
Proof.
  intros Hd Hk. split; [|split].
  - by apply (action_existing_unforced _ _ _ _ _ _ _ d row).
  - intros Hv Hf. rewrite (action_valid_date _ _ _ _ _ _ _ _ d Hd). simpl.
    rewrite decide_True, Hf by done.
    eexists. split; [reflexivity|]. split; [|split].
    + by rewrite stored_lookup, Hk.
    + intros k Hne. by apply stored_lookup_ne.
    + unfold stored. rewrite Hk. simpl. by rewrite map_size_insert, Hk.
  - intros Hv Hf. rewrite (action_valid_date _ _ _ _ _ _ _ _ d Hd). simpl.
    by rewrite decide_True, Hf.
Qed.

Lemma existing_record_conflict_then_replace_witness :
  let old := Closer.booked 10 4 3 1 1 1 in
  let m := Closer.booked 12 5 3 2 1 1 in
  let db := singleDb Closer.closerId 1745107200000 old in
  handler Date.isoDate CloserRole db "2025-04-20" false m = (Conflict "2025-04-20", db)
  ∧ (∃ db',
      handler Date.isoDate CloserRole db "2025-04-20" true m = (Success, db')
      ∧ rows db' !! (Closer.closerId, 1745107200000%Z)
        = Some {| row_id := 0; row_metrics := m |})
  ∧ Closer.validate "2025-04-20" halfClose = ∅
  ∧ handler Date.isoDate CloserRole db "2025-04-20" true halfClose = (Thrown, db).
Proof.
  intros old m db.
  assert (Hd : Date.isoDate "2025-04-20" = Some 1745107200000%Z)
    by (vm_compute; reflexivity).
  assert (Hk : rows db !! (Closer.closerId, 1745107200000%Z)
               = Some {| row_id := 0; row_metrics := old |})
    by (vm_compute; reflexivity).
  assert (Hv : Closer.validate "2025-04-20" m = ∅) by (vm_compute; reflexivity).
  assert (Hh : Closer.validate "2025-04-20" halfClose = ∅) by (vm_compute; reflexivity).
  destruct (existing_record_conflict_then_replace
              Date.isoDate Closer.closerId Closer.validate (fitsSchema CloserRole)
              db "2025-04-20" m _ _ Hd Hk) as (H1 & H2 & _).
  destruct (existing_record_conflict_then_replace
              Date.isoDate Closer.closerId Closer.validate (fitsSchema CloserRole)
              db "2025-04-20" halfClose _ _ Hd Hk) as (_ & _ & H3).
  split; [exact H1|].
  split; [|split; [exact Hh|apply (H3 Hh); vm_compute; reflexivity]].
  destruct (H2 Hv) as (db' & Ha & Hb & _); [vm_compute; reflexivity|].
  exists db'. split; [exact Ha|exact Hb].
Defined.

(** A submission with the overwrite flag set that fails validation is
    answered with its errors; the stored document keeps the old metrics. *)
Lemma forced_invalid_submission_not_replaced :
  let old := Closer.booked 10 4 3 1 1 1 in
  let m := Closer.booked 10 4 3 1 1 2 in
  let db := singleDb Closer.closerId 1745107200000 old in
  let r := handler Date.isoDate CloserRole db "2025-04-20" true m in
  r.1 = Rejected {["dailyCallsBooked" := Closer.msg_booked_sum]}
  ∧ rows r.2 !! (Closer.closerId, 1745107200000%Z)
    = Some {| row_id := 0; row_metrics := old |}
  ∧ old ≠ m.
Proof.
  repeat split; try (vm_compute; reflexivity).
  intros H. apply (f_equal Closer.rescheduled) in H. vm_compute in H. discriminate.
Qed.

(** ** Calendar arithmetic *)

Section DateFacts.
Import Date.
Local Open Scope Z_scope.

Lemma startOfDay_dayOf d : startOfDay d = dayOf d * msPerDay.
Proof. unfold startOfDay, dayOf, msPerDay. Z.div_mod_to_equations. lia. Qed.

Lemma dayOf_startOfDay d : dayOf (startOfDay d) = dayOf d.
Proof. unfold startOfDay, dayOf, msPerDay. Z.div_mod_to_equations. lia. Qed.

Lemma dayOf_endOfDay d : dayOf (endOfDay d) = dayOf d.
Proof. unfold endOfDay, startOfDay, dayOf, msPerDay. Z.div_mod_to_equations. lia. Qed.

Lemma dayOf_subDays d n : dayOf (subDays d n) = dayOf d - n.
Proof. unfold subDays, dayOf, msPerDay. Z.div_mod_to_equations. nia. Qed.

Lemma startOfDay_subDays d n : startOfDay (subDays d n) = subDays (startOfDay d) n.
Proof.
  rewrite !startOfDay_dayOf, dayOf_subDays. unfold subDays. lia.
Qed.

Lemma endOfDay_subDays d n : endOfDay (subDays d n) = subDays (endOfDay d) n.
Proof. unfold endOfDay. rewrite startOfDay_subDays. unfold subDays. lia. Qed.

Lemma startOfDay_endOfDay d : startOfDay (endOfDay d) = startOfDay d.
Proof. by rewrite !startOfDay_dayOf, dayOf_endOfDay. Qed.

Lemma endOfDay_idemp d : endOfDay (endOfDay d) = endOfDay d.
Proof. unfold endOfDay at 1. by rewrite startOfDay_endOfDay. Qed.

Lemma startOfDay_idemp d : startOfDay (startOfDay d) = startOfDay d.
Proof. rewrite (startOfDay_dayOf (startOfDay d)), dayOf_startOfDay. by rewrite startOfDay_dayOf. Qed.

End DateFacts.

(** ** The range resolver *)

Section RangeFacts.
Import Date Range.
Local Open Scope Z_scope.

Variable parseISO : string → option Z.
Variable toZonedTime : Z → Z.

Lemma resolve_7d startDate endDate now :
  resolve parseISO toZonedTime "7d" startDate endDate now
  = {| start := startOfDay (subDays (endOfDay now) 6);
       end_ := endOfDay now;
       previousStart := startOfDay (subDays (startOfDay (subDays (endOfDay now) 6)) 7);
       previousEnd := endOfDay (subDays (endOfDay now) 7);
       daysInRange := 7;
       daysInPreviousRange := 7 |}.
Proof. reflexivity. Qed.

Lemma resolve_30d startDate endDate now :
  resolve parseISO toZonedTime "30d" startDate endDate now
  = {| start := startOfDay (subDays (endOfDay now) 29);
       end_ := endOfDay now;
       previousStart := startOfDay (subDays (startOfDay (subDays (endOfDay now) 29)) 30);
       previousEnd := endOfDay (subDays (endOfDay now) 30);
       daysInRange := 30;
       daysInPreviousRange := 30 |}.
Proof. reflexivity. Qed.

Lemma resolve_custom_unparsable (startDate endDate : string) now :
  startDate ≠ "" → endDate ≠ "" →
  parseISO startDate = None ∨ parseISO endDate = None →
  resolve parseISO toZonedTime "custom" (Some startDate) (Some endDate) now
  = {| start := startOfDay (subDays (endOfDay now) 30);
       end_ := endOfDay (endOfDay now);
       previousStart := startOfDay (subDays (startOfDay (subDays (endOfDay now) 30)) 30);
       previousEnd := endOfDay (subDays (endOfDay (endOfDay now)) 30);
       daysInRange := 30;
       daysInPreviousRange := 30 |}.
Proof.
  intros Hs He Hp. unfold resolve, truthy.
  apply String.eqb_neq in Hs, He. rewrite Hs, He. simpl.
  destruct Hp as [-> | ->]; [reflexivity|].
  by destruct (parseISO startDate).
Qed.

(** C7.  For the token 7d at any instant [now]: the current window runs
    from the start of the day six days before the end of today to the end
    of today and touches 7 calendar days; the previous window is both of its
    bounds moved back 7 days and touches 7 calendar days; the previous
    window ends on the millisecond before the current one begins, so the
    two neither overlap nor leave a gap. *)
Theorem seven_day_windows startDate endDate now :
  let w := resolve parseISO toZonedTime "7d" startDate endDate now in
  end_ w = endOfDay now
  ∧ start w = startOfDay (subDays (end_ w) 6)
  ∧ calendarDays (start w) (end_ w) = 7
  ∧ previousStart w = subDays (start w) 7
  ∧ previousEnd w = subDays (end_ w) 7
  ∧ calendarDays (previousStart w) (previousEnd w) = 7
  ∧ adjacent w
  ∧ previousStart w < previousEnd w ∧ previousEnd w < start w ∧ start w < end_ w
  ∧ daysInRange w = 7 ∧ daysInPreviousRange w = 7.
Proof.
  rewrite resolve_7d. cbv zeta. unfold adjacent, calendarDays. cbn [start end_ previousStart previousEnd daysInRange daysInPreviousRange].
  rewrite !startOfDay_subDays, !endOfDay_subDays, ?startOfDay_endOfDay, ?startOfDay_idemp,
    ?endOfDay_idemp, ?dayOf_subDays, ?dayOf_startOfDay, ?dayOf_endOfDay.
  repeat split; try lia; try reflexivity;
    unfold subDays, endOfDay, msPerDay; lia.
Qed.

(** On Sunday 20 April 2025 at 15:30 the 7d windows are 14 to 20 April and
    7 to 13 April. *)
Example seven_day_windows_april :
  let w := resolve Date.isoDate id "7d" None None 1745163000000 in
  Some (start w) = Date.isoDate "2025-04-14"
  ∧ Some (end_ w + 1) = Date.isoDate "2025-04-21"
  ∧ Some (previousStart w) = Date.isoDate "2025-04-07"
  ∧ Some (previousEnd w + 1) = Date.isoDate "2025-04-14".
Proof. vm_compute. repeat split; reflexivity. Qed.

Lemma custom_fallback_window (startDate endDate : string) now :
  startDate ≠ "" → endDate ≠ "" →
  parseISO startDate = None ∨ parseISO endDate = None →
  let w := resolve parseISO toZonedTime "custom" (Some startDate) (Some endDate) now in
  let w30 := resolve parseISO toZonedTime "30d" None None now in
  daysInRange w = 30 ∧ daysInPreviousRange w = 30
  ∧ end_ w = endOfDay now
  ∧ calendarDays (start w) (end_ w) = 31
  ∧ calendarDays (previousStart w) (previousEnd w) = 31
  ∧ dayOf (previousEnd w) = dayOf (start w)
  ∧ start w < previousEnd w
  ∧ end_ w30 = end_ w
  ∧ start w30 = start w + msPerDay
  ∧ calendarDays (start w30) (end_ w30) = 30
  ∧ adjacent w30.
Proof.
  intros Hs He Hp. rewrite (resolve_custom_unparsable _ _ _ Hs He Hp), resolve_30d.
  cbv zeta. unfold adjacent, calendarDays. cbn [start end_ previousStart previousEnd daysInRange daysInPreviousRange].
  rewrite !endOfDay_idemp, !startOfDay_subDays, !endOfDay_subDays, ?startOfDay_endOfDay,
    ?startOfDay_idemp, ?endOfDay_idemp, ?dayOf_subDays, ?dayOf_startOfDay, ?dayOf_endOfDay.
  repeat split; try lia; try reflexivity;
    unfold subDays, endOfDay, msPerDay; lia.
Qed.

End RangeFacts.

(** C8.  The request range=custom&startDate=not-a-date&endDate=2025-04-20
    at 15:30 on 20 April 2025 is answered without an error and with both
    day counts 30, but the current window starts on 21 March, so it touches
    31 calendar days where the 30d window starts on 22 March, and the
    previous window ends at the end of 21 March, inside the current one. *)
Theorem custom_fallback_is_31_days :
  let w := Range.resolve Date.isoDate id "custom"
             (Some "not-a-date") (Some "2025-04-20") 1745163000000 in
  let w30 := Range.resolve Date.isoDate id (Range.rangeParam None) None None
               1745163000000 in
  Date.isoDate "not-a-date" = None
  ∧ Range.daysInRange w = 30%Z ∧ Range.daysInPreviousRange w = 30%Z
  ∧ Some (Range.start w) = Date.isoDate "2025-03-21"
  ∧ Some (Range.end_ w + 1)%Z = Date.isoDate "2025-04-21"
  ∧ Date.calendarDays (Range.start w) (Range.end_ w) = 31%Z
  ∧ Some (Range.previousStart w) = Date.isoDate "2025-02-19"
  ∧ Some (Range.previousEnd w + 1)%Z = Date.isoDate "2025-03-22"
  ∧ (Range.start w < Range.previousEnd w)%Z
  ∧ Some (Range.start w30) = Date.isoDate "2025-03-22"
  ∧ Range.end_ w30 = Range.end_ w.
Proof. vm_compute. repeat split; reflexivity. Qed.

Lemma custom_fallback_window_witness :
  let w := Range.resolve Date.isoDate id "custom"
             (Some "not-a-date") (Some "2025-04-20") 1745163000000 in
  Date.calendarDays (Range.start w) (Range.end_ w) = 31%Z
  ∧ (Range.start w < Range.previousEnd w)%Z.
Proof.
  destruct (custom_fallback_window Date.isoDate id "not-a-date" "2025-04-20"
              1745163000000) as (_ & _ & _ & H1 & _ & _ & H2 & _).
  - discriminate.
  - discriminate.
  - left. vm_compute. reflexivity.
  - split; [exact H1|exact H2].
Defined.

(** ** Percentage delta *)





(** ** The day-bucketed revenue series *)

Section SeriesFacts.
Import Series.

Variable dayKey : string → string.
Variable getTime : string → Z.

Lemma ins_Permutation {A} (cmp : A → A → Z) x l : ins cmp x l ≡ₚ x :: l.
Proof.
  induction l as [|y l IH]; simpl; [done|].
  case_match; [done|]. rewrite IH. apply Permutation_swap.
Qed.

Lemma sort_Permutation {A} (cmp : A → A → Z) l : sort cmp l ≡ₚ l.
Proof.
  induction l as [|x l IH]; simpl; [done|].
  unfold sort in *. simpl. by rewrite ins_Permutation, IH.
Qed.

Lemma ins_sorted x l :
  StronglySorted (earlier getTime) l →
  StronglySorted (earlier getTime) (ins (byTime getTime) x l).
Proof.
  induction l as [|y l IH]; intros Hs; simpl.
  - by repeat constructor.
  - apply StronglySorted_inv in Hs as [Hs Hy].
    unfold byTime at 1.
    destruct (Z.leb_spec (getTime x - getTime y) 0) as [Hle|Hgt].
    + constructor; [by constructor|].
      constructor; [unfold earlier; lia|].
      eapply Forall_impl; [exact Hy|]. unfold earlier. intros; lia.
    + constructor; [by apply IH|].
      rewrite ins_Permutation. constructor; [unfold earlier; lia|done].
Qed.

Lemma sort_sorted l : StronglySorted (earlier getTime) (sort (byTime getTime) l).
Proof.
  induction l as [|x l IH]; [constructor|].
  unfold sort in *. simpl. by apply ins_sorted.
Qed.

Lemma get_bump key f acc k :
  get k (bump key f acc)
  = if decide (k = key) then Some (f (default emptyBucket (get key acc))) else get k acc.
Proof.
  induction acc as [|[k0 b] acc IH]; simpl.
  - destruct (String.eqb_spec key k); case_decide; congruence.
  - destruct (String.eqb_spec k0 key) as [->|Hne]; simpl.
    + destruct (String.eqb_spec key k); case_decide; congruence.
    + rewrite IH. destruct (String.eqb_spec k0 k); case_decide; congruence.
Qed.

Lemma keys_bump key f acc :
  map fst (bump key f acc)
  = if decide (key ∈ map fst acc) then map fst acc else map fst acc ++ [key].
Proof.
  induction acc as [|[k0 b] acc IH]; simpl.
  - destruct (decide (key ∈ [])) as [H|H]; [by apply elem_of_nil in H|done].
  - destruct (String.eqb_spec k0 key) as [->|Hne]; simpl.
    + rewrite decide_True; [done|]. apply elem_of_cons. by left.
    + rewrite IH.
      destruct (decide (key ∈ map fst acc)) as [H|H];
        destruct (decide (key ∈ k0 :: map fst acc)) as [H'|H']; try done.
      * exfalso. apply H'. apply elem_of_cons. by right.
      * exfalso. apply elem_of_cons in H' as [?|?]; congruence.
Qed.

Lemma dailyRevenueData_snoc l metric :
  dailyRevenueData dayKey (l ++ [metric])
  = bump (dayKey (date metric)) (addMetric metric) (dailyRevenueData dayKey l).
Proof. unfold dailyRevenueData. by rewrite fold_left_app. Qed.

Lemma recordsOn_snoc key l metric :
  recordsOn dayKey key (l ++ [metric])
  = recordsOn dayKey key l
    ++ (if decide (dayKey (date metric) = key) then [metric] else []).
Proof.
  unfold recordsOn. by rewrite filter_app.
Qed.

Lemma dailyRevenueData_keys l :
  NoDup (map fst (dailyRevenueData dayKey l))
  ∧ ∀ key, key ∈ map fst (dailyRevenueData dayKey l)
           ↔ ∃ metric, metric ∈ l ∧ dayKey (date metric) = key.
Proof.
  induction l as [|metric l [IHn IHk]] using rev_ind.
  - split; [constructor|]. intros key. simpl. split.
    + intros H. by apply elem_of_nil in H.
    + intros (metric & H & _). by apply elem_of_nil in H.
  - rewrite dailyRevenueData_snoc, keys_bump. split.
    + destruct (decide _) as [Hin|Hin]; [done|].
      apply NoDup_app. split; [done|]. split; [|apply NoDup_singleton].
      intros k Hk Hk'. apply list_elem_of_singleton in Hk'. by subst.
    + intros key.
      assert (Hsnoc : (∃ r, r ∈ l ++ [metric] ∧ dayKey (date r) = key)
                      ↔ (∃ r, r ∈ l ∧ dayKey (date r) = key)
                        ∨ dayKey (date metric) = key).
      { split.
        - intros (r & Hr & Hkey). apply elem_of_app in Hr as [Hr|Hr]; [left; eauto|].
          apply list_elem_of_singleton in Hr as ->. by right.
        - intros [(r & Hr & Hkey)|Hkey].
          + exists r. split; [apply elem_of_app; by left|done].
          + exists metric. split; [|done].
            apply elem_of_app. right. by apply list_elem_of_singleton. }
      rewrite Hsnoc, <- IHk.
      destruct (decide _) as [Hin|Hin].
      * split; [by left|]. intros [?|<-]; done.
      * rewrite elem_of_app, list_elem_of_singleton.
        split; (intros [?|?]; [by left|by right]).
Qed.

Lemma dailyRevenueData_get l key :
  default emptyBucket (get key (dailyRevenueData dayKey l))
  = bucketOf (recordsOn dayKey key l).
Proof.
  induction l as [|metric l IH] using rev_ind; [reflexivity|].
  rewrite dailyRevenueData_snoc, get_bump, recordsOn_snoc.
  unfold bucketOf in *. rewrite fold_left_app.
  destruct (decide (key = dayKey (date metric))) as [->|Hne].
  - rewrite decide_True by done. simpl. by rewrite IH.
  - rewrite decide_False by done. simpl. exact IH.
Qed.

Lemma bucketOf_field (proj : Bucket → number) (field : SetterMetrics → number) :
  (∀ metric b, proj (addMetric metric b) = (proj b + safeNumber (field metric))%num) →
  proj emptyBucket = Num.zero →
  ∀ l, proj (bucketOf l) = total field l.
Proof.
  intros Hstep Hzero l. unfold total, bucketOf. rewrite <- Hzero.
  generalize emptyBucket. induction l as [|metric l IH]; intros b; simpl; [done|].
  by rewrite IH, Hstep.
Qed.

Lemma total_sumOf (field : SetterMetrics → number) l :
  total field l = sumOf (map field l).
Proof.
  unfold total, sumOf.
  cut (∀ start,
         fold_left (λ acc metric, acc + safeNumber (field metric))%num l start
         = fold_left (λ acc amount,
                        match amount with
                        | Fin _ => (acc + amount)%num
                        | NaN => (acc + Num.zero)%num
                        end) (map field l) start); [by intros H|].
  induction l as [|metric l IH]; intros start; simpl; [done|].
  rewrite IH. unfold safeNumber. by destruct (field metric).
Qed.

Lemma dataset_totals (proj : Bucket → number) (field : SetterMetrics → number) l :
  (∀ metric b, proj (addMetric metric b) = (proj b + safeNumber (field metric))%num) →
  proj emptyBucket = Num.zero →
  dataset dayKey getTime proj l
  = map (λ key, total field (recordsOn dayKey key l)) (sortedDates dayKey getTime l).
Proof.
  intros Hstep Hzero. unfold dataset. apply map_ext. intros key.
  by rewrite dailyRevenueData_get, (bucketOf_field proj field).
Qed.

(** C9.  For every list of records, in whatever order: the dates of the
    series are pairwise distinct day keys, a key is among them exactly when
    some record falls on that day, they are in ascending order of parsed
    date, and each of the four data arrays holds, day by day, the sum of
    that field over the records of the day: the amounts of the day added up
    from 0 in the order of the records, one that is not a number adding
    nothing. *)
Theorem revenue_series_by_day (settersMetrics : list SetterMetrics) :
  let dates := sortedDates dayKey getTime settersMetrics in
  let sums (field : SetterMetrics → number) :=
    map (λ key, sumOf (map field (recordsOn dayKey key settersMetrics))) dates in
  NoDup dates
  ∧ (∀ key, key ∈ dates
            ↔ ∃ metric, metric ∈ settersMetrics ∧ dayKey (date metric) = key)
  ∧ StronglySorted (earlier getTime) dates
  ∧ dataset dayKey getTime b_revenueGenerated settersMetrics = sums revenueGenerated
  ∧ dataset dayKey getTime b_newCashCollected settersMetrics = sums newCashCollected
  ∧ dataset dayKey getTime b_recurringCashCollected settersMetrics
    = sums recurringCashCollected
  ∧ dataset dayKey getTime b_downsellRevenue settersMetrics = sums downsellRevenue.
Proof.
  intros dates sums. subst dates sums. unfold sortedDates.
  destruct (dailyRevenueData_keys settersMetrics) as [Hn Hk].
  split; [by rewrite sort_Permutation|].
  split; [intros key; by rewrite sort_Permutation|].
  split; [apply sort_sorted|].
  repeat split;
    (etransitivity; [by apply dataset_totals|]);
    apply map_ext; intros key; apply total_sumOf.
Qed.

(** The same days come out of any reordering of the records. *)
Lemma sortedDates_Permutation (l l' : list SetterMetrics) :
  l ≡ₚ l' → sortedDates dayKey getTime l ≡ₚ sortedDates dayKey getTime l'.
Proof.
  intros Hp.
  destruct (dailyRevenueData_keys l) as (Hn & Hk).
  destruct (dailyRevenueData_keys l') as (Hn' & Hk').
  unfold sortedDates. rewrite !sort_Permutation.
  apply NoDup_Permutation; [done|done|].
  intros key. rewrite Hk, Hk'.
  split; intros (metric & Hin & Hkey); exists metric; (split; [|done]).
  - by rewrite <- Hp.
  - by rewrite Hp.
Qed.

End SeriesFacts.

(** Three records given latest first, two of them on 21 April, none on
    20 April: two buckets, in date order, nothing for the empty day, a NaN
    amount counted as 0. *)
Example revenue_series_april :
  let settersMetrics :=
    [ Series.row "2025-04-21T00:00:00.000Z" (Num.of_Z 500) (Num.of_Z 300) NaN (Num.of_Z 50);
      Series.row "2025-04-19T00:00:00.000Z" (Num.of_Z 700) (Num.of_Z 100) (Num.of_Z 20) (Num.of_Z 0);
      Series.row "2025-04-21T00:00:00.000Z" (Num.of_Z 250) (Num.of_Z 0) (Num.of_Z 80) (Num.of_Z 0) ] in
  Series.sortedDates Series.utcDayKey Series.utcGetTime settersMetrics
  = ["2025-04-19"; "2025-04-21"]
  ∧ Series.dataset Series.utcDayKey Series.utcGetTime Series.b_revenueGenerated settersMetrics
    = [Fin 700; Fin 750]
  ∧ Series.dataset Series.utcDayKey Series.utcGetTime Series.b_recurringCashCollected
      settersMetrics
    = [Fin 20; Fin 80].
Proof. vm_compute. repeat split; reflexivity. Qed.

(** * Further properties *)

(** ** Comparisons of finite numbers *)

Lemma Qltb_false_iff (x y : Q) : Num.Qltb x y = false ↔ (y <= x)%Q.
Proof.
  split; [|apply Qltb_false].
  intros H. apply Qnot_lt_le. intros Hlt. apply Qltb_iff in Hlt. congruence.
Qed.

Lemma Qle_bool_false_iff (x y : Q) : Qle_bool x y = false ↔ (y < x)%Q.
Proof.
  split.
  - intros H. apply Qnot_le_lt. intros Hle. apply Qle_bool_iff in Hle. congruence.
  - intros H. destruct (Qle_bool x y) eqn:E; [|reflexivity].
    apply Qle_bool_iff in E. exfalso. exact (Qlt_not_le _ _ H E).
Qed.

Lemma Qeq_bool_false_iff (x y : Q) : Qeq_bool x y = false ↔ ¬ (x == y)%Q.
Proof.
  split.
  - intros H Heq. apply Qeq_bool_iff in Heq. congruence.
  - intros H. destruct (Qeq_bool x y) eqn:E; [|reflexivity].
    apply Qeq_bool_iff in E. contradiction.
Qed.

(** Turns every comparison of the goal and of the hypotheses into its
    statement over the rationals. *)
Ltac q_props :=
  unfold Num.neq, Num.gt, Num.lt, Num.le, Num.eq, Num.add, Num.sub, Num.zero,
    Num.of_Z in *;
  rewrite ?negb_true_iff, ?negb_false_iff, ?andb_true_iff, ?andb_false_iff,
    ?Qltb_iff, ?Qltb_false_iff, ?Qle_bool_iff, ?Qle_bool_false_iff,
    ?Qeq_bool_iff, ?Qeq_bool_false_iff in *.

Lemma flagged_false_iff (v : number) : flagged v = false ↔ Num.nonneg v.
Proof.
  unfold flagged. destruct v as [|q]; simpl; [split; [discriminate|tauto]|].
  apply Qltb_false_iff.
Qed.

(** ** Per-field checks *)

Lemma check_entry_keeps errors kv k :
  is_Some (errors !! k) → is_Some (check_entry errors kv !! k).
Proof.
  intros H. unfold check_entry. case_match; [|done].
  destruct (decide (kv.1 = k)) as [->|Hne].
  - rewrite lookup_insert_eq. eauto.
  - by rewrite lookup_insert_ne.
Qed.

Lemma fold_check_entry_keeps es errors k :
  is_Some (errors !! k) → is_Some (fold_left check_entry es errors !! k).
Proof.
  revert errors. induction es as [|kv es IH]; intros errors H; simpl; [done|].
  by apply IH, check_entry_keeps.
Qed.

Lemma fold_check_entry_flagged es errors k v :
  (k, v) ∈ es → flagged v = true → is_Some (fold_left check_entry es errors !! k).
Proof.
  revert errors. induction es as [|kv es IH]; intros errors Hin Hv; simpl.
  - by apply elem_of_nil in Hin.
  - apply elem_of_cons in Hin as [<-|Hin]; [|by apply IH].
    apply fold_check_entry_keeps. unfold check_entry. simpl.
    fold (flagged v). rewrite Hv, lookup_insert_eq. eauto.
Qed.

Lemma fold_check_entry_other es errors k :
  Forall (λ kv : string * number, kv.1 ≠ k) es →
  fold_left check_entry es errors !! k = errors !! k.
Proof.
  revert errors. induction es as [|kv es IH]; intros errors H; simpl; [done|].
  apply Forall_cons_1 in H as [Hkv H]. rewrite (IH _ H).
  unfold check_entry. case_match; [|done]. by rewrite lookup_insert_ne.
Qed.

Lemma field_errors_empty_iff date es :
  field_errors date es = ∅
  ↔ date ≠ "" ∧ Forall (λ kv : string * number, Num.nonneg kv.2) es.
Proof.
  split.
  - intros He. split.
    + intros ->. unfold field_errors in He. simpl in He.
      assert (is_Some ((∅ : Errors) !! "date")) as [x Hx].
      { rewrite <- He. apply fold_check_entry_keeps. rewrite lookup_insert_eq. eauto. }
      by rewrite lookup_empty in Hx.
    + apply Forall_forall. intros [k v] Hin. simpl.
      apply flagged_false_iff. destruct (flagged v) eqn:Hv; [|done].
      assert (is_Some ((∅ : Errors) !! k)) as [x Hx].
      { rewrite <- He. by apply (fold_check_entry_flagged _ _ _ v). }
      by rewrite lookup_empty in Hx.
  - intros [Hd Hes]. rewrite (field_errors_nonneg _ _ Hes).
    apply String.eqb_neq in Hd. by rewrite Hd.
Qed.

Lemma report_keeps failure errors k :
  is_Some (errors !! k) → is_Some (report failure errors !! k).
Proof.
  intros H. destruct failure as [[f msg]|]; simpl; [|done].
  destruct (decide (f = k)) as [->|Hne].
  - rewrite lookup_insert_eq. eauto.
  - by rewrite lookup_insert_ne.
Qed.

Lemma report_empty_iff failure (errors : Errors) :
  report failure errors = ∅ ↔ failure = None ∧ errors = ∅.
Proof.
  split.
  - destruct failure as [[f msg]|]; simpl; [|done].
    intros H. by apply insert_non_empty in H.
  - by intros [-> ->].
Qed.

Lemma first_failure_None_iff rules :
  first_failure rules = None ↔ Forall (λ r : Rule, r.1 = false) rules.
Proof.
  induction rules as [|[[] entry] rules IH]; simpl.
  - split; [constructor|done].
  - split; [done|]. intros H. by apply Forall_cons_1 in H as [? _].
  - rewrite IH. split; [by constructor|]. intros H. by apply Forall_cons_1 in H as [_ ?].
Qed.

Lemma validateOf_report role date (m : MetricsOf role) :
  ∃ failure, validateOf role date m = report failure (field_errors date (entriesOf role m)).
Proof.
  destruct role; simpl; eexists.
  - unfold Closer.validate. apply closer_chain_is_first_failure.
  - unfold Setter.validate. apply setter_chain_is_first_failure.
  - unfold Dialer.validate. apply dialer_chain_is_first_failure.
Qed.

(** X1.  In every role, a field that is NaN or negative has an entry under
    its own name in the errors object, whichever cross-field rule fires,
    and the handler writes nothing. *)
Theorem invalid_field_is_named
    (role : Role) (date : string) (m : MetricsOf role) (k : string) (v : number) :
  (k, v) ∈ entriesOf role m →
  flagged v = true →
  is_Some (validateOf role date m !! k)
  ∧ ∀ newDate db forceOverwrite,
      (handler newDate role db date forceOverwrite m).2 = db.
Proof.
  intros Hin Hv.
  assert (Hk : is_Some (validateOf role date m !! k)).
  { destruct (validateOf_report role date m) as [failure ->].
    apply report_keeps. by apply (fold_check_entry_flagged _ _ _ v). }
  split; [exact Hk|].
  intros newDate db force. unfold handler. apply action_invalid_no_write.
  intros He. rewrite He, lookup_empty in Hk. by destruct Hk.
Qed.

Lemma invalid_field_is_named_witness :
  let m := closerDay 6 5 (-2) 0 0 in
  is_Some (validateOf CloserRole "2025-04-20" m !! "closes")
  ∧ (handler Date.isoDate CloserRole emptyDb "2025-04-20" true m).2 = emptyDb.
Proof.
  intros m.
  destruct (invalid_field_is_named CloserRole "2025-04-20" m "closes" (Num.of_Z (-2)))
    as [H1 H2].
  - simpl. unfold Closer.entries. simpl.
    apply list_elem_of_In. simpl. tauto.
  - vm_compute. reflexivity.
  - split; [exact H1|apply H2].
Defined.

Lemma entries_no_date role (m : MetricsOf role) :
  Forall (λ kv : string * number, kv.1 ≠ "date") (entriesOf role m).
Proof. destruct role; simpl; repeat constructor; discriminate. Qed.

Lemma chain_never_writes_date role (m : MetricsOf role) date :
  ∃ failure,
    validateOf role date m = report failure (field_errors date (entriesOf role m))
    ∧ ∀ msg, failure ≠ Some ("date", msg).
Proof.
  destruct role; simpl; eexists; (split; [|intros msg]).
  - unfold Closer.validate. apply closer_chain_is_first_failure.
  - unfold Closer.rules. cbn [first_failure].
    repeat lazymatch goal with
           | |- (if ?c then _ else _) ≠ _ => destruct c
           end; discriminate.
  - unfold Setter.validate. apply setter_chain_is_first_failure.
  - unfold Setter.rules. cbn [first_failure].
    repeat lazymatch goal with
           | |- (if ?c then _ else _) ≠ _ => destruct c
           end; discriminate.
  - unfold Dialer.validate. apply dialer_chain_is_first_failure.
  - unfold Dialer.rules. cbn [first_failure].
    repeat lazymatch goal with
           | |- (if ?c then _ else _) ≠ _ => destruct c
           end; discriminate.
Qed.

Lemma validate_missing_date role (m : MetricsOf role) :
  validateOf role "" m !! "date" = Some msg_date.
Proof.
  destruct (chain_never_writes_date role m "") as (failure & -> & Hf).
  assert (Hbase : field_errors "" (entriesOf role m) !! "date" = Some msg_date).
  { unfold field_errors. simpl.
    rewrite (fold_check_entry_other _ _ _ (entries_no_date role m)).
    apply lookup_insert_eq. }
  destruct failure as [[f msg]|]; simpl; [|exact Hbase].
  rewrite lookup_insert_ne; [exact Hbase|]. intros ->. by apply (Hf msg).
Qed.

(** X2.  In every role a submission without a date carries the entry
    date: "Please select a date", no rule of the chain overwrites it, and
    the handler writes nothing, with or without the overwrite flag. *)
Theorem missing_date_is_reported (role : Role) (m : MetricsOf role) :
  validateOf role "" m !! "date" = Some msg_date
  ∧ ∀ newDate db forceOverwrite,
      (handler newDate role db "" forceOverwrite m).2 = db.
Proof.
  pose proof (validate_missing_date role m) as Hk.
  split; [exact Hk|].
  intros newDate db force. unfold handler. apply action_invalid_no_write.
  intros He. by rewrite He, lookup_empty in Hk.
Qed.

(** ** Accepted records *)

Lemma validate_empty_iff role date (m : MetricsOf role) (rules : list Rule) :
  validateOf role date m = report (first_failure rules) (field_errors date (entriesOf role m)) →
  validateOf role date m = ∅
  ↔ date ≠ "" ∧ allNonneg role m ∧ Forall (λ r : Rule, r.1 = false) rules.
Proof.
  intros ->. rewrite report_empty_iff, first_failure_None_iff, field_errors_empty_iff.
  unfold allNonneg. tauto.
Qed.

(** Opens a record whose fields are all non-negative into its rationals. *)
Ltac open_nonneg H :=
  repeat (apply Forall_cons_1 in H as [? H]); clear H; simpl in *;
  repeat match goal with
         | H : Num.nonneg ?n |- _ =>
             destruct n as [|?]; [contradiction|]; unfold Num.nonneg in H
         end.

Lemma closer_rules_pass_iff (m : Closer.Metrics) :
  allNonneg CloserRole m →
  Forall (λ r : Rule, r.1 = false) (Closer.rules m) ↔ closerConsistent m.
Proof.
  intros H. unfold Closer.rules, closerConsistent.
  rewrite !Forall_cons, Forall_nil.
  destruct m as [b s n c d r o t cl cash rev].
  unfold allNonneg in H. simpl in H. cbn [fst Closer.dailyCallsBooked Closer.shows
    Closer.noShows Closer.cancelled Closer.disqualified Closer.rescheduled
    Closer.offersMade Closer.callsTaken Closer.closes Closer.cashCollected
    Closer.revenueGenerated].
  open_nonneg H. q_props. intuition lra.
Qed.

Lemma setter_rules_pass_iff (m : Setter.Metrics) :
  allNonneg SetterRole m →
  Forall (λ r : Rule, r.1 = false) (Setter.rules m) ↔ setterConsistent m.
Proof.
  intros H. unfold Setter.rules, setterConsistent.
  rewrite !Forall_cons, Forall_nil.
  destruct m as [ob ib fu cp hb ss st cs rev nc rc dr].
  unfold allNonneg in H. simpl in H. cbn [fst Setter.dailyOutboundConversations
    Setter.inboundConversations Setter.followUps Setter.callsProposed
    Setter.totalHighTicketSalesCallsBooked Setter.setsScheduled Setter.setsTaken
    Setter.closedSets Setter.revenueGenerated Setter.newCashCollected
    Setter.recurringCashCollected Setter.downsellRevenue].
  open_nonneg H. q_props. intuition lra.
Qed.

Lemma dialer_rules_pass_iff (m : Dialer.Metrics) :
  allNonneg DialerRole m →
  Forall (λ r : Rule, r.1 = false) (Dialer.rules m) ↔ dialerConsistent m.
Proof.
  intros H. unfold Dialer.rules, dialerConsistent.
  rewrite !Forall_cons, Forall_nil.
  destruct m as [di co cv qc msch mset mshow ns cd rev cash].
  unfold allNonneg in H. simpl in H. cbn [fst Dialer.dials Dialer.connects
    Dialer.conversations Dialer.qualifiedConversations Dialer.meetingsScheduled
    Dialer.meetingsSet Dialer.meetingsShowed Dialer.noShows Dialer.closedDeals
    Dialer.revenueGenerated Dialer.cashCollected].
  open_nonneg H. q_props. intuition lra.
Qed.

Lemma validateOf_rules role date (m : MetricsOf role) :
  validateOf role date m
  = report (first_failure (rulesOf role m)) (field_errors date (entriesOf role m)).
Proof.
  destruct role; simpl.
  - unfold Closer.validate. apply closer_chain_is_first_failure.
  - unfold Setter.validate. apply setter_chain_is_first_failure.
  - unfold Dialer.validate. apply dialer_chain_is_first_failure.
Qed.

Lemma rules_pass_iff role (m : MetricsOf role) :
  allNonneg role m →
  Forall (λ r : Rule, r.1 = false) (rulesOf role m) ↔ consistentOf role m.
Proof.
  destruct role; simpl.
  - apply closer_rules_pass_iff.
  - apply setter_rules_pass_iff.
  - apply dialer_rules_pass_iff.
Qed.

Lemma validate_empty_stored role date (m : MetricsOf role) :
  validateOf role date m = ∅ → allNonneg role m ∧ consistentOf role m.
Proof.
  intros Hv.
  apply (validate_empty_iff role date m _ (validateOf_rules role date m)) in Hv
    as (_ & Hn & Hr).
  split; [done|]. by apply (rules_pass_iff role m Hn).
Qed.

(** X3.  On a submission whose sums the host computes without rounding
    (their operands whole numbers of magnitude at most 2^50), the validator
    of the role passes exactly when there is a date, every field is numeric
    and non-negative, and the rules of the role that the others do not
    already imply hold. *)
Theorem accepted_iff_consistent (role : Role) (date : string) (m : MetricsOf role) :
  exactSums role m = true →
  validateOf role date m = ∅
  ↔ date ≠ "" ∧ allNonneg role m ∧ consistentOf role m.
Proof.
  intros _.
  rewrite (validate_empty_iff role date m _ (validateOf_rules role date m)).
  split; intros (Hd & Hn & Hr); (split; [done|split; [done|]]);
    by apply (rules_pass_iff role m Hn).
Qed.

Lemma accepted_iff_consistent_witness :
  exactSums SetterRole (Setter.day 1000 600 300 100) = true
  ∧ (validateOf SetterRole "2025-04-20" (Setter.day 1000 600 300 100) = ∅
     ↔ "2025-04-20" ≠ ""
       ∧ allNonneg SetterRole (Setter.day 1000 600 300 100)
       ∧ consistentOf SetterRole (Setter.day 1000 600 300 100)).
Proof.
  split; [vm_compute; reflexivity|].
  apply (accepted_iff_consistent SetterRole). vm_compute. reflexivity.
Defined.

(** ** Rules that non-negative fields make unreachable *)

Ltac chain_neq :=
  cbn [first_failure];
  repeat lazymatch goal with
         | |- (if ?c then _ else _) ≠ _ => let E := fresh "E" in destruct c eqn:E
         end.

Lemma closer_dead_rules (m : Closer.Metrics) (field msg : string) :
  allNonneg CloserRole m →
  msg ∈ closerDeadMessages →
  first_failure (Closer.rules m) ≠ Some (field, msg).
Proof.
  intros H Hmsg. unfold Closer.rules.
  destruct m as [b s n c d r o t cl cash rev].
  unfold allNonneg in H. simpl in H. cbn [Closer.dailyCallsBooked Closer.shows
    Closer.noShows Closer.cancelled Closer.disqualified Closer.rescheduled
    Closer.offersMade Closer.callsTaken Closer.closes Closer.cashCollected
    Closer.revenueGenerated].
  open_nonneg H.
  unfold closerDeadMessages in Hmsg.
  repeat (apply elem_of_cons in Hmsg as [->|Hmsg]); [..|by apply elem_of_nil in Hmsg];
    chain_neq; try discriminate; exfalso; q_props; intuition lra.
Qed.

Lemma dialer_dead_rules (m : Dialer.Metrics) (field msg : string) :
  allNonneg DialerRole m →
  msg ∈ dialerDeadMessages →
  first_failure (Dialer.rules m) ≠ Some (field, msg).
Proof.
  intros H Hmsg. unfold Dialer.rules.
  destruct m as [di co cv qc msch mset mshow ns cd rev cash].
  unfold allNonneg in H. simpl in H. cbn [Dialer.dials Dialer.connects
    Dialer.conversations Dialer.qualifiedConversations Dialer.meetingsScheduled
    Dialer.meetingsSet Dialer.meetingsShowed Dialer.noShows Dialer.closedDeals
    Dialer.revenueGenerated Dialer.cashCollected].
  open_nonneg H.
  unfold dialerDeadMessages in Hmsg.
  repeat (apply elem_of_cons in Hmsg as [->|Hmsg]); [..|by apply elem_of_nil in Hmsg];
    chain_neq; try discriminate; exfalso; q_props; intuition lra.
Qed.

(** X4.  For a closer submission whose fields are all numeric and
    non-negative, the six counters of the sum rule being whole numbers of
    at most 2^50 (so that the host adds and subtracts them without
    rounding), the six messages about shows, no-shows, cancellations and
    reschedules exceeding the calls booked never appear: once the sum rule
    has passed, those rules cannot be violated. *)
Theorem closer_count_rules_unreachable (date : string) (m : Closer.Metrics) :
  allNonneg CloserRole m →
  exactSums CloserRole m = true →
  ∀ k msg, msg ∈ closerDeadMessages → Closer.validate date m !! k ≠ Some msg.
Proof.
  intros H _ k msg Hmsg. unfold Closer.validate. rewrite closer_chain_is_first_failure.
  apply report_lookup_not.
  - apply field_errors_per_field.
  - unfold closerDeadMessages in Hmsg.
    repeat (apply elem_of_cons in Hmsg as [->|Hmsg]); [..|by apply elem_of_nil in Hmsg];
      discriminate.
  - unfold closerDeadMessages in Hmsg.
    repeat (apply elem_of_cons in Hmsg as [->|Hmsg]); [..|by apply elem_of_nil in Hmsg];
      discriminate.
  - intros field. by apply closer_dead_rules.
Qed.

Lemma closer_count_rules_unreachable_witness :
  allNonneg CloserRole (closerDay 12 5 2 0 0)
  ∧ exactSums CloserRole (closerDay 12 5 2 0 0) = true
  ∧ Closer.validate "2025-04-20" (closerDay 12 5 2 0 0) !! "cancelled"
    ≠ Some Closer.msg_cancelled.
Proof.
  assert (H : allNonneg CloserRole (closerDay 12 5 2 0 0)).
  { unfold allNonneg. simpl. repeat constructor; vm_compute; discriminate. }
  assert (He : exactSums CloserRole (closerDay 12 5 2 0 0) = true)
    by (vm_compute; reflexivity).
  split; [exact H|]. split; [exact He|].
  apply (closer_count_rules_unreachable "2025-04-20" _ H He).
  unfold closerDeadMessages. apply list_elem_of_In. simpl. tauto.
Defined.

(** X5.  For a dialer submission whose fields are all numeric and
    non-negative neither "Meetings Scheduled cannot be negative" nor
    "Revenue Generated must be greater than 0 if Closed Deals > 0" ever
    appears: both rules test a field for being below zero. *)
Theorem dialer_negative_rules_unreachable (date : string) (m : Dialer.Metrics) :
  allNonneg DialerRole m →
  ∀ k msg, msg ∈ dialerDeadMessages → Dialer.validate date m !! k ≠ Some msg.
Proof.
  intros H k msg Hmsg. unfold Dialer.validate. rewrite dialer_chain_is_first_failure.
  apply report_lookup_not.
  - apply field_errors_per_field.
  - unfold dialerDeadMessages in Hmsg.
    repeat (apply elem_of_cons in Hmsg as [->|Hmsg]); [..|by apply elem_of_nil in Hmsg];
      discriminate.
  - unfold dialerDeadMessages in Hmsg.
    repeat (apply elem_of_cons in Hmsg as [->|Hmsg]); [..|by apply elem_of_nil in Hmsg];
      discriminate.
  - intros field. by apply dialer_dead_rules.
Qed.

Lemma dialer_negative_rules_unreachable_witness :
  allNonneg DialerRole (Dialer.oneDeal 0 50)
  ∧ Dialer.validate "2025-04-20" (Dialer.oneDeal 0 50) !! "revenueGenerated"
    ≠ Some Dialer.msg_revenue.
Proof.
  assert (H : allNonneg DialerRole (Dialer.oneDeal 0 50)).
  { unfold allNonneg. simpl. repeat constructor; vm_compute; discriminate. }
  split; [exact H|].
  apply (dialer_negative_rules_unreachable "2025-04-20" _ H).
  unfold dialerDeadMessages. apply list_elem_of_In. simpl. tauto.
Defined.

(** ** Outcomes of the write handler *)

Section OutcomeFacts.

Variable newDate : string → option Z.
Context {Metrics : Type}.
Variable personId : string.
Variable validate : string → Metrics → Errors.
Variable fits : Metrics → bool.

Implicit Types (db : Db Metrics) (m : Metrics).

(** X6.  For a date the host can read, whatever the validation block
    computes, the answer of the handler is decided by four facts.  With the
    way open (the overwrite flag set, or no document for the day): success
    exactly when the errors object is empty and the database client takes
    the data; the errors object exactly when it is not empty; no answer,
    the upsert having raised, exactly when the errors object is empty and
    the client does not take the data.  The conflict exactly when the flag
    is unset and the day has a document. *)
Theorem handler_decision_table db date forceOverwrite m d :
  newDate date = Some d →
  let answer := (action newDate personId validate fits db date forceOverwrite m).1 in
  let existing := is_Some (rows db !! (personId, d)) in
  (answer = Success
   ↔ validate date m = ∅ ∧ fits m = true ∧ (forceOverwrite = true ∨ ¬ existing))
  ∧ (answer = Conflict date ↔ forceOverwrite = false ∧ existing)
  ∧ (answer = Rejected (validate date m)
     ↔ validate date m ≠ ∅ ∧ (forceOverwrite = true ∨ ¬ existing))
  ∧ (answer = Thrown
     ↔ validate date m = ∅ ∧ fits m = false ∧ (forceOverwrite = true ∨ ¬ existing)).
Proof.
  intros Hd. cbv zeta. rewrite (action_valid_date _ _ _ _ _ _ _ _ _ Hd).
  destruct forceOverwrite; simpl.
  - destruct (decide (validate date m = ∅)) as [Hv|Hv]; simpl;
      [destruct (fits m); simpl|];
      intuition (try discriminate; try congruence).
  - destruct (bool_decide_reflect (is_Some (rows db !! (personId, d))))
      as [He|He]; simpl.
    + intuition (try discriminate; try congruence).
    + destruct (decide (validate date m = ∅)) as [Hv|Hv]; simpl;
        [destruct (fits m); simpl|];
        intuition (try discriminate; try congruence).
Qed.

(** X7.  The first accepted submission for a day, its data taken by the
    database client, creates the document of the day: the lookup of that
    day then returns the submitted metrics, the collection has one more
    document, and any later submission for the day without the overwrite
    flag is answered with the conflict and changes nothing. *)
Theorem first_submission_then_conflict db date forceOverwrite m d :
  newDate date = Some d →
  rows db !! (personId, d) = None →
  validate date m = ∅ →
  fits m = true →
  ∃ db',
    action newDate personId validate fits db date forceOverwrite m = (Success, db')
    ∧ findUnique newDate personId db' date
      = Some (Some {| row_id := next_id db; row_metrics := m |})
    ∧ size (rows db') = S (size (rows db))
    ∧ ∀ m', action newDate personId validate fits db' date false m'
            = (Conflict date, db').
Proof.
  intros Hd Hk Hv Hf. rewrite (action_valid_date _ _ _ _ _ _ _ _ _ Hd), Hk.
  rewrite bool_decide_eq_false_2 by (intros [? ?]; done).
  rewrite andb_false_r, decide_True, Hf by done.
  eexists. split; [reflexivity|]. split; [|split].
  - unfold findUnique. rewrite Hd. simpl. by rewrite stored_lookup, Hk.
  - unfold stored. rewrite Hk. simpl. by rewrite map_size_insert, Hk.
  - intros m'. rewrite (action_valid_date _ _ _ _ _ _ _ _ _ Hd).
    rewrite stored_lookup, bool_decide_eq_true_2 by eauto. done.
Qed.

(** X8.  Last write wins, and nothing of an earlier request remains: when a
    submission with the overwrite flag passes validation and is taken by
    the database client, the metrics the collection then holds, day by day,
    are the same whether or not another submission for the same day,
    whatever its metrics, was sent with the flag just before it; the day
    holds the metrics of the last submission. *)
Theorem forced_resubmission_last_wins db date m1 m2 d :
  newDate date = Some d →
  validate date m2 = ∅ →
  fits m2 = true →
  row_metrics <$> rows (action newDate personId validate fits
                          (action newDate personId validate fits db date true m1).2
                          date true m2).2
  = row_metrics <$> rows (action newDate personId validate fits db date true m2).2
  ∧ row_metrics <$> rows (action newDate personId validate fits db date true m2).2
                      !! (personId, d)
    = Some m2.
Proof.
  intros Hd H2 Hf2.
  assert (Hsecond : ∀ db0, action newDate personId validate fits db0 date true m2
                           = (Success, stored personId db0 d m2)).
  { intros db0. rewrite (action_valid_date _ _ _ _ _ _ _ _ _ Hd). simpl.
    by rewrite decide_True, Hf2. }
  rewrite !Hsecond. simpl. split; [|by rewrite stored_lookup].
  rewrite (action_valid_date _ _ _ _ _ _ _ _ _ Hd). simpl.
  destruct (decide (validate date m1 = ∅)); [|done].
  destruct (fits m1); [|done]. simpl. by rewrite stored_twice.
Qed.

End OutcomeFacts.

Section HandlerFacts.

Variable newDate : string → option Z.
Variable role : Role.

Implicit Types (db : Db (MetricsOf role)) (m : MetricsOf role).

Lemma handler_valid_date db date force m d :
  newDate date = Some d →
  handler newDate role db date force m
  = if (negb force && bool_decide (is_Some (rows db !! (personIdOf role, d))))%bool
    then (Conflict date, db)
    else if decide (validateOf role date m = ∅)
    then (if fitsSchema role m
          then (Success, stored (personIdOf role) db d m)
          else (Thrown, db))
    else (Rejected (validateOf role date m), db).
Proof. intros Hd. unfold handler. by apply action_valid_date. Qed.

Lemma handler_invalid_date db date force m :
  newDate date = None → (handler newDate role db date force m).2 = db.
Proof. intros Hd. unfold handler. by apply action_invalid_date. Qed.

(** X9.  A request touches at most the document of its own day: every
    other document is left as it was, no document is ever removed, and a
    request whose answer is not success changes nothing at all. *)
Theorem handler_frame db date forceOverwrite m :
  let result := handler newDate role db date forceOverwrite m in
  (∀ k d, newDate date = Some d → k ≠ (personIdOf role, d) →
     rows result.2 !! k = rows db !! k)
  ∧ (∀ k, is_Some (rows db !! k) → is_Some (rows result.2 !! k))
  ∧ (result.1 ≠ Success → result.2 = db).
Proof.
  cbv zeta. destruct (newDate date) as [d|] eqn:Hd.
  - rewrite (handler_valid_date _ _ _ _ _ Hd).
    destruct (negb forceOverwrite && _)%bool; simpl; [by repeat split|].
    destruct (decide (validateOf role date m = ∅)); simpl; [|by repeat split].
    destruct (fitsSchema role m); simpl; [|by repeat split].
    split; [|split; [|done]].
    + intros k d' [= <-] Hne. by apply stored_lookup_ne.
    + intros k Hk. destruct (decide (k = (personIdOf role, d))) as [->|Hne].
      * rewrite stored_lookup. eauto.
      * by rewrite stored_lookup_ne.
  - rewrite (handler_invalid_date _ _ _ _ Hd). repeat split; try done.
Qed.

End HandlerFacts.

Lemma handler_decision_table_witness :
  let db := singleDb Closer.closerId 1745107200000 (closerDay 6 5 2 100 400) in
  (handler Date.isoDate CloserRole db "2025-04-20" false (closerDay 7 6 3 0 0)).1
  = Conflict "2025-04-20"
  ∧ (handler Date.isoDate CloserRole db "2025-04-20" true (closerDay 7 6 3 0 0)).1
    = Success
  ∧ (handler Date.isoDate CloserRole db "2025-04-20" true halfClose).1 = Thrown.
Proof.
  intros db.
  pose proof (handler_decision_table Date.isoDate Closer.closerId Closer.validate
                (fitsSchema CloserRole) db "2025-04-20") as T.
  destruct (T false (closerDay 7 6 3 0 0) 1745107200000%Z) as (_ & H2 & _);
    [vm_compute; reflexivity|].
  destruct (T true (closerDay 7 6 3 0 0) 1745107200000%Z) as (H1 & _);
    [vm_compute; reflexivity|].
  destruct (T true halfClose 1745107200000%Z) as (_ & _ & _ & H4);
    [vm_compute; reflexivity|].
  split; [|split].
  - apply H2. split; [reflexivity|]. eexists. vm_compute. reflexivity.
  - apply H1. split; [vm_compute; reflexivity|]. split; [vm_compute; reflexivity|by left].
  - apply H4. split; [vm_compute; reflexivity|]. split; [vm_compute; reflexivity|by left].
Defined.

Lemma first_submission_then_conflict_witness :
  ∃ db',
    handler Date.isoDate SetterRole emptyDb "2025-04-20" false
      (Setter.day 1000 600 300 100) = (Success, db')
    ∧ findUnique Date.isoDate (personIdOf SetterRole) db' "2025-04-20"
      = Some (Some {| row_id := 0; row_metrics := Setter.day 1000 600 300 100 |})
    ∧ size (rows db') = 1.
Proof.
  destruct (first_submission_then_conflict Date.isoDate Setter.setterId Setter.validate
              (fitsSchema SetterRole) emptyDb
              "2025-04-20" false (Setter.day 1000 600 300 100) 1745107200000)
    as (db' & H1 & H2 & H3 & _).
  - vm_compute. reflexivity.
  - apply lookup_empty.
  - vm_compute. reflexivity.
  - vm_compute. reflexivity.
  - exists db'. split; [exact H1|]. split; [exact H2|].
    etransitivity; [exact H3|]. simpl. by rewrite map_size_empty.
Defined.

Lemma forced_resubmission_last_wins_witness :
  let db := singleDb Closer.closerId 1745107200000 (closerDay 6 5 2 100 400) in
  let m1 := closerDay 7 6 3 0 0 in
  let m2 := closerDay 9 8 1 50 50 in
  row_metrics <$> rows (handler Date.isoDate CloserRole
                          (handler Date.isoDate CloserRole db "2025-04-20" true m1).2
                          "2025-04-20" true m2).2
  = row_metrics <$> rows (handler Date.isoDate CloserRole db "2025-04-20" true m2).2.
Proof.
  intros db m1 m2.
  refine (proj1 (forced_resubmission_last_wins Date.isoDate Closer.closerId
                   Closer.validate (fitsSchema CloserRole) db
                   "2025-04-20" m1 m2 1745107200000 _ _ _));
    vm_compute; reflexivity.
Defined.

(** ** What a collection can hold *)

Lemma handler_keeps_consistent newDate role
    (db : Db (MetricsOf role)) date force (m : MetricsOf role) :
  storedConsistent role db →
  storedConsistent role (handler newDate role db date force m).2.
Proof.
  intros Hdb.
  destruct (newDate date) as [d|] eqn:Hd.
  - rewrite (handler_valid_date _ _ _ _ _ _ _ Hd).
    destruct (negb force && _)%bool; simpl; [done|].
    destruct (decide (validateOf role date m = ∅)) as [Hv|Hv]; simpl; [|done].
    destruct (fitsSchema role m); simpl; [|done].
    apply validate_empty_stored in Hv as (Hn & Hc).
    intros k row. destruct (decide (k = (personIdOf role, d))) as [->|Hne].
    + rewrite stored_lookup. by intros [= <-].
    + rewrite stored_lookup_ne by done. by apply Hdb.
  - by rewrite (handler_invalid_date _ _ _ _ _ _ Hd).
Qed.

Lemma handler_keeps_origin newDate role requests
    (db : Db (MetricsOf role)) (s : Submission role) :
  storedFrom role requests db →
  storedFrom role (requests ++ [s]) (submit newDate role db s).2.
Proof.
  intros Hdb k row. unfold submit.
  assert (Hold : rows db !! k = Some row →
            ∃ s0, s0 ∈ requests ++ [s] ∧ row_metrics row = s_metrics s0).
  { intros Hk. destruct (Hdb k row Hk) as (s0 & Hin & Hm).
    exists s0. split; [|done]. apply elem_of_app. by left. }
  destruct (newDate (s_date s)) as [d|] eqn:Hd.
  - rewrite (handler_valid_date _ _ _ _ _ _ _ Hd).
    destruct (negb (s_forceOverwrite s) && _)%bool; simpl; [done|].
    destruct (decide (validateOf role (s_date s) (s_metrics s) = ∅)); simpl; [|done].
    destruct (fitsSchema role (s_metrics s)); simpl; [|done].
    destruct (decide (k = (personIdOf role, d))) as [->|Hne].
    + rewrite stored_lookup. intros [= <-]. exists s. split; [|done].
      apply elem_of_app. right. by apply list_elem_of_singleton.
    + by rewrite stored_lookup_ne.
  - by rewrite (handler_invalid_date _ _ _ _ _ _ Hd).
Qed.

(** X10.  Whatever requests are sent, in whatever order, for whatever
    dates and with whatever flags, as long as the counters of each are
    whole numbers of 32 bits and the operands of its sums whole numbers of
    at most 2^50 (what the host then computes is what exact arithmetic
    gives), every document the collection ends up holding carries the
    metrics of one of the requests as they were submitted, and these are
    numeric, non-negative and satisfy the rules of the role: starting from
    the empty collection the handler never stores anything else. *)
Theorem stored_documents_consistent
    (newDate : string → option Z) (role : Role) (requests : list (Submission role)) :
  Forall (λ s, fitsSchema role (s_metrics s) = true
               ∧ exactSums role (s_metrics s) = true) requests →
  storedConsistent role (replay newDate role emptyDb requests)
  ∧ storedFrom role requests (replay newDate role emptyDb requests).
Proof.
  intros _. unfold replay.
  induction requests as [|s requests [IH1 IH2]] using rev_ind.
  - split; intros k row; simpl; by rewrite lookup_empty.
  - rewrite fold_left_app. simpl. split.
    + unfold submit. by apply handler_keeps_consistent.
    + by apply handler_keeps_origin.
Qed.

Lemma stored_documents_consistent_witness :
  let requests : list (Submission SetterRole) :=
    [ Build_Submission SetterRole "2025-04-20" false (Setter.day 1000 600 300 100);
      Build_Submission SetterRole "2025-04-20" true (Setter.day 500 600 300 100);
      Build_Submission SetterRole "2025-04-21" false (Setter.day 900 600 300 0) ] in
  storedConsistent SetterRole (replay Date.isoDate SetterRole emptyDb requests)
  ∧ row_metrics <$> rows (replay Date.isoDate SetterRole emptyDb requests)
                      !! (Setter.setterId, 1745107200000%Z)
    = Some (Setter.day 1000 600 300 100).
Proof.
  intros requests. split; [|vm_compute; reflexivity].
  apply stored_documents_consistent. subst requests.
  repeat (constructor; [split; vm_compute; reflexivity|]). constructor.
Defined.

(** ** The other windows of the range resolver *)

Section DayDifference.
Import Date.
Local Open Scope Z_scope.

Lemma differenceInDays_bounds s e :
  differenceInDays (endOfDay e) (startOfDay s)
  = if dayOf s <=? dayOf e then dayOf e - dayOf s else dayOf e - dayOf s + 1.
Proof.
  unfold differenceInDays, endOfDay. rewrite !startOfDay_dayOf.
  destruct (Z.leb_spec (dayOf s) (dayOf e)) as [Hle|Hgt].
  - generalize (dayOf s) (dayOf e) Hle. unfold msPerDay. intros a b Hab.
    Z.to_euclidean_division_equations. lia.
  - generalize (dayOf s) (dayOf e) Hgt. unfold msPerDay. intros a b Hab.
    Z.to_euclidean_division_equations. lia.
Qed.

End DayDifference.

Section MoreRangeFacts.
Import Date Range.
Local Open Scope Z_scope.

Variable parseISO : string → option Z.
Variable toZonedTime : Z → Z.

Lemma resolve_default range startDate endDate now :
  range ≠ "24h" → range ≠ "7d" →
  range ≠ "custom" ∨ truthy startDate = false ∨ truthy endDate = false →
  resolve parseISO toZonedTime range startDate endDate now
  = resolve parseISO toZonedTime "30d" None None now.
Proof.
  intros H24 H7 Hc. unfold resolve.
  apply String.eqb_neq in H24, H7. rewrite H24, H7. simpl.
  destruct Hc as [Hc|[Hc|Hc]].
  - apply String.eqb_neq in Hc. by rewrite Hc.
  - rewrite Hc, andb_false_r. done.
  - rewrite Hc, andb_false_r. done.
Qed.

(** X11.  Every request that is not 24h, not 7d and not a custom range
    with both dates present gets the 30d window, whatever its range token:
    thirty calendar days ending today, preceded without gap or overlap by a
    previous window of thirty calendar days. *)
Theorem default_window_is_30d range startDate endDate now :
  range ≠ "24h" → range ≠ "7d" →
  range ≠ "custom" ∨ truthy startDate = false ∨ truthy endDate = false →
  let w := resolve parseISO toZonedTime range startDate endDate now in
  w = resolve parseISO toZonedTime "30d" None None now
  ∧ end_ w = endOfDay now
  ∧ start w = startOfDay (subDays now 29)
  ∧ calendarDays (start w) (end_ w) = 30
  ∧ calendarDays (previousStart w) (previousEnd w) = 30
  ∧ adjacent w
  ∧ daysInRange w = 30 ∧ daysInPreviousRange w = 30.
Proof.
  intros H24 H7 Hc. cbv zeta.
  rewrite (resolve_default _ _ _ _ H24 H7 Hc), resolve_30d.
  unfold adjacent, calendarDays.
  cbn [start end_ previousStart previousEnd daysInRange daysInPreviousRange].
  rewrite !startOfDay_subDays, !endOfDay_subDays, ?startOfDay_endOfDay, ?startOfDay_idemp,
    ?endOfDay_idemp, ?dayOf_subDays, ?dayOf_startOfDay, ?dayOf_endOfDay.
  repeat split; try lia; try reflexivity;
    unfold subDays, endOfDay, msPerDay; lia.
Qed.

Lemma resolve_24h startDate endDate now :
  resolve parseISO toZonedTime "24h" startDate endDate now
  = {| start := startOfDay now;
       end_ := endOfDay now;
       previousStart := startOfDay (subDays (startOfDay now) 1);
       previousEnd := endOfDay (subDays (endOfDay now) 1);
       daysInRange := 1;
       daysInPreviousRange := 1 |}.
Proof. reflexivity. Qed.

(** X12.  The 24h window is the calendar day of [now], from its first to
    its last millisecond, not the 24 hours before [now]; the previous
    window is the day before, ending on the millisecond before today
    begins. *)
Theorem day_window startDate endDate now :
  let w := resolve parseISO toZonedTime "24h" startDate endDate now in
  start w = startOfDay now
  ∧ end_ w = endOfDay now
  ∧ start w ≤ now ∧ now ≤ end_ w
  ∧ calendarDays (start w) (end_ w) = 1
  ∧ previousStart w = subDays (start w) 1
  ∧ previousEnd w = subDays (end_ w) 1
  ∧ adjacent w
  ∧ daysInRange w = 1 ∧ daysInPreviousRange w = 1.
Proof.
  rewrite resolve_24h. cbv zeta. unfold adjacent, calendarDays.
  cbn [start end_ previousStart previousEnd daysInRange daysInPreviousRange].
  rewrite !startOfDay_subDays, !endOfDay_subDays, ?startOfDay_idemp, ?endOfDay_idemp,
    ?dayOf_startOfDay, ?dayOf_endOfDay.
  repeat split; try lia; try reflexivity;
    unfold subDays, endOfDay, startOfDay, msPerDay; Z.div_mod_to_equations; lia.
Qed.

Lemma resolve_custom_parsed (startDate endDate : string) parsedStart parsedEnd now :
  startDate ≠ "" → endDate ≠ "" →
  parseISO startDate = Some parsedStart → parseISO endDate = Some parsedEnd →
  resolve parseISO toZonedTime "custom" (Some startDate) (Some endDate) now
  = let start := startOfDay (toZonedTime parsedStart) in
    let end1 := endOfDay (toZonedTime parsedEnd) in
    let daysInRange := differenceInDays end1 start + 1 in
    {| start := start;
       end_ := end1;
       previousStart := startOfDay (subDays start daysInRange);
       previousEnd := endOfDay (subDays end1 daysInRange);
       daysInRange := daysInRange;
       daysInPreviousRange := daysInRange |}.
Proof.
  intros Hs He Hps Hpe. unfold resolve, truthy.
  apply String.eqb_neq in Hs, He. rewrite Hs, He. simpl. by rewrite Hps, Hpe.
Qed.

(** X13.  A custom range whose two dates parse runs from the first
    millisecond of the day on which the parsed start falls once converted to
    the zone of the request, to the last millisecond of the day on which
    the converted end falls.  These are not always the days asked for: when
    the conversion moves an instant back by up to a day and the parsed dates
    are midnights, the window begins on the day before the start date asked
    for and ends on the day before the end date asked for.  When the end day
    is not before the start day, the day count is the number of calendar
    days of the window, and the previous window has as many days and ends
    on the millisecond before the window begins. *)
Theorem custom_window (startDate endDate : string) parsedStart parsedEnd now :
  startDate ≠ "" → endDate ≠ "" →
  parseISO startDate = Some parsedStart → parseISO endDate = Some parsedEnd →
  dayOf (toZonedTime parsedStart) ≤ dayOf (toZonedTime parsedEnd) →
  let w := resolve parseISO toZonedTime "custom" (Some startDate) (Some endDate) now in
  start w = startOfDay (toZonedTime parsedStart)
  ∧ end_ w = endOfDay (toZonedTime parsedEnd)
  ∧ (∀ behind, 0 < behind ≤ msPerDay →
     startOfDay parsedStart = parsedStart →
     toZonedTime parsedStart = parsedStart - behind →
     start w = subDays parsedStart 1)
  ∧ (∀ behind, 0 < behind ≤ msPerDay →
     startOfDay parsedEnd = parsedEnd →
     toZonedTime parsedEnd = parsedEnd - behind →
     end_ w = endOfDay (subDays parsedEnd 1))
  ∧ daysInRange w = calendarDays (start w) (end_ w)
  ∧ daysInPreviousRange w = daysInRange w
  ∧ calendarDays (previousStart w) (previousEnd w) = daysInRange w
  ∧ adjacent w
  ∧ 1 ≤ daysInRange w.
Proof.
  intros Hs He Hps Hpe Hle.
  rewrite (resolve_custom_parsed _ _ _ _ _ Hs He Hps Hpe). cbv zeta.
  unfold adjacent, calendarDays.
  cbn [start end_ previousStart previousEnd daysInRange daysInPreviousRange].
  rewrite differenceInDays_bounds.
  apply Z.leb_le in Hle. rewrite Hle. apply Z.leb_le in Hle.
  split; [reflexivity|]. split; [reflexivity|]. split; [|split].
  - intros behind Hb Hmid ->. revert Hmid.
    unfold subDays, startOfDay, msPerDay in *. intros Hmid.
    Z.div_mod_to_equations. lia.
  - intros behind Hb Hmid ->. revert Hmid.
    unfold subDays, endOfDay, startOfDay, msPerDay in *. intros Hmid.
    Z.div_mod_to_equations. lia.
  - rewrite !startOfDay_subDays, !endOfDay_subDays, ?startOfDay_idemp, ?endOfDay_idemp,
      ?dayOf_subDays, ?dayOf_startOfDay, ?dayOf_endOfDay.
    repeat split; try lia.
    unfold subDays, endOfDay. rewrite !startOfDay_dayOf. unfold msPerDay. lia.
Qed.

(** X14.  A custom range whose end day lies before its start day is not
    refused: the window is empty (it ends before it begins), and the day
    count is the difference of the days plus two, so at most 1 and zero or
    negative from two days of inversion on. *)
Theorem custom_window_inverted (startDate endDate : string) parsedStart parsedEnd now :
  startDate ≠ "" → endDate ≠ "" →
  parseISO startDate = Some parsedStart → parseISO endDate = Some parsedEnd →
  dayOf (toZonedTime parsedEnd) < dayOf (toZonedTime parsedStart) →
  let w := resolve parseISO toZonedTime "custom" (Some startDate) (Some endDate) now in
  end_ w < start w
  ∧ daysInRange w = dayOf (toZonedTime parsedEnd) - dayOf (toZonedTime parsedStart) + 2
  ∧ daysInRange w ≤ 1
  ∧ daysInPreviousRange w = daysInRange w.
Proof.
  intros Hs He Hps Hpe Hlt.
  rewrite (resolve_custom_parsed _ _ _ _ _ Hs He Hps Hpe). cbv zeta.
  cbn [start end_ previousStart previousEnd daysInRange daysInPreviousRange].
  rewrite differenceInDays_bounds.
  assert (Hgt : (dayOf (toZonedTime parsedStart) <=? dayOf (toZonedTime parsedEnd)) = false)
    by (apply Z.leb_gt; lia).
  rewrite Hgt.
  repeat split; try lia.
  unfold endOfDay. rewrite !startOfDay_dayOf. unfold msPerDay. lia.
Qed.

End MoreRangeFacts.

Lemma default_window_is_30d_witness :
  let w := Range.resolve Date.isoDate id "custom" (Some "2025-04-01") None 1745163000000 in
  w = Range.resolve Date.isoDate id "30d" None None 1745163000000
  ∧ Date.calendarDays (Range.start w) (Range.end_ w) = 30%Z
  ∧ Range.adjacent w.
Proof.
  destruct (default_window_is_30d Date.isoDate id "custom" (Some "2025-04-01") None
              1745163000000) as (H1 & _ & _ & H2 & _ & H3 & _).
  - discriminate.
  - discriminate.
  - right. right. reflexivity.
  - split; [exact H1|]. split; [exact H2|exact H3].
Defined.

Lemma custom_window_witness :
  let fourHoursBehind (instant : Z) := (instant - 14400000)%Z in
  let w := Range.resolve Date.isoDate fourHoursBehind "custom"
             (Some "2025-04-07") (Some "2025-04-13") 1745163000000 in
  Some (Range.start w) = Date.isoDate "2025-04-06"
  ∧ Some (Range.end_ w + 1)%Z = Date.isoDate "2025-04-13"
  ∧ Range.daysInRange w = 7%Z
  ∧ Some (Range.previousStart w) = Date.isoDate "2025-03-30"
  ∧ Range.adjacent w.
Proof.
  intros fourHoursBehind.
  destruct (custom_window Date.isoDate fourHoursBehind "2025-04-07" "2025-04-13"
              1743984000000 1744502400000 1745163000000)
    as (_ & _ & H3 & H4 & H5 & _ & _ & H8 & _).
  - discriminate.
  - discriminate.
  - vm_compute. reflexivity.
  - vm_compute. reflexivity.
  - vm_compute. discriminate.
  - cbv zeta. split; [|split; [|split; [|split; [|exact H8]]]].
    + rewrite (H3 14400000%Z);
        [vm_compute; reflexivity|unfold Date.msPerDay; lia|reflexivity|reflexivity].
    + rewrite (H4 14400000%Z);
        [vm_compute; reflexivity|unfold Date.msPerDay; lia|reflexivity|reflexivity].
    + rewrite H5. vm_compute. reflexivity.
    + vm_compute. reflexivity.
Defined.

Lemma custom_window_inverted_witness :
  let w := Range.resolve Date.isoDate id "custom"
             (Some "2025-04-13") (Some "2025-04-07") 1745163000000 in
  (Range.end_ w < Range.start w)%Z ∧ Range.daysInRange w = (-4)%Z.
Proof.
  destruct (custom_window_inverted Date.isoDate id "2025-04-13" "2025-04-07"
              1744502400000 1743984000000 1745163000000)
    as (H1 & H2 & _).
  - discriminate.
  - discriminate.
  - vm_compute. reflexivity.
  - vm_compute. reflexivity.
  - vm_compute. reflexivity.
  - split; [exact H1|]. rewrite H2. vm_compute. reflexivity.
Defined.

(** ** Bounds of the percentage delta *)

Lemma Qfloor_unique (n : Z) (x : Q) :
  (inject_Z n <= x)%Q → (x < inject_Z n + 1)%Q → Qfloor x = n.
Proof.
  intros Hlo Hhi.
  pose proof (Qfloor_le x) as H1. pose proof (Qlt_floor x) as H2.
  rewrite inject_Z_plus in H2. change (inject_Z 1) with 1%Q in H2.
  assert (inject_Z (Qfloor x) < inject_Z n + 1)%Q as Ha by lra.
  assert (inject_Z n < inject_Z (Qfloor x) + 1)%Q as Hb by lra.
  change 1%Q with (inject_Z 1) in Ha, Hb. rewrite <- inject_Z_plus in Ha, Hb.
  rewrite <- Zlt_Qlt in Ha, Hb. lia.
Qed.

Lemma calc_nonzero (c p : Q) :
  ¬ (p == 0)%Q →
  calcPercentageDiff (Fin c) (Fin p)
  = Num.of_Z (Qfloor ((c - p) / p * 100 + (1 # 2))).
Proof.
  intros Hp. unfold calcPercentageDiff. simpl.
  destruct (Qeq_bool p 0) eqn:E; [by apply Qeq_bool_iff in E|reflexivity].
Qed.

Lemma ratio_bounds (c p : Q) :
  (0 < p)%Q →
  ((0 <= c → -100 <= (c - p) / p * 100)
   ∧ (p <= c → 0 <= (c - p) / p * 100)
   ∧ (c <= p → (c - p) / p * 100 <= 0))%Q.
Proof.
  intros Hp.
  assert (Hr : ((c - p) / p == c / p - 1)%Q) by (field; lra).
  assert (H0 : (0 <= c → 0 <= c / p)%Q).
  { intros Hc. apply Qle_shift_div_l; [done|]. lra. }
  assert (H1 : (p <= c → 1 <= c / p)%Q).
  { intros Hc. apply Qle_shift_div_l; [done|]. lra. }
  assert (H2 : (c <= p → c / p <= 1)%Q).
  { intros Hc. apply Qle_shift_div_r; [done|]. lra. }
  rewrite Hr. repeat split; intros Hc; [specialize (H0 Hc)|specialize (H1 Hc)|specialize (H2 Hc)]; lra.
Qed.

Lemma calc_zero_current (c p : Q) :
  (c == 0)%Q → (0 < p)%Q →
  calcPercentageDiff (Fin c) (Fin p) = Num.of_Z (-100).
Proof.
  intros Hc Hp. rewrite calc_nonzero by lra. f_equal.
  assert (Hx : ((c - p) / p * 100 == -100)%Q) by (rewrite Hc; field; lra).
  apply Qfloor_unique; change (inject_Z (-100)) with (-100)%Q; lra.
Qed.

(** X15.  Against a positive previous average, a non-negative current
    average never shows less than -100; the delta is 0 or more when the
    current average is at least the previous one, 0 or less when it is at
    most the previous one, exactly -100 when the current average is 0 and
    exactly 0 when the two are equal. *)
Theorem delta_bounds (current previous : Q) :
  (0 <= current)%Q → (0 < previous)%Q →
  ∃ z : Z,
    calcPercentageDiff (Fin current) (Fin previous) = Num.of_Z z
    ∧ (-100 ≤ z)%Z
    ∧ ((previous <= current)%Q → (0 ≤ z)%Z)
    ∧ ((current <= previous)%Q → (z ≤ 0)%Z)
    ∧ ((current == 0)%Q → z = (-100)%Z)
    ∧ ((current == previous)%Q → z = 0%Z).
Proof.
  intros Hc Hp. eexists. split; [apply calc_nonzero; lra|].
  destruct (ratio_bounds current previous Hp) as (Hlo & Hge & Hle).
  set (x := ((current - previous) / previous * 100)%Q) in *.
  pose proof (Qfloor_le (x + (1 # 2))) as H1.
  pose proof (Qlt_floor (x + (1 # 2))) as H2.
  rewrite inject_Z_plus in H2. change (inject_Z 1) with 1%Q in H2.
  split; [|split; [|split; [|split]]].
  - specialize (Hlo Hc).
    assert (inject_Z (-101) < inject_Z (Qfloor (x + (1 # 2))))%Q as Ha
      by (change (inject_Z (-101)) with (-101)%Q; lra).
    rewrite <- Zlt_Qlt in Ha. lia.
  - intros Hcp. specialize (Hge Hcp).
    assert (inject_Z (-1) < inject_Z (Qfloor (x + (1 # 2))))%Q as Ha
      by (change (inject_Z (-1)) with (-1)%Q; lra).
    rewrite <- Zlt_Qlt in Ha. lia.
  - intros Hcp. specialize (Hle Hcp).
    assert (inject_Z (Qfloor (x + (1 # 2))) < inject_Z 1)%Q as Ha
      by (change (inject_Z 1) with 1%Q; lra).
    rewrite <- Zlt_Qlt in Ha. lia.
  - intros H0. apply Qfloor_unique; change (inject_Z (-100)) with (-100)%Q.
    + specialize (Hlo Hc). lra.
    + assert (x <= -100)%Q; [|lra].
      subst x. assert (((current - previous) / previous == -1)%Q) as ->; [|lra].
      rewrite H0. field. lra.
  - intros Heq. apply Qfloor_unique; change (inject_Z 0) with 0%Q.
    + assert (0 <= x)%Q by (apply Hge; lra). lra.
    + assert (x <= 0)%Q by (apply Hle; lra). lra.
Qed.

Lemma delta_bounds_witness :
  ∃ z : Z,
    calcPercentageDiff (Fin 3) (Fin 7.5) = Num.of_Z z ∧ (-100 ≤ z)%Z ∧ (z ≤ 0)%Z.
Proof.
  destruct (delta_bounds 3 7.5) as (z & H1 & H2 & _ & H4 & _).
  - discriminate.
  - reflexivity.
  - exists z. split; [exact H1|]. split; [exact H2|]. apply H4. discriminate.
Defined.

(** ** Averages over identical periods *)

Lemma avgPerDay_small (t d : Z) :
  (0 ≤ t)%Z → (2 * t < d)%Z → avgPerDay (Num.of_Z t) (Num.of_Z d) = Num.of_Z 0.
Proof.
  intros Ht Hd. unfold avgPerDay, Num.of_Z, Num.gt, Num.lt, Num.zero.
  assert (0 < inject_Z d)%Q as Hpos.
  { change 0%Q with (inject_Z 0). rewrite <- Zlt_Qlt. lia. }
  apply Qltb_iff in Hpos as Hb. rewrite Hb. unfold Num.div.
  destruct (Qeq_bool (inject_Z d) 0) eqn:E; [apply Qeq_bool_iff in E; lra|].
  unfold Num.round. f_equal. f_equal.
  assert (0 <= inject_Z t)%Q as Ht'.
  { change 0%Q with (inject_Z 0). rewrite <- Zle_Qle. lia. }
  assert (2 * inject_Z t < inject_Z d)%Q as Hd'.
  { change 2%Q with (inject_Z 2). rewrite <- inject_Z_mult. rewrite <- Zlt_Qlt. lia. }
  apply Qfloor_unique; change (inject_Z 0) with 0%Q.
  - assert (0 <= inject_Z t / inject_Z d)%Q; [|lra].
    apply Qle_shift_div_l; [done|lra].
  - assert (inject_Z t / inject_Z d < 1 # 2)%Q; [|lra].
    apply Qlt_shift_div_r; [done|lra].
Qed.

(** X16.  The current average is rounded to an integer and the previous one
    is not.  When both periods have the same total t over the same d days,
    with 0 < t and 2t < d, the current average rounds to 0 and the delta
    shown is -100, although nothing changed. *)
Theorem identical_periods_show_minus_100 (t d : Z) :
  (0 < t)%Z → (2 * t < d)%Z →
  avgPerDay (Num.of_Z t) (Num.of_Z d) = Num.of_Z 0
  ∧ perDayDiff (Num.of_Z t) (Num.of_Z d) (Num.of_Z t) (Num.of_Z d) = Num.of_Z (-100).
Proof.
  intros Ht Hd.
  assert (Havg : avgPerDay (Num.of_Z t) (Num.of_Z d) = Num.of_Z 0)
    by (apply avgPerDay_small; lia).
  split; [exact Havg|].
  unfold perDayDiff. rewrite Havg.
  unfold prevAvgPerDay, Num.of_Z, Num.gt, Num.lt, Num.zero.
  assert (0 < inject_Z d)%Q as Hpos.
  { change 0%Q with (inject_Z 0). rewrite <- Zlt_Qlt. lia. }
  assert (0 < inject_Z t)%Q as Htpos.
  { change 0%Q with (inject_Z 0). rewrite <- Zlt_Qlt. lia. }
  apply Qltb_iff in Hpos as Hb. rewrite Hb. unfold Num.div.
  destruct (Qeq_bool (inject_Z d) 0) eqn:E; [apply Qeq_bool_iff in E; lra|].
  assert (0 < inject_Z t / inject_Z d)%Q as Hq.
  { apply Qlt_shift_div_l; [done|lra]. }
  by apply calc_zero_current.
Qed.

Lemma identical_periods_show_minus_100_witness :
  perDayDiff (Num.of_Z 3) (Num.of_Z 30) (Num.of_Z 3) (Num.of_Z 30) = Num.of_Z (-100).
Proof.
  refine (proj2 (identical_periods_show_minus_100 3 30 _ _)); lia.
Defined.

(** ** Funnel bars *)

Lemma barWidth_bounds (p1 p2 w : Q) :
  (0 <= p1)%Q → (p1 <= p2)%Q → (p2 <= w)%Q →
  numWithin 0 100 (barWidth (Fin p1) (Fin w))
  ∧ numWithin 0 100 (barWidth (Fin p2) (Fin w))
  ∧ numLe (barWidth (Fin p1) (Fin w)) (barWidth (Fin p2) (Fin w)).
Proof.
  intros H0 H1 H2. unfold barWidth, Num.gt, Num.lt, Num.zero.
  destruct (Num.Qltb 0 w) eqn:Hw.
  - apply Qltb_iff in Hw. unfold Num.div.
    destruct (Qeq_bool w 0) eqn:E; [apply Qeq_bool_iff in E; lra|].
    simpl.
    assert (0 <= p1 / w)%Q by (apply Qle_shift_div_l; [done|lra]).
    assert (p2 / w <= 1)%Q by (apply Qle_shift_div_r; [done|lra]).
    assert (p1 / w <= p2 / w)%Q.
    { unfold Qdiv. apply Qmult_le_compat_r; [done|].
      apply Qlt_le_weak, Qinv_lt_0_compat. done. }
    change (inject_Z 100) with 100%Q.
    set (a := (p1 / w)%Q) in *. set (b := (p2 / w)%Q) in *.
    repeat split; lra.
  - simpl. change (inject_Z 0) with 0%Q. repeat split; lra.
Qed.

Lemma barWidth_numbers (p1 p2 w : number) :
  Num.nonneg p1 → (p1 <=? p2)%num = true → (p2 <=? w)%num = true →
  numWithin 0 100 (barWidth p1 w)
  ∧ numWithin 0 100 (barWidth p2 w)
  ∧ numLe (barWidth p1 w) (barWidth p2 w).
Proof.
  destruct p1 as [|p1], p2 as [|p2], w as [|w]; simpl; try done.
  intros H0 H1 H2. apply Qle_bool_iff in H1, H2. by apply barWidth_bounds.
Qed.

Lemma le_refl_nonneg (n : number) : Num.nonneg n → (n <=? n)%num = true.
Proof. destruct n as [|q]; simpl; [done|]. intros _. apply Qle_bool_iff. lra. Qed.

Section CloserFunnel.
Import CloserAnalytics.

Lemma closer_accepted_funnel date m : Closer.validate date m = ∅ → funnel m.
Proof.
  intros Hv.
  apply (validate_empty_iff CloserRole date m (Closer.rules m)) in Hv
    as (_ & Hn & Hr);
    [|unfold validateOf, Closer.validate; apply closer_chain_is_first_failure].
  apply (closer_rules_pass_iff m Hn) in Hr. split; [exact Hn|].
  unfold closerConsistent in Hr.
  destruct m as [b s n c d r o t cl cash rev].
  unfold allNonneg in Hn. simpl in Hn. simpl in *.
  open_nonneg Hn. q_props. intuition lra.
Qed.

Lemma closer_funnel_add acc m : funnel acc → funnel m → funnel (addRow acc m).
Proof.
  unfold funnel, allNonneg. intros (Ha & Ha') (Hm & Hm').
  destruct acc as [b s n c d r o t cl cash rev].
  destruct m as [b' s' n' c' d' r' o' t' cl' cash' rev'].
  simpl in *. open_nonneg Ha. open_nonneg Hm.
  split; [repeat constructor; simpl; lra|].
  q_props. intuition lra.
Qed.

Lemma closer_totals_funnel l : Forall funnel l → funnel (totals l).
Proof.
  unfold totals.
  assert (H0 : funnel zeroTotals).
  { split; [unfold allNonneg; simpl; repeat constructor; vm_compute; discriminate|].
    vm_compute. tauto. }
  revert H0. generalize zeroTotals.
  induction l as [|m l IH]; intros acc Hacc Hl; simpl; [done|].
  apply Forall_cons_1 in Hl as [Hm Hl]. apply IH; [|done].
  by apply closer_funnel_add.
Qed.

(** X17.  Over any list of closer records each of which passes the closer
    validator, the four funnel bars stay between 0 and 100, and they
    narrow: closes is no wider than offers made, which is no wider than
    calls taken. *)
Theorem closer_funnel_bars (closersMetrics : list Closer.Metrics) :
  Forall (λ m, ∃ date, Closer.validate date m = ∅) closersMetrics →
  let t := totals closersMetrics in
  numWithin 0 100 (showsWidth t)
  ∧ numWithin 0 100 (callsTakenWidth t)
  ∧ numWithin 0 100 (offersMadeWidth t)
  ∧ numWithin 0 100 (closesWidth t)
  ∧ numLe (closesWidth t) (offersMadeWidth t)
  ∧ numLe (offersMadeWidth t) (callsTakenWidth t).
Proof.
  intros Hl. cbv zeta.
  assert (Hf : funnel (totals closersMetrics)).
  { apply closer_totals_funnel. eapply Forall_impl; [exact Hl|].
    intros m [date Hv]. by apply (closer_accepted_funnel date). }
  unfold showsWidth, callsTakenWidth, offersMadeWidth, closesWidth.
  generalize dependent (totals closersMetrics). intros t (Hn & Hs & Ht & Ho & Hcl).
  unfold allNonneg in Hn. simpl in Hn. unfold Closer.entries in Hn.
  repeat (apply Forall_cons_1 in Hn as [? Hn]). simpl in *.
  assert (Hot : (Closer.offersMade t <=? Closer.dailyCallsBooked t)%num = true).
  { destruct (Closer.offersMade t), (Closer.callsTaken t), (Closer.dailyCallsBooked t);
      try done. q_props. lra. }
  destruct (barWidth_numbers (Closer.shows t) (Closer.shows t) (Closer.dailyCallsBooked t))
    as (Hs1 & _ & _); [done|by apply le_refl_nonneg|done|].
  destruct (barWidth_numbers (Closer.offersMade t) (Closer.callsTaken t)
              (Closer.dailyCallsBooked t)) as (Ho1 & Ht1 & Hot1); [done..|].
  destruct (barWidth_numbers (Closer.closes t) (Closer.offersMade t)
              (Closer.dailyCallsBooked t)) as (Hc1 & _ & Hco); [done..|].
  tauto.
Qed.

End CloserFunnel.

Lemma closer_funnel_bars_witness :
  let t := CloserAnalytics.totals [closerDay 6 5 2 100 400; closerDay 9 2 1 0 50] in
  numWithin 0 100 (CloserAnalytics.closesWidth t)
  ∧ numLe (CloserAnalytics.closesWidth t) (CloserAnalytics.offersMadeWidth t).
Proof.
  destruct (closer_funnel_bars [closerDay 6 5 2 100 400; closerDay 9 2 1 0 50])
    as (_ & _ & _ & H4 & H5 & _).
  - repeat constructor; exists "2025-04-20"; vm_compute; reflexivity.
  - split; [exact H4|exact H5].
Defined.

Section DialerFunnel.
Import DialerAnalytics.

Lemma dialer_accepted_funnel date m : Dialer.validate date m = ∅ → funnel m.
Proof.
  intros Hv.
  apply (validate_empty_iff DialerRole date m (Dialer.rules m)) in Hv
    as (_ & Hn & Hr);
    [|unfold validateOf, Dialer.validate; apply dialer_chain_is_first_failure].
  apply (dialer_rules_pass_iff m Hn) in Hr. split; [exact Hn|].
  unfold dialerConsistent in Hr. tauto.
Qed.

Lemma dialer_funnel_add acc m : funnel acc → funnel m → funnel (addRow acc m).
Proof.
  unfold funnel, allNonneg. intros (Ha & Ha') (Hm & Hm').
  destruct acc as [di co cv qc msch mset mshow ns cd rev cash].
  destruct m as [di' co' cv' qc' msch' mset' mshow' ns' cd' rev' cash'].
  simpl in *. open_nonneg Ha. open_nonneg Hm.
  split; [repeat constructor; simpl; lra|].
  q_props. intuition lra.
Qed.

Lemma dialer_totals_funnel l : Forall funnel l → funnel (totals l).
Proof.
  unfold totals.
  assert (H0 : funnel zeroTotals).
  { split; [unfold allNonneg; simpl; repeat constructor; vm_compute; discriminate|].
    vm_compute. tauto. }
  revert H0. generalize zeroTotals.
  induction l as [|m l IH]; intros acc Hacc Hl; simpl; [done|].
  apply Forall_cons_1 in Hl as [Hm Hl]. apply IH; [|done].
  by apply dialer_funnel_add.
Qed.

(** X18.  Over any list of dialer records each of which passes the dialer
    validator, the bars for connects, conversations and qualified
    conversations stay between 0 and 100 and narrow in that order. *)
Theorem dialer_funnel_bars (dialersMetrics : list Dialer.Metrics) :
  Forall (λ m, ∃ date, Dialer.validate date m = ∅) dialersMetrics →
  let t := totals dialersMetrics in
  numWithin 0 100 (connectsWidth t)
  ∧ numWithin 0 100 (conversationsWidth t)
  ∧ numWithin 0 100 (qualifiedConversationsWidth t)
  ∧ numLe (qualifiedConversationsWidth t) (conversationsWidth t)
  ∧ numLe (conversationsWidth t) (connectsWidth t).
Proof.
  intros Hl. cbv zeta.
  assert (Hf : funnel (totals dialersMetrics)).
  { apply dialer_totals_funnel. eapply Forall_impl; [exact Hl|].
    intros m [date Hv]. by apply (dialer_accepted_funnel date). }
  unfold connectsWidth, conversationsWidth, qualifiedConversationsWidth.
  generalize dependent (totals dialersMetrics). intros t (Hn & Hco & Hcv & Hqc).
  unfold allNonneg in Hn. simpl in Hn. unfold Dialer.entries in Hn.
  repeat (apply Forall_cons_1 in Hn as [? Hn]). simpl in *.
  assert (Hcvd : (Dialer.conversations t <=? Dialer.dials t)%num = true).
  { destruct (Dialer.conversations t), (Dialer.connects t), (Dialer.dials t);
      try done. q_props. lra. }
  destruct (barWidth_numbers (Dialer.conversations t) (Dialer.connects t) (Dialer.dials t))
    as (Hcv1 & Hco1 & Hcvco); [done..|].
  destruct (barWidth_numbers (Dialer.qualifiedConversations t) (Dialer.conversations t)
              (Dialer.dials t)) as (Hqc1 & _ & Hqccv); [done..|].
  tauto.
Qed.

End DialerFunnel.

Lemma dialer_funnel_bars_witness :
  let t := DialerAnalytics.totals [Dialer.oneDeal 500 100; Dialer.oneDeal 0 0] in
  numWithin 0 100 (DialerAnalytics.connectsWidth t)
  ∧ numLe (DialerAnalytics.conversationsWidth t) (DialerAnalytics.connectsWidth t).
Proof.
  destruct (dialer_funnel_bars [Dialer.oneDeal 500 100; Dialer.oneDeal 0 0])
    as (H1 & _ & _ & _ & H5).
  - repeat constructor; exists "2025-04-20"; vm_compute; reflexivity.
  - split; [exact H1|exact H5].
Defined.

(** The bar for meetings set has no such bound: the validator does not
    relate meetings set to dials. *)
Example dialer_meetingsSet_bar_unbounded :
  let m := {| Dialer.dials := Num.of_Z 1; Dialer.connects := Num.of_Z 1;
              Dialer.conversations := Num.of_Z 1;
              Dialer.qualifiedConversations := Num.of_Z 1;
              Dialer.meetingsScheduled := Num.of_Z 0; Dialer.meetingsSet := Num.of_Z 3;
              Dialer.meetingsShowed := Num.of_Z 2; Dialer.noShows := Num.of_Z 1;
              Dialer.closedDeals := Num.of_Z 0; Dialer.revenueGenerated := Num.of_Z 0;
              Dialer.cashCollected := Num.of_Z 0 |} in
  Dialer.validate "2025-04-20" m = ∅
  ∧ DialerAnalytics.meetingsSetWidth (DialerAnalytics.totals [m]) = Fin 300.
Proof. vm_compute. split; reflexivity. Qed.

(** ** Table pages *)

Section PaginationFacts.
Import Pagination.
Context {A : Type}.
Implicit Types (rows : list A).

Lemma totalPages_div rows :
  totalPages rows = ((Z.of_nat (length rows) + 9) `div` 10)%Z.
Proof.
  unfold totalPages, rowsPerPage, Qceiling.
  set (n := Z.of_nat (length rows)).
  assert (Hn : (0 ≤ n)%Z) by lia.
  assert (Hq : (- (inject_Z n / inject_Z 10) == inject_Z (- n) / inject_Z 10)%Q).
  { rewrite inject_Z_opp. field. }
  rewrite (Qfloor_comp _ _ Hq), <- Zdiv_Qdiv.
  clearbody n. Z.div_mod_to_equations. lia.
Qed.

Lemma paginated_chunk rows (index : nat) :
  paginatedMetrics rows (Z.of_nat index + 1) = take 10 (drop (10 * index) rows).
Proof.
  unfold paginatedMetrics, slice, rowsPerPage.
  replace ((Z.of_nat index + 1 - 1) * 10)%Z with (Z.of_nat (10 * index)) by lia.
  destruct (Z.ltb_spec (Z.of_nat (10 * index)) 0) as [?|_]; [lia|].
  destruct (Z.ltb_spec (Z.of_nat (10 * index) + 10) 0) as [?|_]; [lia|].
  destruct (le_lt_dec (length rows) (10 * index)) as [Hle|Hlt].
  - rewrite !drop_ge by lia. by rewrite !take_nil.
  - replace (Z.to_nat (Z.of_nat (10 * index) `min` Z.of_nat (length rows)))
      with (10 * index) by lia.
    destruct (le_lt_dec (length rows) (10 * index + 10)) as [Hle'|Hlt'].
    + replace (Z.to_nat (_ - _)) with (length rows - 10 * index) by lia.
      rewrite !take_ge; [done|rewrite length_drop; lia|rewrite length_drop; lia].
    + f_equal. lia.
Qed.

Lemma chunks_concat (k : nat) rows :
  length rows ≤ 10 * k →
  concat (map (λ index : nat, take 10 (drop (10 * index) rows)) (seq 0 k)) = rows.
Proof.
  revert rows. induction k as [|k IH]; intros rows Hlen.
  - simpl. destruct rows; [done|simpl in Hlen; lia].
  - change (seq 0 (S k)) with (0 :: seq 1 k). cbn [map concat].
    replace (10 * 0) with 0 by lia. rewrite drop_0.
    rewrite <- seq_shift, map_map.
    transitivity (take 10 rows ++ drop 10 rows); [|apply take_drop].
    f_equal.
    etransitivity; [|apply (IH (drop 10 rows)); rewrite length_drop; lia].
    f_equal. apply map_ext. intros index.
    rewrite drop_drop. do 2 f_equal. lia.
Qed.

Lemma totalPages_bounds rows :
  (0 ≤ totalPages rows)%Z
  ∧ 10 * Z.to_nat (totalPages rows) - 9 ≤ length rows
  ∧ length rows ≤ 10 * Z.to_nat (totalPages rows).
Proof.
  rewrite totalPages_div. generalize (length rows). intros n.
  set (q := ((Z.of_nat n + 9) `div` 10)%Z).
  assert (10 * q ≤ Z.of_nat n + 9 ∧ Z.of_nat n + 9 < 10 * q + 10)%Z as Hq
    by (subst q; Z.div_mod_to_equations; lia).
  clearbody q. lia.
Qed.

Lemma page_length_bounds rows page :
  page ∈ pageButtons rows → 1 ≤ length (paginatedMetrics rows page) ≤ 10.
Proof.
  intros Hin. destruct (totalPages_bounds rows) as (H0 & Hlo & Hhi).
  unfold pageButtons in Hin.
  apply list_elem_of_fmap in Hin as (index & -> & Hin).
  apply elem_of_seq in Hin. rewrite paginated_chunk.
  rewrite length_take, length_drop. lia.
Qed.

(** X19.  The pages behind the page buttons cut the table into consecutive
    pieces: put end to end they give back every row once and in order, each
    holds between 1 and 10 rows, and a page past the last is empty. *)
Theorem pages_partition_rows rows :
  concat (map (paginatedMetrics rows) (pageButtons rows)) = rows
  ∧ (∀ page, page ∈ pageButtons rows →
       1 ≤ length (paginatedMetrics rows page) ≤ 10)
  ∧ (∀ page, (totalPages rows < page)%Z → paginatedMetrics rows page = []).
Proof.
  destruct (totalPages_bounds rows) as (H0 & Hlo & Hhi).
  split; [|split].
  - unfold pageButtons. rewrite map_map.
    etransitivity; [|apply (chunks_concat (Z.to_nat (totalPages rows)) rows); lia].
    f_equal. apply map_ext. intros index. apply paginated_chunk.
  - apply page_length_bounds.
  - intros page Hlt.
    replace page with (Z.of_nat (Z.to_nat (page - 1)) + 1)%Z by lia.
    rewrite paginated_chunk, drop_ge; [by rewrite take_nil|]. lia.
Qed.

Lemma handlePageChange_range rows currentPage page :
  (1 ≤ currentPage)%Z ∧ (currentPage ≤ totalPages rows ∨ currentPage = 1)%Z →
  (1 ≤ handlePageChange rows currentPage page)%Z
  ∧ (handlePageChange rows currentPage page ≤ totalPages rows
     ∨ handlePageChange rows currentPage page = 1)%Z.
Proof.
  intros H. unfold handlePageChange.
  destruct (Z.leb_spec 1 page); destruct (Z.leb_spec page (totalPages rows)); simpl; lia.
Qed.

(** X20.  Whatever pages are requested, the page shown stays a page that
    exists: page 1, or a page between 1 and the number of pages.  With at
    least one row the page shown is therefore never empty. *)
Theorem shown_page_exists rows (requests : list Z) :
  let page := pageAfter rows requests in
  (1 ≤ page)%Z
  ∧ (page ≤ totalPages rows ∨ page = 1)%Z
  ∧ (rows ≠ [] → paginatedMetrics rows page ≠ []).
Proof.
  cbv zeta.
  assert (Hinv : (1 ≤ pageAfter rows requests)%Z
                 ∧ (pageAfter rows requests ≤ totalPages rows
                    ∨ pageAfter rows requests = 1)%Z).
  { unfold pageAfter.
    assert (Hgen : ∀ p, (1 ≤ p)%Z ∧ (p ≤ totalPages rows ∨ p = 1)%Z →
              (1 ≤ fold_left (handlePageChange rows) requests p)%Z
              ∧ (fold_left (handlePageChange rows) requests p ≤ totalPages rows
                 ∨ fold_left (handlePageChange rows) requests p = 1)%Z).
    { induction requests as [|r requests IH]; intros p Hp; simpl; [done|].
      apply IH. by apply handlePageChange_range. }
    apply Hgen. lia. }
  destruct Hinv as [H1 H2]. split; [done|]. split; [done|].
  intros Hne.
  assert (Hlen : 0 < length rows) by (destruct rows; [done|simpl; lia]).
  assert (Htp : (1 ≤ totalPages rows)%Z).
  { rewrite totalPages_div. Z.div_mod_to_equations. lia. }
  assert (Hin : pageAfter rows requests ∈ pageButtons rows).
  { unfold pageButtons. apply list_elem_of_fmap.
    exists (Z.to_nat (pageAfter rows requests - 1)). split; [lia|].
    apply elem_of_seq. lia. }
  destruct (page_length_bounds rows _ Hin) as [Hlo _].
  intros Hnil. rewrite Hnil in Hlo. simpl in Hlo. lia.
Qed.

End PaginationFacts.

(** ** The forms against the handlers *)

Section FormFacts.
Import EodForm.

Variable newDate : string → option Z.
Context {Metrics : Type}.
Variable personId : string.
Variable validate : string → Metrics → Errors.
Variable fits : Metrics → bool.

Implicit Types (db : Db Metrics) (m : Metrics) (st : State).

(** X21.  The overwrite round trip of the closer and setter forms.  With
    the flag of the form unset, a submission for a day that has a document
    opens the overwrite modal and changes nothing; confirming sends it again
    with the flag, and when the record passes validation and the database
    client takes it the document then carries the new metrics, the success
    modal is shown, the overwrite modal is closed and the flag is back to
    unset. *)
Theorem overwrite_round_trip st db m d row :
  forceOverwrite st = false →
  date st ≠ "" →
  newDate (date st) = Some d →
  rows db !! (personId, d) = Some row →
  validate (date st) m = ∅ →
  fits m = true →
  let r1 := clickSubmit newDate personId validate fits st db m in
  let r2 := handleOverwriteConfirm newDate personId validate fits r1.1 r1.2 m in
  showOverwriteModal r1.1 = true ∧ forceOverwrite r1.1 = false ∧ r1.2 = db
  ∧ rows r2.2 !! (personId, d) = Some {| row_id := row_id row; row_metrics := m |}
  ∧ showSuccessModal r2.1 = true ∧ showOverwriteModal r2.1 = false
  ∧ forceOverwrite r2.1 = false.
Proof.
  intros Hf Hne Hd Hk Hv Hfit.
  apply String.eqb_neq in Hne. cbv zeta.
  unfold handleOverwriteConfirm, clickSubmit. simpl.
  rewrite Hf.
  rewrite (action_valid_date _ _ _ _ _ _ false _ _ Hd), Hk. simpl.
  unfold onActionData. simpl. rewrite Hne, Hf. simpl.
  rewrite (action_valid_date _ _ _ _ _ _ true _ _ Hd). simpl.
  rewrite decide_True, Hfit by done. simpl.
  rewrite stored_lookup, Hk. done.
Qed.

(** X22.  The flag of the form is only reset by a success.  When the
    confirmed resubmission is answered with validation errors the flag
    stays set and no modal opens; the next click on Submit, for whatever
    day the form then shows, goes out with the flag set: if that record
    passes validation and the database client takes it, it replaces the
    document of that day without any conflict being raised. *)
Theorem rejected_overwrite_leaves_flag_set st db bad m date' d d' row row' :
  forceOverwrite st = false →
  date st ≠ "" →
  newDate (date st) = Some d →
  rows db !! (personId, d) = Some row →
  validate (date st) bad ≠ ∅ →
  newDate date' = Some d' →
  rows db !! (personId, d') = Some row' →
  validate date' m = ∅ →
  fits m = true →
  let r1 := clickSubmit newDate personId validate fits st db bad in
  let r2 := handleOverwriteConfirm newDate personId validate fits r1.1 r1.2 bad in
  let r3 := clickSubmit newDate personId validate fits (setDate r2.1 date') r2.2 m in
  showOverwriteModal r1.1 = true
  ∧ forceOverwrite r2.1 = true ∧ showOverwriteModal r2.1 = false ∧ r2.2 = db
  ∧ rows r3.2 !! (personId, d') = Some {| row_id := row_id row'; row_metrics := m |}
  ∧ showOverwriteModal r3.1 = false ∧ showSuccessModal r3.1 = true.
Proof.
  intros Hf Hne Hd Hk Hbad Hd' Hk' Hv Hfit.
  apply String.eqb_neq in Hne. cbv zeta.
  unfold handleOverwriteConfirm, clickSubmit. simpl.
  rewrite Hf.
  rewrite (action_valid_date _ _ _ _ _ _ false _ _ Hd), Hk. simpl.
  unfold onActionData. simpl. rewrite Hne, Hf. simpl.
  rewrite (action_valid_date _ _ _ _ _ _ true _ _ Hd). simpl.
  rewrite decide_False by done. simpl.
  rewrite (action_valid_date _ _ _ _ _ _ true _ _ Hd'). simpl.
  rewrite decide_True, Hfit by done. simpl.
  rewrite stored_lookup, Hk'. done.
Qed.

End FormFacts.

Lemma overwrite_round_trip_witness :
  let st := EodForm.initial "2025-04-20" in
  let db := singleDb Closer.closerId 1745107200000 (closerDay 6 5 2 100 400) in
  let m := closerDay 7 6 3 0 250 in
  let click := EodForm.clickSubmit Date.isoDate Closer.closerId Closer.validate
                 (fitsSchema CloserRole) in
  let confirm := EodForm.handleOverwriteConfirm Date.isoDate Closer.closerId
                   Closer.validate (fitsSchema CloserRole) in
  let r1 := click st db m in
  let r2 := confirm r1.1 r1.2 m in
  EodForm.showOverwriteModal r1.1 = true
  ∧ rows r2.2 !! (Closer.closerId, 1745107200000%Z)
    = Some {| row_id := 0; row_metrics := m |}
  ∧ EodForm.forceOverwrite r2.1 = false.
Proof.
  intros st db m click confirm.
  destruct (overwrite_round_trip Date.isoDate Closer.closerId Closer.validate
              (fitsSchema CloserRole) st db m 1745107200000
              {| row_id := 0; row_metrics := closerDay 6 5 2 100 400 |})
    as (H1 & _ & _ & H4 & _ & _ & H7); try (vm_compute; reflexivity).
  - discriminate.
  - split; [exact H1|]. split; [exact H4|exact H7].
Defined.

Lemma rejected_overwrite_leaves_flag_set_witness :
  let st := EodForm.initial "2025-04-20" in
  let old := closerDay 6 5 2 100 400 in
  let db : Db Closer.Metrics :=
    {| rows := <[(Closer.closerId, 1745020800000%Z) := {| row_id := 1; row_metrics := old |}]>
                 (rows (singleDb Closer.closerId 1745107200000 old));
       next_id := 2 |} in
  let bad := closerDay 7 6 9 0 250 in
  let m := closerDay 7 6 3 0 250 in
  let click := EodForm.clickSubmit Date.isoDate Closer.closerId Closer.validate
                 (fitsSchema CloserRole) in
  let confirm := EodForm.handleOverwriteConfirm Date.isoDate Closer.closerId
                   Closer.validate (fitsSchema CloserRole) in
  let r1 := click st db bad in
  let r2 := confirm r1.1 r1.2 bad in
  let r3 := click (EodForm.setDate r2.1 "2025-04-19") r2.2 m in
  EodForm.forceOverwrite r2.1 = true
  ∧ rows r3.2 !! (Closer.closerId, 1745020800000%Z)
    = Some {| row_id := 1; row_metrics := m |}
  ∧ EodForm.showOverwriteModal r3.1 = false.
Proof.
  intros st old db bad m click confirm.
  destruct (rejected_overwrite_leaves_flag_set Date.isoDate Closer.closerId
              Closer.validate (fitsSchema CloserRole) st db bad m
              "2025-04-19" 1745107200000 1745020800000
              {| row_id := 0; row_metrics := old |} {| row_id := 1; row_metrics := old |})
    as (_ & H2 & _ & _ & H5 & H6 & _); try (vm_compute; reflexivity).
  - discriminate.
  - intros H. apply (f_equal (λ e : Errors, e !! "closes")) in H.
    vm_compute in H. discriminate.
  - split; [exact H2|]. split; [exact H5|exact H6].
Defined.

(** ** The series does not depend on the order of the records *)

Section SeriesOrder.
Import Series.

Variable dayKey : string → string.
Variable getTime : string → Z.

Lemma sorted_unique (l1 l2 : list string) :
  (∀ a b, a ∈ l1 → b ∈ l1 → getTime a = getTime b → a = b) →
  StronglySorted (earlier getTime) l1 →
  StronglySorted (earlier getTime) l2 →
  l1 ≡ₚ l2 → l1 = l2.
Proof.
  revert l2. induction l1 as [|x l1 IH]; intros l2 Hinj H1 H2 Hp.
  - by apply Permutation_nil_l in Hp.
  - destruct l2 as [|y l2]; [by apply Permutation_nil_r in Hp|].
    apply StronglySorted_inv in H1 as [H1 Hx].
    apply StronglySorted_inv in H2 as [H2 Hy].
    assert (x = y) as <-.
    { destruct (decide (x = y)) as [|Hne]; [done|].
      assert (x ∈ l2) as Hxl2.
      { assert (x ∈ y :: l2) as Hin by (rewrite <- Hp; apply elem_of_cons; by left).
        apply elem_of_cons in Hin as [?|?]; [done|done]. }
      assert (y ∈ l1) as Hyl1.
      { assert (y ∈ x :: l1) as Hin by (rewrite Hp; apply elem_of_cons; by left).
        apply elem_of_cons in Hin as [?|?]; [congruence|done]. }
      rewrite Forall_forall in Hx, Hy.
      specialize (Hx y Hyl1). specialize (Hy x Hxl2). unfold earlier in Hx, Hy.
      apply Hinj; [apply elem_of_cons; by left|apply elem_of_cons; by right|lia]. }
    f_equal. apply IH; [|done|done|by apply Permutation_cons_inv in Hp].
    intros a b Ha Hb. apply Hinj; apply elem_of_cons; by right.
Qed.

(** X23.  When distinct day keys have distinct times, the dates of the
    series do not depend on the order in which the records arrive: any
    reordering of the records gives the same list of dates. *)
Theorem series_dates_order_independent (l l' : list SetterMetrics) :
  (∀ m1 m2, m1 ∈ l → m2 ∈ l →
     getTime (dayKey (date m1)) = getTime (dayKey (date m2)) →
     dayKey (date m1) = dayKey (date m2)) →
  l ≡ₚ l' →
  sortedDates dayKey getTime l' = sortedDates dayKey getTime l.
Proof.
  intros Hinj Hp. symmetry. apply sorted_unique.
  - intros a b Ha Hb.
    unfold sortedDates in Ha, Hb. rewrite sort_Permutation in Ha, Hb.
    destruct (dailyRevenueData_keys dayKey l) as [_ Hk].
    apply Hk in Ha as (m1 & Hm1 & <-). apply Hk in Hb as (m2 & Hm2 & <-).
    by apply Hinj.
  - apply sort_sorted.
  - apply sort_sorted.
  - by apply sortedDates_Permutation.
Qed.

End SeriesOrder.

Lemma series_dates_order_independent_witness :
  let a := Series.row "2025-04-21T00:00:00.000Z" (Num.of_Z 500) (Num.of_Z 300) NaN (Num.of_Z 50) in
  let b := Series.row "2025-04-19T00:00:00.000Z" (Num.of_Z 700) (Num.of_Z 100) (Num.of_Z 20) (Num.of_Z 0) in
  Series.sortedDates Series.utcDayKey Series.utcGetTime [b; a]
  = Series.sortedDates Series.utcDayKey Series.utcGetTime [a; b].
Proof.
  intros a b.
  apply (series_dates_order_independent Series.utcDayKey Series.utcGetTime [a; b] [b; a]).
  - intros m1 m2 H1 H2.
    apply list_elem_of_In in H1, H2. simpl in H1, H2.
    destruct H1 as [<-|[<-|[]]], H2 as [<-|[<-|[]]]; vm_compute; congruence.
  - apply Permutation_swap.
Defined.

(** ** Query parameters *)

Section SearchParamsFacts.
Import SearchParams.

Variable parseISO : string → option Z.
Variable toZonedTime : string → Z → Z.

(** X24.  Choosing a range tab other than the custom one drops the custom
    dates left in the address and touches no other parameter: the person
    filter and the time zone stay, and the loader then resolves the window
    of the chosen token alone. *)
Theorem range_tab_drops_custom_dates (prev : gmap string string) (range : string)
    (instant : Z) :
  range ≠ "custom" → range ≠ "" →
  let params := handleRangeChange prev range in
  params !! "range" = Some range
  ∧ params !! "startDate" = None
  ∧ params !! "endDate" = None
  ∧ (∀ name, name ≠ "range" → name ≠ "startDate" → name ≠ "endDate" →
       params !! name = prev !! name)
  ∧ loaderWindow parseISO toZonedTime params instant
    = Range.resolve parseISO (toZonedTime (userTimeZone prev)) range None None
        (toZonedTime (userTimeZone prev) instant).
Proof.
  intros Hc He. cbv zeta. unfold handleRangeChange.
  apply String.eqb_neq in Hc as Hc'. rewrite Hc'. simpl.
  assert (H1 : delete "endDate" (delete "startDate" (<["range" := range]> prev)) !! "range"
               = Some range).
  { rewrite !lookup_delete_ne by discriminate. apply lookup_insert_eq. }
  assert (H2 : delete "endDate" (delete "startDate" (<["range" := range]> prev)) !! "startDate"
               = None).
  { rewrite lookup_delete_ne by discriminate. apply lookup_delete_eq. }
  assert (H3 : delete "endDate" (delete "startDate" (<["range" := range]> prev)) !! "endDate"
               = None) by apply lookup_delete_eq.
  assert (H4 : ∀ name, name ≠ "range" → name ≠ "startDate" → name ≠ "endDate" →
             delete "endDate" (delete "startDate" (<["range" := range]> prev)) !! name
             = prev !! name).
  { intros name Hr Hs Hn. by rewrite !lookup_delete_ne, lookup_insert_ne. }
  split; [done|]. split; [done|]. split; [done|]. split; [done|].
  unfold loaderWindow, userTimeZone. rewrite H1, H2, H3, (H4 "tz") by discriminate.
  unfold Range.rangeParam, Range.truthy at 3. simpl.
  apply String.eqb_neq in He. by rewrite He.
Qed.

(** X25.  Changing the person filter changes nothing else: the range, the
    custom dates and the time zone stay, so the loader resolves the same
    window; an empty choice removes the filter. *)
Theorem person_change_keeps_window (idKey : string) (prev : gmap string string)
    (personId : string) (instant : Z) :
  idKey ≠ "range" → idKey ≠ "startDate" → idKey ≠ "endDate" → idKey ≠ "tz" →
  let params := handlePersonChange idKey prev personId in
  loaderWindow parseISO toZonedTime params instant
  = loaderWindow parseISO toZonedTime prev instant
  ∧ params !! idKey = (if String.eqb personId "" then None else Some personId).
Proof.
  intros Hr Hs He Ht. cbv zeta. unfold handlePersonChange, loaderWindow, userTimeZone.
  destruct (String.eqb personId ""); simpl.
  - rewrite !lookup_delete_ne by done. split; [done|apply lookup_delete_eq].
  - rewrite !lookup_insert_ne by done. split; [done|apply lookup_insert_eq].
Qed.

End SearchParamsFacts.

Lemma person_change_keeps_window_witness :
  let prev : gmap string string := {[ "range" := "7d"; "tz" := "Europe/Paris" ]} in
  let params := SearchParams.handlePersonChange "closerId" prev "67fc6f96c7394b8e022c058d" in
  SearchParams.loaderWindow Date.isoDate (λ _, id) params 1745163000000
  = SearchParams.loaderWindow Date.isoDate (λ _, id) prev 1745163000000
  ∧ params !! "closerId" = Some "67fc6f96c7394b8e022c058d".
Proof.
  intros prev params.
  exact (person_change_keeps_window Date.isoDate (λ _, id) "closerId" prev
           "67fc6f96c7394b8e022c058d" 1745163000000
           ltac:(discriminate) ltac:(discriminate) ltac:(discriminate) ltac:(discriminate)).
Defined.

Lemma range_tab_drops_custom_dates_witness :
  let prev : gmap string string :=
    {[ "range" := "custom"; "startDate" := "2025-04-07"; "endDate" := "2025-04-13";
       "closerId" := "67fc6f96c7394b8e022c058d" ]} in
  let params := SearchParams.handleRangeChange prev "7d" in
  params !! "startDate" = None
  ∧ params !! "closerId" = Some "67fc6f96c7394b8e022c058d"
  ∧ SearchParams.loaderWindow Date.isoDate (λ _, id) params 1745163000000
    = Range.resolve Date.isoDate id "7d" None None 1745163000000.
Proof.
  intros prev params.
  destruct (range_tab_drops_custom_dates Date.isoDate (λ _, id) prev "7d" 1745163000000)
    as (_ & H2 & _ & H4 & H5); [discriminate|discriminate|].
  split; [exact H2|]. split; [|exact H5].
  fold params in H4. rewrite H4 by discriminate. vm_compute. reflexivity.
Defined.

(** ** Bars scaled to the largest total *)

Section SetterChartsFacts.
Import SetterCharts.

Lemma max2_upper (a b : number) :
  Num.nonneg a → Num.nonneg b →
  Num.nonneg (max2 a b) ∧ (a <=? max2 a b)%num = true ∧ (b <=? max2 a b)%num = true.
Proof.
  destruct a as [|x], b as [|y]; simpl; try done. intros Hx Hy.
  destruct (Qle_bool x y) eqn:E; simpl.
  - apply Qle_bool_iff in E as E'. repeat split; [done|done|apply Qle_bool_iff; lra].
  - apply Qle_bool_false_iff in E. repeat split; [done| |]; apply Qle_bool_iff; lra.
Qed.

Lemma le_trans_num (a b c : number) :
  (a <=? b)%num = true → (b <=? c)%num = true → (a <=? c)%num = true.
Proof.
  destruct a, b, c; simpl; try done. rewrite !Qle_bool_iff. intros. lra.
Qed.

Lemma bar_of_part (part whole : number) :
  Num.nonneg part → (part <=? whole)%num = true → numWithin 0 100 (barWidth part whole).
Proof.
  intros Hp Hle.
  by destruct (barWidth_numbers part part whole Hp (le_refl_nonneg part Hp) Hle) as [? _].
Qed.

Lemma safeNumber_nonneg (n : number) :
  nanOrNonneg n → Num.nonneg (Series.safeNumber n).
Proof. destruct n as [|q]; simpl; [intros _; vm_compute; discriminate|done]. Qed.

(** X26.  The outreach bars are scaled to the largest of the five totals:
    when those totals are numeric and non-negative every bar is between 0
    and 100.  The sales bars pass each total through [safeNumber] first, so
    they are between 0 and 100 even when a total is NaN. *)
Theorem scaled_bars_within_bounds (totals : Setter.Metrics) :
  (Num.nonneg (Setter.dailyOutboundConversations totals) →
   Num.nonneg (Setter.inboundConversations totals) →
   Num.nonneg (Setter.followUps totals) →
   Num.nonneg (Setter.callsProposed totals) →
   Num.nonneg (Setter.totalHighTicketSalesCallsBooked totals) →
   Forall (numWithin 0 100) (outreachWidths totals))
  ∧ (nanOrNonneg (Setter.setsScheduled totals) →
     nanOrNonneg (Setter.setsTaken totals) →
     nanOrNonneg (Setter.closedSets totals) →
     Forall (numWithin 0 100) (salesWidths totals)).
Proof.
  split.
  - intros Ha Hb Hc Hd He. unfold outreachWidths, outreachMaxValue.
    destruct (max2_upper _ _ Ha Hb) as (H1 & Ha1 & Hb1).
    destruct (max2_upper _ _ H1 Hc) as (H2 & H12 & Hc2).
    destruct (max2_upper _ _ H2 Hd) as (H3 & H23 & Hd3).
    destruct (max2_upper _ _ H3 He) as (H4 & H34 & He4).
    repeat constructor; apply bar_of_part; try done;
      eauto using le_trans_num.
  - intros Ha Hb Hc. unfold salesWidths, salesMaxValue.
    apply safeNumber_nonneg in Ha, Hb, Hc.
    destruct (max2_upper _ _ Ha Hb) as (H1 & Ha1 & Hb1).
    destruct (max2_upper _ _ H1 Hc) as (H2 & H12 & Hc2).
    repeat constructor; apply bar_of_part; try done;
      eauto using le_trans_num.
Qed.

End SetterChartsFacts.

Lemma scaled_bars_within_bounds_witness :
  let totals := Setter.day 1000 600 300 100 in
  Forall (numWithin 0 100) (SetterCharts.outreachWidths totals)
  ∧ Forall (numWithin 0 100) (SetterCharts.salesWidths totals).
Proof.
  intros totals.
  destruct (scaled_bars_within_bounds totals) as [H1 H2].
  split.
  - apply H1; vm_compute; discriminate.
  - apply H2; vm_compute; discriminate.
Defined.

(** ** The person filter *)

Section DropdownFacts.
Import Dropdown.

Lemma mapSet_keys key value m :
  map fst (mapSet key value m)
  = if decide (key ∈ map fst m) then map fst m else map fst m ++ [key].
Proof.
  induction m as [|[k v] m IH]; simpl.
  - destruct (decide (key ∈ [])) as [H|H]; [by apply elem_of_nil in H|done].
  - destruct (String.eqb_spec k key) as [->|Hne]; simpl.
    + rewrite decide_True; [done|]. apply elem_of_cons. by left.
    + rewrite IH.
      destruct (decide (key ∈ map fst m)) as [H|H];
        destruct (decide (key ∈ k :: map fst m)) as [H'|H']; try done.
      * exfalso. apply H'. apply elem_of_cons. by right.
      * exfalso. apply elem_of_cons in H' as [?|?]; congruence.
Qed.

Lemma mapSet_entries key value m k v :
  (k, v) ∈ mapSet key value m → (k = key ∧ v = value) ∨ (k, v) ∈ m.
Proof.
  induction m as [|[k0 v0] m IH]; simpl.
  - intros H. apply list_elem_of_singleton in H as [= -> ->]. by left.
  - destruct (String.eqb_spec k0 key) as [->|Hne].
    + intros H. apply elem_of_cons in H as [[= -> ->]|H]; [by left|].
      right. apply elem_of_cons. by right.
    + intros H. apply elem_of_cons in H as [[= -> ->]|H].
      * right. apply elem_of_cons. by left.
      * destruct (IH H) as [?|?]; [by left|]. right. apply elem_of_cons. by right.
Qed.

Lemma personMap_snoc l metric :
  personMap (l ++ [metric]) = mapSet (personId metric) (choiceOf metric) (personMap l).
Proof. unfold personMap. by rewrite fold_left_app. Qed.

Lemma personMap_spec l :
  NoDup (map fst (personMap l))
  ∧ (∀ key, key ∈ map fst (personMap l) ↔ ∃ metric, metric ∈ l ∧ personId metric = key)
  ∧ (∀ k v, (k, v) ∈ personMap l → ∃ metric, metric ∈ l ∧ k = personId metric ∧ v = choiceOf metric).
Proof.
  induction l as [|metric l (IHn & IHk & IHv)] using rev_ind.
  - split; [constructor|]. split.
    + intros key. simpl. split.
      * intros H. by apply elem_of_nil in H.
      * intros (metric & H & _). by apply elem_of_nil in H.
    + intros k v H. by apply elem_of_nil in H.
  - rewrite personMap_snoc. split; [|split].
    + rewrite mapSet_keys. destruct (decide _) as [Hin|Hin]; [done|].
      apply NoDup_app. split; [done|]. split; [|apply NoDup_singleton].
      intros k Hk Hk'. apply list_elem_of_singleton in Hk'. by subst.
    + intros key. rewrite mapSet_keys.
      assert (Hsnoc : (∃ r, r ∈ l ++ [metric] ∧ personId r = key)
                      ↔ (∃ r, r ∈ l ∧ personId r = key) ∨ personId metric = key).
      { split.
        - intros (r & Hr & Hkey). apply elem_of_app in Hr as [Hr|Hr]; [left; eauto|].
          apply list_elem_of_singleton in Hr as ->. by right.
        - intros [(r & Hr & Hkey)|Hkey].
          + exists r. split; [apply elem_of_app; by left|done].
          + exists metric. split; [|done].
            apply elem_of_app. right. by apply list_elem_of_singleton. }
      rewrite Hsnoc, <- IHk.
      destruct (decide _) as [Hin|Hin].
      * split; [by left|]. intros [?|<-]; done.
      * rewrite elem_of_app, list_elem_of_singleton.
        split; (intros [?|?]; [by left|by right]).
    + intros k v Hin. apply mapSet_entries in Hin as [[-> ->]|Hin].
      * exists metric. split; [|done]. apply elem_of_app. right.
        by apply list_elem_of_singleton.
      * destruct (IHv k v Hin) as (r & Hr & ? & ?). exists r.
        split; [apply elem_of_app; by left|done].
Qed.

(** X27.  The person filter offers every person that has a row in the data
    exactly once: the ids of its options are pairwise distinct, an id is
    offered exactly when some row carries it, and the name beside it is the
    first and last name of a row of that person. *)
Theorem person_filter_options (localeCompare : string → string → Z)
    (metrics : list MetricRow) :
  let options := persons localeCompare metrics in
  NoDup (map id options)
  ∧ (∀ person, person ∈ map id options
               ↔ ∃ metric, metric ∈ metrics ∧ personId metric = person)
  ∧ (∀ option, option ∈ options →
       ∃ metric, metric ∈ metrics ∧ option = choiceOf metric).
Proof.
  cbv zeta. unfold persons, uniquePersons.
  destruct (personMap_spec metrics) as (Hn & Hk & Hv).
  assert (Hids : map id (map snd (personMap metrics)) = map fst (personMap metrics)).
  { rewrite map_map. apply map_ext_in. intros [k v] Hin. simpl.
    apply list_elem_of_In in Hin. destruct (Hv k v Hin) as (r & _ & -> & ->). done. }
  assert (Hperm : map id (Series.sort (λ a b, localeCompare (name a) (name b))
                            (map snd (personMap metrics)))
                  ≡ₚ map fst (personMap metrics)).
  { rewrite <- Hids. apply Permutation_map. apply sort_Permutation. }
  split; [by rewrite Hperm|]. split.
  - intros person. rewrite Hperm. apply Hk.
  - intros option Hin. rewrite sort_Permutation in Hin.
    apply list_elem_of_fmap in Hin as ([k v] & -> & Hin). simpl.
    destruct (Hv k v Hin) as (r & Hr & _ & ->). eauto.
Qed.

End DropdownFacts.

(** ** Points of the series are finite *)

Section SeriesFinite.
Import Series.

Lemma total_finite (field : SetterMetrics → number) (l : list SetterMetrics) :
  Num.isNaN (total field l) = false.
Proof.
  unfold total.
  assert (Hgen : ∀ acc, Num.isNaN acc = false →
            Num.isNaN (fold_left (λ acc metric, acc + safeNumber (field metric))%num l acc)
            = false).
  { induction l as [|metric l IH]; intros acc Hacc; simpl; [done|].
    apply IH. destruct acc as [|a]; [done|].
    unfold safeNumber. by destruct (field metric). }
  by apply Hgen.
Qed.

(** X28.  Whatever the records carry, NaN included, no point of the four
    revenue lines is NaN: every amount goes through [safeNumber] before it
    is added to its bucket. *)
Theorem series_points_finite (dayKey : string → string) (getTime : string → Z)
    (settersMetrics : list SetterMetrics) :
  Forall (λ point, Num.isNaN point = false)
    (dataset dayKey getTime b_revenueGenerated settersMetrics
     ++ dataset dayKey getTime b_newCashCollected settersMetrics
     ++ dataset dayKey getTime b_recurringCashCollected settersMetrics
     ++ dataset dayKey getTime b_downsellRevenue settersMetrics).
Proof.
  rewrite (dataset_totals dayKey getTime b_revenueGenerated revenueGenerated) by done.
  rewrite (dataset_totals dayKey getTime b_newCashCollected newCashCollected) by done.
  rewrite (dataset_totals dayKey getTime b_recurringCashCollected recurringCashCollected)
    by done.
  rewrite (dataset_totals dayKey getTime b_downsellRevenue downsellRevenue) by done.
  rewrite !Forall_app. repeat split; apply Forall_map, Forall_forall;
    intros key _; apply total_finite.
Qed.

End SeriesFinite.

(** ** An inverted custom range on the page *)

Section InvertedRange.
Import Date Range.

Variable parseISO : string → option Z.
Variable toZonedTime : Z → Z.

(** X29.  A custom range whose end lies two days or more before its start
    reaches the page with day counts of zero or less; the guards of the
    averages then make every per-day average 0 and every delta 0, whatever
    the totals. *)
Theorem inverted_range_shows_zero (startDate endDate : string) parsedStart parsedEnd now
    (total previousTotal : number) :
  startDate ≠ "" → endDate ≠ "" →
  parseISO startDate = Some parsedStart → parseISO endDate = Some parsedEnd →
  (dayOf (toZonedTime parsedEnd) + 2 ≤ dayOf (toZonedTime parsedStart))%Z →
  let w := resolve parseISO toZonedTime "custom" (Some startDate) (Some endDate) now in
  (daysInRange w ≤ 0)%Z
  ∧ avgPerDay total (Num.of_Z (daysInRange w)) = Num.of_Z 0
  ∧ prevAvgPerDay previousTotal (Num.of_Z (daysInPreviousRange w)) = Num.of_Z 0
  ∧ perDayDiff total (Num.of_Z (daysInRange w))
      previousTotal (Num.of_Z (daysInPreviousRange w)) = Num.of_Z 0.
Proof.
  intros Hs He Hps Hpe Hlt.
  rewrite (resolve_custom_parsed parseISO toZonedTime _ _ _ _ now Hs He Hps Hpe). cbv zeta.
  cbn [daysInRange daysInPreviousRange].
  rewrite differenceInDays_bounds.
  assert (Hgt : (dayOf (toZonedTime parsedStart) <=? dayOf (toZonedTime parsedEnd))%Z = false)
    by (apply Z.leb_gt; lia).
  rewrite Hgt.
  set (n := (dayOf (toZonedTime parsedEnd) - dayOf (toZonedTime parsedStart) + 1 + 1)%Z).
  assert (Hn : (n ≤ 0)%Z) by (subst n; lia).
  assert (Hguard : (Num.of_Z n >? Num.zero)%num = false).
  { unfold Num.of_Z, Num.gt, Num.lt, Num.zero. apply Qltb_false.
    change 0%Q with (inject_Z 0). rewrite <- Zle_Qle. done. }
  assert (Havg : avgPerDay total (Num.of_Z n) = Num.of_Z 0)
    by (unfold avgPerDay; by rewrite Hguard).
  assert (Hprev : prevAvgPerDay previousTotal (Num.of_Z n) = Num.of_Z 0)
    by (unfold prevAvgPerDay; by rewrite Hguard).
  split; [done|]. split; [done|]. split; [done|].
  unfold perDayDiff. rewrite Havg, Hprev. vm_compute. reflexivity.
Qed.

End InvertedRange.

Lemma inverted_range_shows_zero_witness :
  let w := Range.resolve Date.isoDate id "custom"
             (Some "2025-04-13") (Some "2025-04-07") 1745163000000 in
  perDayDiff (Num.of_Z 120) (Num.of_Z (Range.daysInRange w))
    (Num.of_Z 90) (Num.of_Z (Range.daysInPreviousRange w)) = Num.of_Z 0.
Proof.
  intros w.
  refine (proj2 (proj2 (proj2 (inverted_range_shows_zero Date.isoDate id
            "2025-04-13" "2025-04-07" 1744502400000 1743984000000 1745163000000
            (Num.of_Z 120) (Num.of_Z 90) _ _ _ _ _)))).
  - discriminate.
  - discriminate.
  - vm_compute. reflexivity.
  - vm_compute. reflexivity.
  - vm_compute. discriminate.
Defined.
